(** * Watson: the synchronisation core (watson.py, artichio.py)

    A shallow embedding of the pull/push/merge engine of the Watson time
    tracker and of its artich.io HTTP backend, with the properties the
    specification states about them. *)

From Stdlib Require Import ZArith String Ascii List Bool Lia.
From stdpp Require Import base decidable option list strings pretty gmap fin_maps.

Local Open Scope Z_scope.

(** ** Python values shared by both modules *)

(** Python's truthiness of a [str]. *)
Definition truthy (s : string) : bool :=
  match s with
  | EmptyString => false
  | String _ _ => true
  end.

Module Py.

(** [c in chars], for a one-character [c]. *)
Fixpoint char_in (c : ascii) (chars : string) : bool :=
  match chars with
  | EmptyString => false
  | String d rest => if Ascii.eqb c d then true else char_in c rest
  end.

(** [s.lstrip(chars)]: drop the longest prefix made of characters of
    [chars]. *)
Fixpoint lstrip (chars s : string) : string :=
  match s with
  | EmptyString => EmptyString
  | String c rest => if char_in c chars then lstrip chars rest else s
  end.

(** [s.rstrip(chars)]: drop the longest suffix made of characters of
    [chars]. *)
Fixpoint rstrip (chars s : string) : string :=
  match s with
  | EmptyString => EmptyString
  | String c rest =>
      match rstrip chars rest with
      | EmptyString => if char_in c chars then EmptyString else String c EmptyString
      | String _ _ as kept => String c kept
      end
  end.

(** [s.strip(chars)] strips both ends. *)
Definition strip (chars s : string) : string := rstrip chars (lstrip chars s).

(** [c * n] for a one-character string. *)
Fixpoint times (c : ascii) (n : nat) : string :=
  match n with
  | O => EmptyString
  | S k => String c (times c k)
  end.

Definition starts_with (c : ascii) (s : string) : bool :=
  match s with
  | EmptyString => false
  | String d _ => Ascii.eqb d c
  end.

Fixpoint ends_with (c : ascii) (s : string) : bool :=
  match s with
  | EmptyString => false
  | String d EmptyString => Ascii.eqb d c
  | String _ rest => ends_with c rest
  end.

End Py.

(** ** Exceptions

    [watson.py] declares [WatsonError(RuntimeError)] and
    [ConfigurationError(WatsonError, configparser.Error)]; the other classes
    are Python's built-ins that the modelled paths can raise. *)

Inductive ExcType : Type :=
| WatsonError
| ConfigurationError
| TypeError
| ValueError
| KeyError.

#[global] Instance ExcType_eq_dec : EqDecision ExcType.
Proof. solve_decision. Defined.

(** [issubclass sub sup] over the classes above. *)
Definition issubclass (sub sup : ExcType) : bool :=
  match sub, sup with
  | WatsonError, WatsonError => true
  | ConfigurationError, (ConfigurationError | WatsonError) => true
  | TypeError, TypeError => true
  | ValueError, ValueError => true
  | KeyError, KeyError => true
  | _, _ => false
  end.

Record Exception : Type := mkExc { exc_type : ExcType; exc_msg : string }.

Inductive Result (A : Type) : Type :=
| Ok (a : A)
| Raise (e : Exception).
Arguments Ok {A} a.
Arguments Raise {A} e.

(** ** Frames *)

Definition Timestamp : Type := Z.

(** Modelled from the spec: [Frame] of frames.py, which is not among the
    sources.  Section 3 of the specification gives its fields; two frames are
    equal only when every field is. *)
Record Frame : Type := mkFrame {
  start : Timestamp;
  stop : Timestamp;
  project : string;
  id : string;
  tags : list string;
  updated_at : Timestamp
}.

#[global] Instance Frame_eq_dec : EqDecision Frame.
Proof. solve_decision. Defined.

(** Modelled from the spec: [Frames] of frames.py, which is not among the
    sources.  Section 3 describes it as a mapping from [id] to [Frame] with a
    membership test by id, a lookup by id that fails when the id is absent,
    insertion or overwrite by id, iteration, and a flag for unsaved
    mutation. *)
Record Frames : Type := mkFrames {
  rows : gmap string Frame;
  changed : bool
}.

Module FramesOps.

(** [key in frames] *)
Definition contains (key : string) (fs : Frames) : bool :=
  bool_decide (is_Some (rows fs !! key)).

(** [frames[key]]; [None] stands for the [KeyError]. *)
Definition getitem (key : string) (fs : Frames) : option Frame :=
  rows fs !! key.

(** [frames[key] = frame] *)
Definition setitem (key : string) (f : Frame) (fs : Frames) : Frames :=
  {| rows := <[key := f]> (rows fs); changed := true |}.

(** [iter(frames)] *)
Definition iter (fs : Frames) : list Frame :=
  (map_to_list (rows fs)).*2.

End FramesOps.

(** ** Configuration

    The three options of the [backend] section that the core reads;
    [None] is what [config.get] returns for an option that is not set. *)
Record Config : Type := mkConfig {
  backend_url : option string;
  backend_token : option string;
  backend_name : option string
}.

(** ** The wire

    What [requests] sends and what comes back.  A reply is either the
    [requests.ConnectionError] or a response with a status code and a body;
    [json = None] is a body that [response.json()] cannot decode. *)

Inductive Method : Type := GET | POST.

Record RemoteProject : Type := mkProject { p_name : string; p_url : string }.

(** A frame as the remote sends it: [project] is the remote URL of the
    project, [updated_at] may be missing. *)
Record WireFrame : Type := mkWireFrame {
  w_start : Timestamp;
  w_stop : Timestamp;
  w_project : string;
  w_id : string;
  w_tags : list string;
  w_updated_at : option Timestamp
}.

(** One element of the array that [push] uploads. *)
Record UploadRecord : Type := mkUpload {
  u_id : string;
  u_start : string;
  u_stop : string;
  u_project : string;
  u_tags : list string
}.

(** A decoded JSON body.  The two arrays hold well-formed objects of one
    kind and share their empty array; [Document] is a body that is truthy and
    iterable but yields no object, such as a non-empty JSON object (iterating
    it gives its keys, which are strings) or a non-empty string;
    [EmptyDocument] is the empty object or the empty string; [Scalar] is a
    number or a boolean, which cannot be iterated over, with its truth
    value. *)
Inductive Payload : Type :=
| ProjectList (ps : list RemoteProject)
| FrameList (fs : list WireFrame)
| Null
| Document (text : string)
| EmptyDocument
| Scalar (text : string) (truth : bool).

Record Request : Type := mkRequest {
  method : Method;
  dest : string;
  headers : list (string * string);
  params : option Timestamp;
  data : option (list UploadRecord)
}.

Record Response : Type := mkResponse {
  status_code : Z;
  json : option Payload
}.

Inductive Reply : Type :=
| ConnectionError
| Responded (response : Response).

(** The remote: its reply to a request may depend on the requests it has
    received before. *)
Definition Server : Type := list Request -> Request -> Reply.

(** ** A state and exception monad

    A computation reads and writes a state [S] and either returns or raises;
    the state a raise leaves behind is the state reached so far, as in
    Python. *)

Definition M (S A : Type) : Type := S -> Result A * S.

Definition ret {S A} (a : A) : M S A := fun s => (Ok a, s).

Definition raise {S A} (e : Exception) : M S A := fun s => (Raise e, s).

Definition bind {S A B} (c : M S A) (k : A -> M S B) : M S B :=
  fun s =>
    match c s with
    | (Ok a, s') => k a s'
    | (Raise e, s') => (Raise e, s')
    end.

Definition lift {S A} (r : Result A) : M S A := fun s => (r, s).

Definition gets {S A} (f : S -> A) : M S A := fun s => (Ok (f s), s).

Definition modify {S} (f : S -> S) : M S unit := fun s => (Ok tt, f s).

Notation "x <- c ;; k" := (bind c (fun x => k))
  (at level 100, c at next level, right associativity).
Notation "c ;;; k" := (bind c (fun _ => k))
  (at level 100, right associativity).

(** ** artichio.py *)

Module ArtichIO.

Definition configuration_error : Exception :=
  mkExc ConfigurationError
    ("You must specify a remote URL (backend.url) and a token "
     +:+ "(backend.token) using the config command.").

Definition unreachable : Exception :=
  mkExc WatsonError "Unable to reach the server.".

(** [_get_request_info(route)] *)
Definition _get_request_info (config : Config) (route : string)
  : Result (string * list (string * string)) :=
  match backend_url config, backend_token config with
  | Some url, Some token =>
      if truthy url && truthy token then
        Ok (Py.rstrip "/" url +:+ "/" +:+ Py.strip "/" route +:+ "/",
            [("content-type", "application/json");
             ("Authorization", "Token " +:+ token)])
      else Raise configuration_error
  | _, _ => Raise configuration_error
  end.

(** An [ArtichIOSync] instance.  [_remote_projects] is [None] while
    [hasattr(self, '_remote_projects')] is false. *)
Record ArtichIOSync : Type := mkSync {
  config : Config;
  _remote_projects : option Payload
}.

(** [ArtichIOSync(config)] *)
Definition __init__ (cfg : Config) : ArtichIOSync :=
  {| config := cfg; _remote_projects := None |}.

(** The instance together with the requests sent so far, oldest first. *)
Record Session : Type := mkSession {
  self : ArtichIOSync;
  sent : list Request
}.

Definition set_remote_projects (listing : Payload) : M Session unit :=
  modify (fun s =>
    {| self := {| config := config (self s); _remote_projects := Some listing |};
       sent := sent s |}).

Section Backend.

Variable server : Server.
(** [str(x)] of a decoded body, as ["{}".format] renders it. *)
Variable py_str : Payload -> string.
(** [str(t)] of an [arrow] instant. *)
Variable arrow_str : Timestamp -> string.
(** The instant [Frame] stamps on a frame that arrives without
    [updated_at]. *)
Variable utcnow : Timestamp.

Definition remote_error (body : Payload) : Exception :=
  mkExc WatsonError
    ("An error occured with the remote server: " +:+ py_str body).

(** [requests.get] and [requests.post]: the request goes out, the reply
    is the server's. *)
Definition send (req : Request) : M Session Reply :=
  fun s =>
    (Ok (server (sent s) req),
     {| self := self s; sent := sent s ++ [req] |}).

Definition requests_get (dest : string) (params : option Timestamp)
    (headers : list (string * string)) : M Session Reply :=
  send (mkRequest GET dest headers params None).

Definition requests_post (dest : string) (data : list UploadRecord)
    (headers : list (string * string)) : M Session Reply :=
  send (mkRequest POST dest headers None (Some data)).

(** [response.json()] *)
Definition response_json (response : Response) : M Session Payload :=
  match json response with
  | Some body => ret body
  | None => raise (mkExc ValueError "No JSON object could be decoded")
  end.

(** [_get_remote_projects()] *)
Definition _get_remote_projects : M Session Payload :=
  this <- gets self ;;
  match _remote_projects this with
  | Some listing => ret listing
  | None =>
      info <- lift (_get_request_info (config this) "projects") ;;
      let '(dest, headers) := info in
      reply <- requests_get dest None headers ;;
      match reply with
      | ConnectionError => raise unreachable
      | Responded response =>
          if status_code response =? 200 then
            listing <- response_json response ;;
            set_remote_projects listing ;;;
            ret listing
          else
            body <- response_json response ;;
            raise (remote_error body)
      end
  end.

(** What iterating over a decoded body in search of objects comes to: the
    objects; something else, whose subscripting raises [e]; or the
    [TypeError] of a body that cannot be iterated over. *)
Inductive Elements (A : Type) : Type :=
| Objects (items : list A)
| Strangers (e : Exception)
| NotIterable (e : Exception).
Arguments Objects {A} items.
Arguments Strangers {A} e.
Arguments NotIterable {A} e.

Definition not_iterable : Exception :=
  mkExc TypeError "object is not iterable".

Definition not_an_object : Exception :=
  mkExc TypeError "string indices must be integers".

(** The [p[key] ... for p in self._get_remote_projects()] of a lookup, with
    [key] the first key it subscripts a project with.  An empty array, object
    or string has nothing to look at; the objects of a frame array have no
    [key]; what a [Document] yields cannot be subscripted with a string;
    [None] and a scalar cannot be iterated over. *)
Definition project_objects (key : string) (listing : Payload)
  : Result (list RemoteProject) :=
  match listing with
  | ProjectList ps => Ok ps
  | FrameList [] => Ok []
  | EmptyDocument => Ok []
  | FrameList (_ :: _) => Raise (mkExc KeyError ("'" +:+ key +:+ "'"))
  | Document _ => Raise not_an_object
  | Null => Raise (mkExc TypeError "'NoneType' object is not iterable")
  | Scalar _ _ => Raise not_iterable
  end.

(** The [response.json() or ()] that [pull] iterates over: a falsy body
    gives the empty tuple. *)
Definition frame_elements (body : Payload) : Elements WireFrame :=
  match body with
  | FrameList fs => Objects fs
  | ProjectList [] => Objects []
  | Null => Objects []
  | EmptyDocument => Objects []
  | Scalar _ false => Objects []
  | Scalar _ true => NotIterable not_iterable
  | Document _ => Strangers not_an_object
  | ProjectList (_ :: _) => Strangers (mkExc KeyError "'project'")
  end.

(** The frames of a body, when it has nothing but frames. *)
Definition frame_objects (body : Payload) : Result (list WireFrame) :=
  match frame_elements body with
  | Objects fs => Ok fs
  | Strangers e => Raise e
  | NotIterable e => Raise e
  end.

(** [Frame(frame['start'], frame['stop'], project, frame['id'],
    frame['tags'], frame.get('updated_at'))] *)
Definition Frame_of_wire (frame : WireFrame) (project : string) : Frame :=
  {| start := w_start frame;
     stop := w_stop frame;
     project := project;
     id := w_id frame;
     tags := w_tags frame;
     updated_at := default utcnow (w_updated_at frame) |}.

(** What a generator has done when its consumer is through with it: the
    values it yielded, in order, and the exception that ended it, if
    any. *)
Definition Generated (A : Type) : Type := (list A * option Exception)%type.

(** The [for frame in response.json() or ():] loop of [pull]; [yielded]
    are the frames yielded so far. *)
Fixpoint pull_loop (frames : list WireFrame) (yielded : list Frame)
  : Session -> Generated Frame * Session :=
  match frames with
  | [] => fun s => ((yielded, None), s)
  | frame :: rest => fun s =>
      match _get_remote_projects s with
      | (Raise e, s') => ((yielded, Some e), s')
      | (Ok listing, s') =>
          match project_objects "url" listing with
          | Raise e => ((yielded, Some e), s')
          | Ok ps =>
              match List.find (fun p => String.eqb (p_url p) (w_project frame)) ps with
              | None =>
                  (* the handler subscripts the URL, a str, with 'id' *)
                  ((yielded,
                    Some (mkExc TypeError "string indices must be integers")), s')
              | Some p =>
                  pull_loop rest (yielded ++ [Frame_of_wire frame (p_name p)]) s'
              end
          end
      end
  end.

(** [pull(last_sync)], a generator. *)
Definition pull (last_sync : Timestamp) : Session -> Generated Frame * Session :=
  fun s =>
    match _get_request_info (config (self s)) "frames" with
    | Raise e => (([], Some e), s)
    | Ok (dest, headers) =>
        match requests_get dest (Some last_sync) headers s with
        | (Raise e, s') => (([], Some e), s')
        | (Ok ConnectionError, s') => (([], Some unreachable), s')
        | (Ok (Responded response), s') =>
            if status_code response =? 200 then
              match json response with
              | None =>
                  (([], Some (mkExc ValueError "No JSON object could be decoded")), s')
              | Some body =>
                  match frame_elements body with
                  | Objects frames => pull_loop frames [] s'
                  | NotIterable e => (([], Some e), s')
                  | Strangers e =>
                      (* the first iteration asks for the listing, and the
                         lookup then fails on the frame or on the listing *)
                      match _get_remote_projects s' with
                      | (Raise e', s'') => (([], Some e'), s'')
                      | (Ok listing, s'') =>
                          match project_objects "url" listing with
                          | Raise e' => (([], Some e'), s'')
                          | Ok _ => (([], Some e), s'')
                          end
                      end
                  end
              end
            else
              match response_json response s' with
              | (Ok body, s'') => (([], Some (remote_error body)), s'')
              | (Raise e, s'') => (([], Some e), s'')
              end
        end
    end.

Definition missing_project (frame : Frame) : Exception :=
  mkExc WatsonError
    ("The project " +:+ project frame
     +:+ " does not exists on the remote server, "
     +:+ "please create it or edit the frame (id: " +:+ id frame +:+ ")").

(** The [for frame in frames:] loop of [push]. *)
Fixpoint push_loop (frames : list Frame) (to_upload : list UploadRecord)
  : M Session (list UploadRecord) :=
  match frames with
  | [] => ret to_upload
  | frame :: rest =>
      listing <- _get_remote_projects ;;
      ps <- lift (project_objects "name" listing) ;;
      match List.find (fun p => String.eqb (p_name p) (project frame)) ps with
      | None => raise (missing_project frame)
      | Some p =>
          push_loop rest
            (to_upload ++
             [{| u_id := id frame;
                 u_start := arrow_str (start frame);
                 u_stop := arrow_str (stop frame);
                 u_project := p_url p;
                 u_tags := tags frame |}])
      end
  end.

(** [push(frames)] *)
Definition push (frames : list Frame) : M Session (list UploadRecord) :=
  this <- gets self ;;
  info <- lift (_get_request_info (config this) "frames/bulk") ;;
  let '(dest, headers) := info in
  to_upload <- push_loop frames [] ;;
  reply <- requests_post dest to_upload headers ;;
  match reply with
  | ConnectionError => raise unreachable
  | Responded response =>
      if status_code response =? 201 then ret to_upload
      else
        body <- response_json response ;;
        raise (remote_error body)
  end.

End Backend.

End ArtichIO.

(** ** watson.py *)

Module Watson.

(** What a sync backend class offers once it is instantiated on a
    configuration: [pull], a generator of frames, and [push].  Both talk to
    the remote, so both take the requests sent so far and return them
    extended. *)
Record SyncBackend : Type := mkBackend {
  backend_pull :
    Config -> Timestamp -> list Request ->
    ArtichIO.Generated Frame * list Request;
  backend_push :
    Config -> list Frame -> list Request ->
    Result (list UploadRecord) * list Request
}.

(** The class [ArtichIOSync] as an entry point of the [watson.sync]
    group: every call builds a new instance on the configuration. *)
Definition ArtichIOSync (server : Server) (py_str : Payload -> string)
    (arrow_str : Timestamp -> string) (utcnow : Timestamp) : SyncBackend :=
  {| backend_pull cfg last_sync wire :=
       let '(generated, s) :=
         ArtichIO.pull server py_str utcnow last_sync
           (ArtichIO.mkSession (ArtichIO.__init__ cfg) wire) in
       (generated, ArtichIO.sent s);
     backend_push cfg frames wire :=
       let '(uploaded, s) :=
         ArtichIO.push server py_str arrow_str frames
           (ArtichIO.mkSession (ArtichIO.__init__ cfg) wire) in
       (uploaded, ArtichIO.sent s) |}.

(** A [Watson] object whose [frames], [last_sync] and [config] properties
    have been read from their files or given to the constructor. *)
Record Watson : Type := mkWatson {
  frames : Frames;
  last_sync : Timestamp;
  config : Config
}.

(** The object and the requests that have left the process, oldest
    first. *)
Record World : Type := mkWorld {
  this : Watson;
  wire : list Request
}.

Section Engine.

(** [pkg_resources.iter_entry_points('watson.sync')]: each plugin's name
    and what [plugin.load()] gives, the class or the exception. *)
Variable entry_points : list (string * Result SyncBackend).

(** [_load_backend()] *)
Definition _load_backend (w : Watson) : Result SyncBackend :=
  let name :=
    match backend_name (config w) with
    | Some configured => configured
    | None => "artichio"
    end in
  if negb (truthy name) then
    Raise (mkExc WatsonError "Sync backend name must not be empty.")
  else
    match List.find (fun plugin => String.eqb (fst plugin) name) entry_points with
    | Some (_, Ok cls) => Ok cls
    | Some (_, Raise exc) =>
        Raise (mkExc WatsonError
                 ("Sync backend '" +:+ name +:+ "' failed to load: "
                  +:+ exc_msg exc))
    | None =>
        Raise (mkExc WatsonError
                 ("Sync backend '" +:+ name +:+ "' is not installed."))
    end.

(** [frame.id not in self.frames or frame.updated_at > last_sync] *)
Definition applies (last_sync : Timestamp) (store : Frames) (frame : Frame) : bool :=
  negb (FramesOps.contains (id frame) store) || (last_sync <? updated_at frame).

(** The [for frame in backend.pull(last_sync):] loop, over the frames the
    generator yields; [store] is [self.frames]. *)
Fixpoint pull_loop (last_sync : Timestamp) (incoming : list Frame)
    (store : Frames) (frames : list Frame) : Frames * list Frame :=
  match incoming with
  | [] => (store, frames)
  | frame :: rest =>
      if applies last_sync store frame then
        pull_loop last_sync rest
          (FramesOps.setitem (id frame) frame store) (frames ++ [frame])
      else
        pull_loop last_sync rest store frames
  end.

(** [pull()] *)
Definition pull : M World (list Frame) :=
  fun world =>
    let w := this world in
    match _load_backend w with
    | Raise e => (Raise e, world)
    | Ok backend =>
        let last_sync := last_sync w in
        let '((yielded, ending), wire') :=
          backend_pull backend (config w) last_sync (wire world) in
        let '(store, frames) := pull_loop last_sync yielded (frames w) [] in
        (match ending with
         | None => Ok frames
         | Some e => Raise e
         end,
         {| this := {| frames := store;
                       last_sync := Watson.last_sync w;
                       config := config w |};
            wire := wire' |})
    end.

(** [(frame for frame in self.frames
      if last_pull > frame.updated_at > self.last_sync)] *)
Definition push_batch (w : Watson) (last_pull : Timestamp) : list Frame :=
  List.filter
    (fun frame =>
       (updated_at frame <? last_pull) && (last_sync w <? updated_at frame))
    (FramesOps.iter (frames w)).

(** [push(last_pull)] *)
Definition push (last_pull : Timestamp) : M World (list UploadRecord) :=
  fun world =>
    let w := this world in
    match _load_backend w with
    | Raise e => (Raise e, world)
    | Ok backend =>
        let '(uploaded, wire') :=
          backend_push backend (config w) (push_batch w last_pull) (wire world) in
        (uploaded, {| this := w; wire := wire' |})
    end.

(** The [for conflict_frame in conflict_file_frames:] loop of
    [merge_report]. *)
Fixpoint merge_loop (store : Frames) (conflict_frames : list Frame)
    (conflicting merging : list Frame) : list Frame * list Frame :=
  match conflict_frames with
  | [] => (conflicting, merging)
  | conflict_frame :: rest =>
      match FramesOps.getitem (id conflict_frame) store with
      | Some original_frame =>
          if bool_decide (original_frame <> conflict_frame) then
            merge_loop store rest (conflicting ++ [conflict_frame]) merging
          else
            merge_loop store rest conflicting merging
      | None =>
          merge_loop store rest conflicting (merging ++ [conflict_frame])
      end
  end.

(** [merge_report(frames_with_conflict)], on the [Frames] built from the
    content of that file. *)
Definition merge_report (w : Watson) (conflict_file_frames : Frames)
  : list Frame * list Frame :=
  merge_loop (frames w) (FramesOps.iter conflict_file_frames) [] [].

End Engine.

End Watson.

(** ** watson.py: the files and the frame in progress *)

Module Tracking.

(** What [open(filename)] followed by [json.load] comes to: the [IOError] of
    a file that cannot be opened, the [ValueError] of a file of [size] bytes
    that is not JSON, any other exception, or the decoded value. *)
Inductive Read (A : Type) : Type :=
| CannotOpen
| NotJson (size : nat) (why : string)
| Failed (why : string)
| Loaded (value : A).
Arguments CannotOpen {A}.
Arguments NotJson {A} size why.
Arguments Failed {A} why.
Arguments Loaded {A} value.

(** [_load_json_file(filename, type)]; [type] is the value of [type()]. *)
Definition _load_json_file {A : Type} (filename : string) (read : Read A)
    (type : A) : Result A :=
  match read with
  | Loaded value => Ok value
  | CannotOpen => Ok type
  | NotJson size why =>
      if Nat.eqb size 0 then Ok type
      else
        Raise (mkExc WatsonError
                 ("Invalid JSON file " +:+ filename +:+ ": " +:+ why))
  | Failed why =>
      Raise (mkExc WatsonError
               ("Unexpected error while loading JSON file " +:+ filename
                +:+ ": " +:+ why))
  end.

(** A dict handed to the [current] setter: each of the three keys it looks
    at may be missing. *)
Record RawState : Type := mkRaw {
  r_project : option string;
  r_start : option Timestamp;
  r_tags : option (list string)
}.

(** [dict()] *)
Definition empty_dict : RawState := mkRaw None None None.

(** The dict [{'project': ..., 'start': ..., 'tags': ...}] that [_current]
    holds while a frame is in progress; [None] below stands for the empty
    dict. *)
Record Started : Type := mkStarted {
  cur_project : string;
  cur_start : Timestamp;
  cur_tags : list string
}.

(** The attributes of a [Watson] object that the frame in progress and the
    cursor live in; [None] is Python's. *)
Record Instance : Type := mkInstance {
  _current : option (option Started);
  _old_state : option (option Started);
  _last_sync : option Timestamp;
  state_file : string;
  last_sync_file : string
}.

(** What the machine gives at the moment of a call: what reading the two
    files would give and, for each timestamp that [arrow] cannot turn into a
    local date there, the exception it raises instead. *)
Record Disk : Type := mkDisk {
  state_read : Read RawState;
  last_sync_read : Read Timestamp;
  date_error : Timestamp -> option Exception
}.

(** [_parse_date(date)]:
    [arrow.Arrow.utcfromtimestamp(date).to('local')], the same instant as a
    local date, or the exception of a timestamp that has no date. *)
Definition _parse_date (disk : Disk) (date : Timestamp) : Result Timestamp :=
  match date_error disk date with
  | None => Ok date
  | Some e => Raise e
  end.

Definition with_current (cur : option Started) (t : Instance) : Instance :=
  {| _current := Some cur;
     _old_state :=
       match _old_state t with
       | None => Some cur
       | Some old => Some old
       end;
     _last_sync := _last_sync t;
     state_file := state_file t;
     last_sync_file := last_sync_file t |}.

(** The [current] setter; [now] is [arrow.now()], which is an [Arrow]
    already, while a start that the value brings is a timestamp and goes
    through [_parse_date] before anything is assigned. *)
Definition set_current (disk : Disk) (value : option RawState)
    (now : Timestamp) : M Instance unit :=
  match value with
  | Some {| r_project := Some project; r_start := start; r_tags := tags |} =>
      start <- match start with
               | Some date => lift (_parse_date disk date)
               | None => ret now
               end ;;
      modify (with_current
                (Some {| cur_project := project;
                         cur_start := start;
                         cur_tags := default [] tags |}))
  | _ => modify (with_current None)
  end.

(** The [current] getter. *)
Definition current (disk : Disk) (now : Timestamp) : M Instance (option Started) :=
  t <- gets (fun t => t) ;;
  (match _current t with
   | None =>
       value <- lift (_load_json_file (state_file t) (state_read disk) empty_dict) ;;
       set_current disk (Some value) now
   | Some _ => ret tt
   end) ;;;
  modify (fun t =>
            match _old_state t with
            | None =>
                {| _current := _current t;
                   _old_state := _current t;
                   _last_sync := _last_sync t;
                   state_file := state_file t;
                   last_sync_file := last_sync_file t |}
            | Some _ => t
            end) ;;;
  t <- gets (fun t => t) ;;
  match _current t with
  | Some cur => ret cur
  | None => raise (mkExc TypeError "'NoneType' object is not iterable")
  end.

(** [is_started]: [bool(self.current)]. *)
Definition is_started (disk : Disk) (now : Timestamp) : M Instance bool :=
  cur <- current disk now ;;
  ret (match cur with Some _ => true | None => false end).

(** [start(project, tags)].  [self.is_started] is [bool(self.current)], and
    the [self.current['project']] of the error message reads the dict that
    this first read has returned. *)
Definition start (disk : Disk) (now : Timestamp) (project : string)
    (tags : option (list string)) : M Instance (option Started) :=
  if negb (truthy project) then raise (mkExc WatsonError "No project given.")
  else
    cur <- current disk now ;;
    match cur with
    | Some running =>
        raise (mkExc WatsonError
                 ("Project " +:+ cur_project running +:+ " is already started."))
    | None =>
        set_current disk (Some (mkRaw (Some project) None tags)) now ;;;
        current disk now
    end.

(** [cancel()] *)
Definition cancel (disk : Disk) (now : Timestamp) : M Instance (option Started) :=
  started <- is_started disk now ;;
  if negb started then raise (mkExc WatsonError "No project started.")
  else
    old_current <- current disk now ;;
    set_current disk None now ;;;
    ret old_current.

(** The [last_sync] setter: [arrow.get(0)] for a falsy value, and
    [_parse_date] for any other timestamp before anything is assigned. *)
Definition set_last_sync (disk : Disk) (value : Timestamp) : M Instance unit :=
  date <- (if value =? 0 then ret 0 else lift (_parse_date disk value)) ;;
  modify (fun t =>
            {| _current := _current t;
               _old_state := _old_state t;
               _last_sync := Some date;
               state_file := state_file t;
               last_sync_file := last_sync_file t |}).

(** The [last_sync] getter; [int()] is [0]. *)
Definition last_sync (disk : Disk) : M Instance (option Timestamp) :=
  t <- gets (fun t => t) ;;
  (match _last_sync t with
   | None =>
       value <- lift (_load_json_file (last_sync_file t) (last_sync_read disk) 0) ;;
       set_last_sync disk value
   | Some _ => ret tt
   end) ;;;
  gets _last_sync.

End Tracking.

(** * The specification's vocabulary

    Definitions that follow the words of the specification, to be compared
    with what the code computes. *)

(** Following the specification's words: [g] conflicts when the local store
    has a frame under [g.id] that differs from [g] in some field. *)
Definition is_conflicting (store : Frames) (g : Frame) : bool :=
  match FramesOps.getitem (id g) store with
  | Some original => negb (bool_decide (original = g))
  | None => false
  end.

(** Following the specification's words: [g] is mergeable when the local
    store has no frame under [g.id]. *)
Definition is_mergeable (store : Frames) (g : Frame) : bool :=
  match FramesOps.getitem (id g) store with
  | Some _ => false
  | None => true
  end.

(** The remote counterpart of a frame's project: the first project of the
    listing that bears its name. *)
Definition resolve (ps : list RemoteProject) (f : Frame) : option RemoteProject :=
  List.find (fun p => String.eqb (p_name p) (project f)) ps.

(** The record of a frame: its id, its stringified start and stop, the URL
    of its remote project and its tags; none when the project has no remote
    counterpart. *)
Definition upload_record (arrow_str : Timestamp -> string)
    (ps : list RemoteProject) (f : Frame) : option UploadRecord :=
  match resolve ps f with
  | Some p =>
      Some {| u_id := id f;
              u_start := arrow_str (start f);
              u_stop := arrow_str (stop f);
              u_project := p_url p;
              u_tags := tags f |}
  | None => None
  end.

Definition records (arrow_str : Timestamp -> string)
    (ps : list RemoteProject) (frames : list Frame) : list UploadRecord :=
  omap (upload_record arrow_str ps) frames.

(** The first frame of the batch whose project has no remote counterpart. *)
Definition first_unresolved (ps : list RemoteProject) (frames : list Frame)
  : option Frame :=
  List.find (fun f => negb (bool_decide (is_Some (resolve ps f)))) frames.

(** * Further vocabulary *)

(** [s'] is [s] after some requests: the same configuration, a memoized
    listing still memoized, and the log extended by [new]. *)
Definition follows (s s' : ArtichIO.Session) (new : list Request) : Prop :=
  ArtichIO.config (ArtichIO.self s') = ArtichIO.config (ArtichIO.self s)
  /\ (forall listing,
        ArtichIO._remote_projects (ArtichIO.self s) = Some listing ->
        ArtichIO.self s' = ArtichIO.self s)
  /\ ArtichIO.sent s' = ArtichIO.sent s ++ new.

(** The project a remote frame names: the first of the listing with its
    URL. *)
Definition by_url (ps : list RemoteProject) (frame : WireFrame)
  : option RemoteProject :=
  List.find (fun p => String.eqb (p_url p) (w_project frame)) ps.

(** The frames at the head of a remote sequence whose projects are listed,
    each under the name of its project. *)
Fixpoint resolved_prefix (utcnow : Timestamp) (ps : list RemoteProject)
    (frames : list WireFrame) : list Frame :=
  match frames with
  | [] => []
  | frame :: rest =>
      match by_url ps frame with
      | Some p =>
          ArtichIO.Frame_of_wire utcnow frame (p_name p)
          :: resolved_prefix utcnow ps rest
      | None => []
      end
  end.

(** A configuration that lacks the URL or the token, or has an empty one. *)
Definition incomplete (cfg : Config) : Prop :=
  backend_url cfg = None \/ backend_url cfg = Some EmptyString
  \/ backend_token cfg = None \/ backend_token cfg = Some EmptyString.

(** Every frame of the store is filed under its own id. *)
Definition filed_by_id (store : Frames) : Prop :=
  forall key f, FramesOps.getitem key store = Some f -> id f = key.

(** The last frame of a sequence that bears the id [key]. *)
Fixpoint latest (key : string) (frames : list Frame) : option Frame :=
  match frames with
  | [] => None
  | f :: rest =>
      match latest key rest with
      | Some g => Some g
      | None => if String.eqb (id f) key then Some f else None
      end
  end.

(** [frame.updated_at > last_sync] *)
Definition newer (last_sync : Timestamp) (frame : Frame) : bool :=
  last_sync <? updated_at frame.

(** The dict the [current] setter keeps of the value it is given: the frame
    in progress when the value has a project, the empty dict otherwise. *)
Definition as_started (value : option Tracking.RawState) (now : Timestamp)
  : option Tracking.Started :=
  match value with
  | Some raw =>
      match Tracking.r_project raw with
      | Some project =>
          Some {| Tracking.cur_project := project;
                  Tracking.cur_start := default now (Tracking.r_start raw);
                  Tracking.cur_tags := default [] (Tracking.r_tags raw) |}
      | None => None
      end
  | None => None
  end.

(** The exception that the start of a value handed to the [current] setter
    ends in, when the value has a project and brings a start that has no
    date. *)
Definition start_error (disk : Tracking.Disk) (value : option Tracking.RawState)
  : option Exception :=
  match value with
  | Some raw =>
      match Tracking.r_project raw, Tracking.r_start raw with
      | Some _, Some date => Tracking.date_error disk date
      | _, _ => None
      end
  | None => None
  end.

(** The dates of [datetime]: the years 1 to 9999, in seconds since the
    epoch. *)
Definition year_out_of_range (date : Timestamp) : option Exception :=
  if (date <? -62135596800) || (253402300799 <? date) then
    Some (mkExc ValueError "year is out of range")
  else None.

(** A fresh installation: nothing read yet, and no file to read. *)
Definition fresh_instance : Tracking.Instance :=
  Tracking.mkInstance None None None
    "/home/ada/.config/watson/state" "/home/ada/.config/watson/last_sync".

Definition no_files : Tracking.Disk :=
  Tracking.mkDisk Tracking.CannotOpen Tracking.CannotOpen year_out_of_range.

(** * Sample data

    A small installation used to run the definitions: two remote projects, a
    local store, and a few remotes that behave differently. *)

Module Samples.

Definition cfg : Config :=
  mkConfig (Some "https://api.crick.io/") (Some "s3cr3t") None.

Definition projects : list RemoteProject :=
  [ mkProject "apollo" "https://api.crick.io/projects/1/";
    mkProject "voyager" "https://api.crick.io/projects/2/" ].

Definition py_str (body : Payload) : string :=
  match body with
  | Document text => text
  | EmptyDocument => "{}"
  | Scalar text _ => text
  | Null => "None"
  | ProjectList _ => "[projects]"
  | FrameList _ => "[frames]"
  end.

Definition arrow_str (t : Timestamp) : string := pretty t.

Definition utcnow : Timestamp := 1000.

(** Local frames. *)
Definition local1 : Frame := mkFrame 10 20 "apollo" "f1" ["code"] 100.
Definition local2 : Frame := mkFrame 30 40 "voyager" "f2" [] 150.
Definition local3 : Frame := mkFrame 50 60 "apollo" "f3" [] 200.
Definition local4 : Frame := mkFrame 70 80 "apollo" "f4" [] 250.
Definition local0 : Frame := mkFrame 1 2 "apollo" "f0" [] 50.
Definition orphan : Frame := mkFrame 90 95 "pioneer" "f5" [] 160.

Definition store : Frames :=
  mkFrames
    (list_to_map
       [("f0", local0); ("f1", local1); ("f2", local2);
        ("f3", local3); ("f4", local4)])
    false.

(** Remote frames, as the frames endpoint lists them. *)
Definition remote1 : WireFrame :=
  mkWireFrame 10 25 "https://api.crick.io/projects/1/" "f1" ["code"] (Some 100).
Definition remote2 : WireFrame :=
  mkWireFrame 30 45 "https://api.crick.io/projects/2/" "f2" [] (Some 300).
Definition remote6 : WireFrame :=
  mkWireFrame 96 99 "https://api.crick.io/projects/1/" "f6" [] (Some 80).
Definition remote7 : WireFrame :=
  mkWireFrame 96 99 "https://api.crick.io/projects/9/" "f7" [] (Some 400).

(** A remote that answers every route as the wire format says. *)
Definition server_up (frames : list WireFrame) : Server :=
  fun _ req =>
    if String.eqb (dest req) "https://api.crick.io/projects/" then
      Responded (mkResponse 200 (Some (ProjectList projects)))
    else if String.eqb (dest req) "https://api.crick.io/frames/" then
      Responded (mkResponse 200 (Some (FrameList frames)))
    else if String.eqb (dest req) "https://api.crick.io/frames/bulk/" then
      Responded (mkResponse 201 (Some (Document "created")))
    else
      Responded (mkResponse 404 (Some (Document "not found"))).

(** A remote that cannot be reached. *)
Definition server_down : Server := fun _ _ => ConnectionError.

(** A remote that answers every request with a 500. *)
Definition server_broken : Server :=
  fun _ _ => Responded (mkResponse 500 (Some (Document "internal error"))).

(** A remote whose project listing fails once and works afterwards. *)
Definition server_flaky : Server :=
  fun history req =>
    match history with
    | [] => ConnectionError
    | _ :: _ => server_up [] history req
    end.

Definition plugin (server : Server) : Watson.SyncBackend :=
  Watson.ArtichIOSync server py_str arrow_str utcnow.

Definition entry_points (server : Server)
  : list (string * Result Watson.SyncBackend) :=
  [("artichio", Ok (plugin server))].

Definition world : Watson.World :=
  Watson.mkWorld (Watson.mkWatson store 100 cfg) [].

End Samples.

(** * Properties *)

(** ** Stripping slashes *)

Module PyFacts.

  Import Py.

Lemma rstrip_times (c : ascii) (n : nat) :
  rstrip (String c EmptyString) (times c n) = EmptyString.
Proof.
  induction n as [|n IH]; simpl; [reflexivity|].
  rewrite IH. now rewrite Ascii.eqb_refl.
Qed.

Lemma rstrip_cons (chars : string) (d : ascii) (rest : string) :
  rstrip chars (String d rest)
  = match rstrip chars rest with
    | EmptyString => if char_in d chars then EmptyString else String d EmptyString
    | String _ _ as kept => String d kept
    end.
Proof. reflexivity. Qed.

Lemma rstrip_app_times (c : ascii) (base : string) (n : nat) :
  ends_with c base = false ->
  rstrip (String c EmptyString) (base +:+ times c n) = base.
Proof.
  induction base as [|d rest IH]; intros Hend.
  - apply rstrip_times.
  - change (String d rest +:+ times c n) with (String d (rest +:+ times c n)).
    rewrite rstrip_cons. destruct rest as [|e rest'].
    + change (EmptyString +:+ times c n) with (times c n).
      rewrite rstrip_times. simpl in Hend. simpl. now rewrite Hend.
    + rewrite IH by exact Hend. reflexivity.
Qed.

Lemma lstrip_same (c : ascii) (rest : string) :
  lstrip (String c EmptyString) (String c rest)
  = lstrip (String c EmptyString) rest.
Proof. simpl. now rewrite Ascii.eqb_refl. Qed.

Lemma lstrip_times (c : ascii) (a : nat) (s : string) :
  lstrip (String c EmptyString) (times c a +:+ s)
  = lstrip (String c EmptyString) s.
Proof.
  induction a as [|a IH]; [reflexivity|].
  change (times c (S a) +:+ s) with (String c (times c a +:+ s)).
  now rewrite lstrip_same.
Qed.

Lemma lstrip_id (c : ascii) (core : string) :
  starts_with c core = false ->
  lstrip (String c EmptyString) core = core.
Proof.
  destruct core as [|d rest]; [reflexivity|].
  simpl. now intros ->.
Qed.

Lemma lstrip_times_app (c : ascii) (a : nat) (core : string) :
  starts_with c core = false ->
  lstrip (String c EmptyString) (times c a +:+ core) = core.
Proof. intros Hstart. rewrite lstrip_times. now apply lstrip_id. Qed.

Lemma strip_times_app (c : ascii) (a b : nat) (core : string) :
  starts_with c core = false ->
  ends_with c core = false ->
  strip (String c EmptyString) (times c a +:+ core +:+ times c b) = core.
Proof.
  intros Hstart Hend. unfold strip. rewrite lstrip_times.
  destruct core as [|d rest].
  - change (EmptyString +:+ times c b) with (times c b).
    assert (lstrip (String c EmptyString) (times c b) = EmptyString) as ->.
    { clear. induction b as [|b IH]; [reflexivity|].
      change (times c (S b)) with (String c (times c b)).
      now rewrite lstrip_same. }
    reflexivity.
  - rewrite lstrip_id by exact Hstart. now apply rstrip_app_times.
Qed.

(** Every string is a part without trailing [c] followed by some [c]s. *)
Lemma rstrip_decompose (c : ascii) (s : string) :
  exists n : nat,
    s = rstrip (String c EmptyString) s +:+ times c n
    /\ ends_with c (rstrip (String c EmptyString) s) = false.
Proof.
  induction s as [|d rest (n & Hrest & Hend)].
  - now exists 0%nat.
  - rewrite rstrip_cons.
    destruct (rstrip (String c EmptyString) rest) as [|e kept] eqn:Hkept.
    + simpl in Hrest. cbn [char_in].
      destruct (Ascii.eqb d c) eqn:Hdc.
      * apply Ascii.eqb_eq in Hdc. subst d.
        exists (S n). now rewrite Hrest at 1.
      * exists n. split; [now rewrite Hrest at 1|]. simpl. exact Hdc.
    + exists n. split; [now rewrite Hrest at 1|exact Hend].
Qed.

(** Every string is some [c]s followed by a part that does not start with
    [c]. *)
Lemma lstrip_decompose (c : ascii) (s : string) :
  exists a : nat,
    s = times c a +:+ lstrip (String c EmptyString) s
    /\ starts_with c (lstrip (String c EmptyString) s) = false.
Proof.
  induction s as [|d rest (a & Hrest & Hstart)].
  - now exists 0%nat.
  - cbn [lstrip char_in]. destruct (Ascii.eqb d c) eqn:Hdc.
    + apply Ascii.eqb_eq in Hdc. subst d.
      exists (S a). split; [|exact Hstart].
      change (times c (S a) +:+ lstrip (String c EmptyString) rest)
        with (String c (times c a +:+ lstrip (String c EmptyString) rest)).
      now rewrite <- Hrest.
    + exists 0%nat. split; [reflexivity|]. simpl. exact Hdc.
Qed.

Lemma rstrip_keeps_start (c : ascii) (s : string) :
  starts_with c s = false ->
  starts_with c (rstrip (String c EmptyString) s) = false.
Proof.
  destruct s as [|d rest]; [reflexivity|].
  intros Hstart. rewrite rstrip_cons. simpl in Hstart.
  destruct (rstrip (String c EmptyString) rest).
  - cbn [char_in]. now rewrite Hstart.
  - exact Hstart.
Qed.

(** Every route is a core with [c]s on either side, and [strip] finds the
    core. *)
Lemma strip_decompose (c : ascii) (s : string) :
  exists a b : nat,
    s = times c a +:+ strip (String c EmptyString) s +:+ times c b
    /\ starts_with c (strip (String c EmptyString) s) = false
    /\ ends_with c (strip (String c EmptyString) s) = false.
Proof.
  destruct (lstrip_decompose c s) as (a & Hs & Hstart).
  destruct (rstrip_decompose c (lstrip (String c EmptyString) s))
    as (b & Hl & Hend).
  exists a, b. unfold strip. split_and!.
  - now rewrite <- Hl.
  - now apply rstrip_keeps_start.
  - exact Hend.
Qed.

End PyFacts.

(** ** The request destination *)

(** Every configured URL and every route have the shape the next theorem
    asks for. *)
Lemma request_destination_total
    (cfg : Config) (url token route : string) :
  backend_url cfg = Some url ->
  backend_token cfg = Some token ->
  truthy url = true ->
  truthy token = true ->
  exists (base core : string) (n a b : nat),
    url = base +:+ Py.times "/" n
    /\ Py.ends_with "/" base = false
    /\ route = Py.times "/" a +:+ core +:+ Py.times "/" b
    /\ Py.starts_with "/" core = false
    /\ Py.ends_with "/" core = false
    /\ exists headers,
         ArtichIO._get_request_info cfg route
         = Ok (base +:+ "/" +:+ core +:+ "/", headers).
Proof.
  intros Hurl Htoken Hu Ht.
  destruct (PyFacts.rstrip_decompose "/" url) as (n & Hdec & Hend).
  destruct (PyFacts.strip_decompose "/" route) as (a & b & Hroute & Hs & He).
  exists (Py.rstrip "/" url), (Py.strip "/" route), n, a, b.
  split_and!; try assumption.
  unfold ArtichIO._get_request_info. rewrite Hurl, Htoken, Hu, Ht.
  eexists. reflexivity.
Qed.

(** C9: for a configured URL that is [base] followed by any number of
    slashes ([base] itself ending in none) and a route that is [core] with any
    number of slashes on either side, the destination is [base], one slash,
    [core], one slash. *)
Theorem request_destination_shape
    (cfg : Config) (base token route core : string) (n a b : nat) :
  backend_url cfg = Some (base +:+ Py.times "/" n) ->
  backend_token cfg = Some token ->
  truthy (base +:+ Py.times "/" n) = true ->
  truthy token = true ->
  Py.ends_with "/" base = false ->
  route = Py.times "/" a +:+ core +:+ Py.times "/" b ->
  Py.starts_with "/" core = false ->
  Py.ends_with "/" core = false ->
  ArtichIO._get_request_info cfg route
  = Ok (base +:+ "/" +:+ core +:+ "/",
        [("content-type", "application/json");
         ("Authorization", "Token " +:+ token)]).
Proof.
  intros Hurl Htoken Hu Ht Hbase -> Hstart Hend.
  unfold ArtichIO._get_request_info. rewrite Hurl, Htoken, Hu, Ht.
  cbn [andb].
  rewrite (PyFacts.rstrip_app_times "/" base n Hbase).
  rewrite (PyFacts.strip_times_app "/" a b core Hstart Hend).
  reflexivity.
Qed.

Lemma request_destination_shape_witness :
  ArtichIO._get_request_info
    (mkConfig (Some "https://api.crick.io//") (Some "s3cr3t") None)
    "/frames/bulk/"
  = Ok ("https://api.crick.io/frames/bulk/",
        [("content-type", "application/json");
         ("Authorization", "Token s3cr3t")]).
Proof.
  apply (request_destination_shape
           (mkConfig (Some "https://api.crick.io//") (Some "s3cr3t") None)
           "https://api.crick.io" "s3cr3t" "/frames/bulk/" "frames/bulk"
           2 1 1); reflexivity.
Defined.

(** ** The pull loop *)

Module PullFacts.

  Import Watson.

Lemma applies_iff (c : Timestamp) (store : Frames) (f : Frame) :
  applies c store f = true
  <-> FramesOps.getitem (id f) store = None \/ c < updated_at f.
Proof.
  unfold applies, FramesOps.contains, FramesOps.getitem.
  rewrite orb_true_iff, negb_true_iff, bool_decide_eq_false, Z.ltb_lt.
  rewrite <- eq_None_not_Some. reflexivity.
Qed.

Lemma pull_loop_acc (c : Timestamp) (incoming : list Frame) :
  forall (store : Frames) (acc : list Frame),
    pull_loop c incoming store acc
    = ((pull_loop c incoming store []).1,
       acc ++ (pull_loop c incoming store []).2).
Proof.
  induction incoming as [|f rest IH]; intros store acc; simpl.
  - now rewrite app_nil_r.
  - destruct (applies c store f).
    + rewrite (IH _ (acc ++ [f])), (IH _ [f]). simpl.
      now rewrite <- app_assoc.
    + apply IH.
Qed.

Lemma pull_loop_app (c : Timestamp) (pre post : list Frame) :
  forall (store : Frames) (acc : list Frame),
    pull_loop c (pre ++ post) store acc
    = pull_loop c post (pull_loop c pre store acc).1 (pull_loop c pre store acc).2.
Proof.
  induction pre as [|f rest IH]; intros store acc; simpl; [reflexivity|].
  destruct (applies c store f); apply IH.
Qed.

Lemma pull_loop_sublist (c : Timestamp) (incoming : list Frame) :
  forall (store : Frames),
    sublist (pull_loop c incoming store []).2 incoming.
Proof.
  induction incoming as [|f rest IH]; intros store; simpl; [constructor|].
  destruct (applies c store f).
  - rewrite pull_loop_acc. simpl. constructor. apply IH.
  - constructor. apply IH.
Qed.

End PullFacts.

(** C1: take any frame [f] the backend yields during [pull()], after the
    frames [pre] and before the frames [post].  With [s1] the store at that
    moment, [f] is written into the store and appended to the returned list
    exactly when [f.id] is not in [s1] or [f.updated_at] is greater than the
    cursor read at the start; a frame whose id is in [s1] and whose
    [updated_at] is at most the cursor changes nothing and is not returned. *)
Theorem pull_applies_iff
    (entry_points : list (string * Result Watson.SyncBackend))
    (world : Watson.World) (backend : Watson.SyncBackend)
    (pre post : list Frame) (f : Frame)
    (ending : option Exception) (wire' : list Request) :
  let w := Watson.this world in
  let c := Watson.last_sync w in
  Watson._load_backend entry_points w = Ok backend ->
  Watson.backend_pull backend (Watson.config w) c (Watson.wire world)
  = ((pre ++ f :: post, ending), wire') ->
  let s1 := (Watson.pull_loop c pre (Watson.frames w) []).1 in
  let r1 := (Watson.pull_loop c pre (Watson.frames w) []).2 in
  let applied := Watson.applies c s1 f in
  let s2 := if applied then FramesOps.setitem (id f) f s1 else s1 in
  let s3 := (Watson.pull_loop c post s2 []).1 in
  let r3 := (Watson.pull_loop c post s2 []).2 in
  (applied = true
   <-> FramesOps.getitem (id f) s1 = None \/ c < updated_at f)
  /\ Watson.pull_loop c (pre ++ [f]) (Watson.frames w) []
     = (s2, r1 ++ (if applied then [f] else []))
  /\ Watson.pull entry_points world
     = (match ending with
        | None => Ok (r1 ++ (if applied then [f] else []) ++ r3)
        | Some e => Raise e
        end,
        {| Watson.this :=
             {| Watson.frames := s3;
                Watson.last_sync := c;
                Watson.config := Watson.config w |};
           Watson.wire := wire' |})
  /\ (applied = true -> FramesOps.getitem (id f) s2 = Some f)
  /\ (is_Some (FramesOps.getitem (id f) s1) -> updated_at f <= c ->
      applied = false /\ s2 = s1).
Proof.
  intros w c Hload Hpull s1 r1 applied s2 s3 r3.
  split; [apply PullFacts.applies_iff|].
  split.
  { rewrite PullFacts.pull_loop_app. fold s1 r1. simpl. fold applied.
    unfold s2. destruct applied; [|now rewrite app_nil_r]. reflexivity. }
  split.
  { unfold Watson.pull. fold w. rewrite Hload. fold c. rewrite Hpull.
    rewrite PullFacts.pull_loop_app. fold s1 r1. simpl. fold applied.
    destruct applied; fold s2.
    - rewrite PullFacts.pull_loop_acc. fold s3 r3. simpl.
      now rewrite <- app_assoc.
    - rewrite PullFacts.pull_loop_acc. fold s3 r3. reflexivity. }
  split.
  { intros Happ. unfold s2. rewrite Happ.
    unfold FramesOps.getitem, FramesOps.setitem. simpl.
    apply lookup_insert_eq. }
  intros [o Ho] Hle.
  assert (applied = false) as Hno.
  { destruct applied eqn:Happ; [|reflexivity].
    apply PullFacts.applies_iff in Happ. destruct Happ as [Hnone|Hlt].
    - congruence.
    - lia. }
  split; [exact Hno|]. unfold s2. now rewrite Hno.
Qed.

Lemma pull_applies_iff_witness :
  let incoming := [Samples.remote1; Samples.remote2; Samples.remote6] in
  let remote := Samples.server_up incoming in
  exists applied : list Frame,
    (Watson.pull (Samples.entry_points remote) Samples.world).1 = Ok applied
    /\ List.map id applied = ["f2"; "f6"].
Proof.
  intros incoming remote.
  destruct (pull_applies_iff (Samples.entry_points remote) Samples.world
              (Samples.plugin remote)
              [mkFrame 10 25 "apollo" "f1" ["code"] 100]
              [mkFrame 96 99 "apollo" "f6" [] 80]
              (mkFrame 30 45 "voyager" "f2" [] 300)
              None
              (Watson.pull (Samples.entry_points remote) Samples.world).2.(Watson.wire))
    as (_ & _ & Hpull & _).
  - vm_compute. reflexivity.
  - vm_compute. reflexivity.
  - eexists. rewrite Hpull. split; [reflexivity|]. vm_compute. reflexivity.
Defined.

(** ** The push window *)

(** C2: [push(last_pull)] hands the backend the batch selected from the
    local store, and a local frame is in that batch exactly when
    [last_sync < updated_at < last_pull]; a frame stamped with either bound
    is left out. *)
Theorem push_window
    (entry_points : list (string * Result Watson.SyncBackend))
    (world : Watson.World) (last_pull : Timestamp) :
  let w := Watson.this world in
  let batch := Watson.push_batch w last_pull in
  (forall backend : Watson.SyncBackend,
      Watson._load_backend entry_points w = Ok backend ->
      Watson.push entry_points last_pull world
      = ((Watson.backend_push backend (Watson.config w) batch (Watson.wire world)).1,
         {| Watson.this := w;
            Watson.wire :=
              (Watson.backend_push backend (Watson.config w) batch
                 (Watson.wire world)).2 |}))
  /\ (forall f : Frame,
        In f batch
        <-> (exists key, rows (Watson.frames w) !! key = Some f)
            /\ Watson.last_sync w < updated_at f < last_pull)
  /\ (forall f : Frame,
        updated_at f = Watson.last_sync w \/ updated_at f = last_pull ->
        ~ In f batch).
Proof.
  intros w batch.
  assert (forall f : Frame,
             In f batch
             <-> (exists key, rows (Watson.frames w) !! key = Some f)
                 /\ Watson.last_sync w < updated_at f < last_pull) as Hiff.
  { intros f. unfold batch, Watson.push_batch, FramesOps.iter.
    rewrite filter_In, andb_true_iff, !Z.ltb_lt, <- list_elem_of_In.
    rewrite list_elem_of_fmap. split.
    - intros [[[key g] [-> Hin]] [Hhi Hlo]].
      apply elem_of_map_to_list in Hin. simpl in *. split; [eauto|lia].
    - intros [[key Hkey] [Hlo Hhi]]. split; [|lia].
      exists (key, f). split; [reflexivity|].
      now apply elem_of_map_to_list. }
  split; [|split].
  - intros backend Hload. unfold Watson.push. fold w. rewrite Hload.
    fold batch.
    now destruct (Watson.backend_push backend (Watson.config w) batch
                    (Watson.wire world)).
  - exact Hiff.
  - intros f Hedge Hin. apply Hiff in Hin. lia.
Qed.

Lemma push_window_witness :
  Watson.push_batch (Watson.this Samples.world) 200 = [Samples.local2]
  /\ In Samples.local2 (Watson.push_batch (Watson.this Samples.world) 200)
  /\ ~ In Samples.local1 (Watson.push_batch (Watson.this Samples.world) 200)
  /\ ~ In Samples.local3 (Watson.push_batch (Watson.this Samples.world) 200).
Proof.
  destruct (push_window (Samples.entry_points Samples.server_down)
              Samples.world 200) as (_ & Hiff & Hedge).
  split; [vm_compute; reflexivity|]. split_and!.
  - apply Hiff. split; [|vm_compute; split; reflexivity].
    exists "f2". vm_compute. reflexivity.
  - apply Hedge. left. reflexivity.
  - apply Hedge. right. reflexivity.
Defined.

(** ** The merge report *)

Lemma merge_loop_filter (store : Frames) (conflict_frames : list Frame) :
  forall conflicting merging : list Frame,
    Watson.merge_loop store conflict_frames conflicting merging
    = (conflicting ++ List.filter (is_conflicting store) conflict_frames,
       merging ++ List.filter (is_mergeable store) conflict_frames).
Proof.
  induction conflict_frames as [|g rest IH]; intros conflicting merging.
  - simpl. now rewrite !app_nil_r.
  - simpl. unfold is_conflicting, is_mergeable.
    destruct (FramesOps.getitem (id g) store) as [original|].
    + destruct (decide (original = g)) as [Heq|Hne].
      * rewrite (bool_decide_eq_false_2 (original <> g)) by tauto.
        rewrite (bool_decide_eq_true_2 _ Heq). simpl. apply IH.
      * rewrite (bool_decide_eq_true_2 _ Hne).
        rewrite (bool_decide_eq_false_2 _ Hne). simpl.
        rewrite IH. now rewrite <- app_assoc.
    + rewrite IH. now rewrite <- app_assoc.
Qed.

Lemma filter_sublist {A : Type} (keep : A -> bool) (l : list A) :
  sublist (List.filter keep l) l.
Proof.
  induction l as [|x rest IH]; simpl; [constructor|].
  destruct (keep x); now constructor.
Qed.

(** C3: [merge_report] returns the frames of the conflict set that conflict
    and those that are mergeable, each list in the order of the conflict set;
      for a frame [g] of the set exactly one case holds: a different local
    frame under [g.id] ([g] is in [conflicting] only), no local frame under
    [g.id] ([g] is in [merging] only), or an equal local frame ([g] is in
    neither). *)
Theorem merge_report_classifies
    (w : Watson.Watson) (conflict_file_frames : Frames) :
  let store := Watson.frames w in
  let conflict_set := FramesOps.iter conflict_file_frames in
  let conflicting := (Watson.merge_report w conflict_file_frames).1 in
  let merging := (Watson.merge_report w conflict_file_frames).2 in
  conflicting = List.filter (is_conflicting store) conflict_set
  /\ merging = List.filter (is_mergeable store) conflict_set
  /\ sublist conflicting conflict_set
  /\ sublist merging conflict_set
  /\ forall g : Frame,
       In g conflict_set ->
       (In g conflicting
        <-> exists original,
              FramesOps.getitem (id g) store = Some original /\ original <> g)
       /\ (In g merging <-> FramesOps.getitem (id g) store = None)
       /\ (~ In g conflicting /\ ~ In g merging
           <-> FramesOps.getitem (id g) store = Some g)
       /\ ~ (In g conflicting /\ In g merging).
Proof.
  intros store conflict_set conflicting merging.
  assert (conflicting = List.filter (is_conflicting store) conflict_set) as Hc.
  { unfold conflicting, Watson.merge_report. now rewrite merge_loop_filter. }
  assert (merging = List.filter (is_mergeable store) conflict_set) as Hm.
  { unfold merging, Watson.merge_report. now rewrite merge_loop_filter. }
  split; [exact Hc|]. split; [exact Hm|].
  split; [rewrite Hc; apply filter_sublist|].
  split; [rewrite Hm; apply filter_sublist|].
  intros g Hin. rewrite Hc, Hm, !filter_In.
  unfold is_conflicting, is_mergeable.
  destruct (FramesOps.getitem (id g) store) as [original|] eqn:Hget.
  - destruct (decide (original = g)) as [Heq|Hne].
    + rewrite (bool_decide_eq_true_2 _ Heq). simpl. subst original.
      split_and!.
      * split; [intros [_ ?]; discriminate|].
        intros (o & Ho & Hne). congruence.
      * split; [intros [_ ?]; discriminate|discriminate].
      * split; [reflexivity|].
        intros _. split; intros [_ ?]; discriminate.
      * intros [[_ ?] _]. discriminate.
    + rewrite (bool_decide_eq_false_2 _ Hne). simpl. split_and!.
      * split; [|now intros _].
        intros _. now exists original.
      * split; [intros [_ ?]; discriminate|discriminate].
      * split; [|intros [= Heq]; contradiction].
        intros [Hno _]. exfalso. apply Hno. now split.
      * intros [_ [_ ?]]. discriminate.
  - split_and!.
    + split; [intros [_ ?]; discriminate|].
      intros (o & Ho & _). discriminate.
    + split; [reflexivity|now intros _].
    + split; [|discriminate].
      intros [_ Hno]. exfalso. apply Hno. now split.
    + intros [[_ ?] _]. discriminate.
Qed.

Lemma merge_report_classifies_witness :
  let conflict_file :=
    mkFrames
      (list_to_map
         [("f1", mkFrame 10 20 "voyager" "f1" ["code"] 100);
          ("f2", Samples.local2);
            ("f9", mkFrame 5 6 "pioneer" "f9" [] 100)])
      false in
  let report :=
    Watson.merge_report (Watson.this Samples.world) conflict_file in
  In Samples.local2 (FramesOps.iter conflict_file)
  /\ ~ In Samples.local2 report.1
  /\ ~ In Samples.local2 report.2
  /\ List.map id report.1 = ["f1"]
  /\ List.map id report.2 = ["f9"].
Proof.
  intros conflict_file report.
  assert (In Samples.local2 (FramesOps.iter conflict_file)) as Hin.
  { vm_compute. tauto. }
  destruct (merge_report_classifies (Watson.this Samples.world) conflict_file)
    as (_ & _ & _ & _ & Hall).
  destruct (Hall Samples.local2 Hin) as (_ & _ & Hsame & _).
  split; [exact Hin|].
  destruct (proj2 Hsame) as [Hc Hm]; [vm_compute; reflexivity|].
  split; [exact Hc|]. split; [exact Hm|].
  split; vm_compute; reflexivity.
Defined.

(** ** The cursor *)

(** C7: neither [pull()] nor [push(last_pull)] changes [last_sync], whether
    the call returns or raises. *)
Theorem sync_keeps_cursor
    (entry_points : list (string * Result Watson.SyncBackend))
    (world : Watson.World) (last_pull : Timestamp) :
  Watson.last_sync (Watson.this (Watson.pull entry_points world).2)
  = Watson.last_sync (Watson.this world)
  /\ Watson.last_sync (Watson.this (Watson.push entry_points last_pull world).2)
     = Watson.last_sync (Watson.this world).
Proof.
  split.
  - unfold Watson.pull.
    destruct (Watson._load_backend entry_points (Watson.this world))
      as [backend|e]; [|reflexivity].
    destruct (Watson.backend_pull backend _ _ _) as [[yielded ending] wire'].
    now destruct (Watson.pull_loop _ yielded _ _).
  - unfold Watson.push.
    destruct (Watson._load_backend entry_points (Watson.this world))
      as [backend|e]; [|reflexivity].
    now destruct (Watson.backend_push backend _ _ _).
Qed.

Lemma sync_keeps_cursor_witness :
  let remote := Samples.server_up [Samples.remote2; Samples.remote7] in
  Watson.last_sync
    (Watson.this (Watson.pull (Samples.entry_points remote) Samples.world).2)
  = 100
  /\ Watson.last_sync
       (Watson.this (Watson.push (Samples.entry_points remote) 200 Samples.world).2)
     = 100.
Proof.
  intros remote.
  exact (sync_keeps_cursor (Samples.entry_points remote) Samples.world 200).
Defined.

(** ** The project listing of a backend instance *)

Module ArtichIOFacts.

  Import ArtichIO.

Section WithRemote.

  Variable server : Server.
  Variable py_str : Payload -> string.

Lemma get_remote_projects_cached (s : Session) (listing : Payload) :
  _remote_projects (self s) = Some listing ->
  _get_remote_projects server py_str s = (Ok listing, s).
Proof.
  intros Hcached. unfold _get_remote_projects, bind, gets.
  now rewrite Hcached.
Qed.

(** Every way [_get_remote_projects] can end when nothing is cached. *)
Lemma get_remote_projects_fetch (s : Session) :
  _remote_projects (self s) = None ->
  match _get_request_info (config (self s)) "projects" with
  | Raise e => _get_remote_projects server py_str s = (Raise e, s)
  | Ok (dest, headers) =>
      let req := mkRequest GET dest headers None None in
      let s' := {| self := self s; sent := sent s ++ [req] |} in
      _get_remote_projects server py_str s
      = match server (sent s) req with
        | ConnectionError => (Raise unreachable, s')
        | Responded response =>
            match json response with
            | None => (Raise (mkExc ValueError "No JSON object could be decoded"), s')
            | Some body =>
                if status_code response =? 200 then
                  (Ok body,
                   {| self := {| config := config (self s);
                                 _remote_projects := Some body |};
                      sent := sent s ++ [req] |})
                else (Raise (remote_error py_str body), s')
            end
        end
  end.
Proof.
  intros Hnone. unfold _get_remote_projects, bind, gets. rewrite Hnone.
  unfold lift. destruct (_get_request_info (config (self s)) "projects")
    as [[dest headers]|e]; [|reflexivity].
  unfold requests_get, send. cbn zeta.
  destruct (server (sent s) (mkRequest GET dest headers None None))
    as [|response]; [reflexivity|].
  unfold response_json, set_remote_projects, modify, ret, raise.
  destruct (status_code response =? 200); destruct (json response);
    reflexivity.
Qed.

Lemma get_remote_projects_ok (s s1 : Session) (listing : Payload) :
  _get_remote_projects server py_str s = (Ok listing, s1) ->
  _remote_projects (self s1) = Some listing
  /\ config (self s1) = config (self s)
  /\ (is_Some (_remote_projects (self s)) -> s1 = s)
  /\ (_remote_projects (self s) = None ->
      exists dest headers,
        _get_request_info (config (self s)) "projects" = Ok (dest, headers)
        /\ sent s1 = sent s ++ [mkRequest GET dest headers None None]).
Proof.
  intros Hcall.
  destruct (_remote_projects (self s)) as [cached|] eqn:Hcache.
  - rewrite (get_remote_projects_cached s cached Hcache) in Hcall.
    injection Hcall as <- <-.
    split_and!; [exact Hcache|reflexivity|reflexivity|discriminate].
  - pose proof (get_remote_projects_fetch s Hcache) as Hfetch.
    destruct (_get_request_info (config (self s)) "projects")
      as [[dest headers]|e]; [|congruence].
    cbn zeta in Hfetch. rewrite Hfetch in Hcall.
    destruct (server (sent s) (mkRequest GET dest headers None None))
      as [|response]; [discriminate|].
    destruct (json response) as [body|]; [|discriminate].
    destruct (status_code response =? 200); [|discriminate].
    injection Hcall as <- <-. simpl.
    split_and!; [reflexivity|reflexivity|intros [? ?]; discriminate|].
    intros _. now exists dest, headers.
Qed.

End WithRemote.

End ArtichIOFacts.

(** C8: on an instance with a listing memoized, [_get_remote_projects]
    returns it and sends nothing.  With nothing memoized and the request
    information at hand, a call sends exactly one request, a GET of the
    projects endpoint; answered with a 200 and a body that decodes, the call
    returns that very body and memoizes it; when the remote cannot be
    reached, answers with another status or with a body that does not decode,
    the call raises.  A call that returns a listing leaves it memoized, and
    from then on every call on that instance returns the same listing and
    sends nothing, whatever the remote would answer.  A call that raises
    leaves the instance as it was, so that with nothing memoized before,
    nothing is memoized after and the next call asks the remote again. *)
Theorem remote_projects_fetched_once
    (server : Server) (py_str : Payload -> string) (s : ArtichIO.Session) :
  let cfg := ArtichIO.config (ArtichIO.self s) in
  let outcome := ArtichIO._get_remote_projects server py_str s in
  (forall cached,
      ArtichIO._remote_projects (ArtichIO.self s) = Some cached ->
      outcome = (Ok cached, s))
  /\ (ArtichIO._remote_projects (ArtichIO.self s) = None ->
      (forall e,
          ArtichIO._get_request_info cfg "projects" = Raise e ->
          outcome = (Raise e, s))
      /\ (forall dest headers,
            ArtichIO._get_request_info cfg "projects" = Ok (dest, headers) ->
            let req := mkRequest GET dest headers None None in
            let asked := {| ArtichIO.self := ArtichIO.self s;
                            ArtichIO.sent := ArtichIO.sent s ++ [req] |} in
            ArtichIO.sent outcome.2 = ArtichIO.sent s ++ [req]
            /\ (forall response body,
                  server (ArtichIO.sent s) req = Responded response ->
                  status_code response = 200 ->
                  json response = Some body ->
                  outcome
                  = (Ok body,
                     {| ArtichIO.self :=
                          {| ArtichIO.config := cfg;
                             ArtichIO._remote_projects := Some body |};
                        ArtichIO.sent := ArtichIO.sent s ++ [req] |}))
            /\ (server (ArtichIO.sent s) req = ConnectionError ->
                outcome = (Raise ArtichIO.unreachable, asked))
            /\ (forall response body,
                  server (ArtichIO.sent s) req = Responded response ->
                  status_code response <> 200 ->
                  json response = Some body ->
                  outcome = (Raise (ArtichIO.remote_error py_str body), asked))
            /\ (forall response,
                  server (ArtichIO.sent s) req = Responded response ->
                  json response = None ->
                  exists e,
                    exc_type e = ValueError /\ outcome = (Raise e, asked))))
  /\ (forall listing,
        outcome.1 = Ok listing ->
        ArtichIO._remote_projects (ArtichIO.self outcome.2) = Some listing
        /\ (forall (later : Server) (s2 : ArtichIO.Session),
              ArtichIO.self s2 = ArtichIO.self outcome.2 ->
              ArtichIO._get_remote_projects later py_str s2 = (Ok listing, s2)))
  /\ (forall e,
        outcome.1 = Raise e ->
        ArtichIO.self outcome.2 = ArtichIO.self s).
Proof.
  intros cfg outcome. split_and!.
  - intros cached Hcache.
    now apply ArtichIOFacts.get_remote_projects_cached.
  - intros Hcache.
    pose proof (ArtichIOFacts.get_remote_projects_fetch server py_str s Hcache)
      as Hfetch.
    fold cfg in Hfetch. split.
    + intros e Hinfo. now rewrite Hinfo in Hfetch.
    + intros dest headers Hinfo req asked. rewrite Hinfo in Hfetch.
      cbn zeta in Hfetch. fold req in Hfetch. fold asked in Hfetch.
      fold outcome in Hfetch. split_and!.
      * rewrite Hfetch.
        destruct (server (ArtichIO.sent s) req) as [|response]; [reflexivity|].
        destruct (json response); [|reflexivity].
        now destruct (status_code response =? 200).
      * intros response body Hreply Hstatus Hbody.
        now rewrite Hfetch, Hreply, Hbody, Hstatus.
      * intros Hreply. now rewrite Hfetch, Hreply.
      * intros response body Hreply Hstatus Hbody.
        rewrite Hfetch, Hreply, Hbody.
        now rewrite (proj2 (Z.eqb_neq _ _) Hstatus).
      * intros response Hreply Hbody. eexists. split; [|
          now rewrite Hfetch, Hreply, Hbody]. reflexivity.
  - intros listing Hok.
    assert (outcome = (Ok listing, outcome.2)) as Hcall.
    { rewrite <- Hok. now destruct outcome. }
    destruct (ArtichIOFacts.get_remote_projects_ok server py_str s _ listing Hcall)
      as (Hmemo & _).
    split; [exact Hmemo|].
    intros later s2 Hsame.
    apply ArtichIOFacts.get_remote_projects_cached. now rewrite Hsame.
  - intros e Hraise.
    destruct (ArtichIO._remote_projects (ArtichIO.self s)) as [cached|] eqn:Hcache.
    + unfold outcome in *.
      now rewrite (ArtichIOFacts.get_remote_projects_cached server py_str s _
                     Hcache).
    + pose proof (ArtichIOFacts.get_remote_projects_fetch server py_str s Hcache)
        as Hfetch.
      fold cfg in Hfetch. fold outcome in Hfetch.
      destruct (ArtichIO._get_request_info cfg "projects")
        as [[dest headers]|e0].
      * cbn zeta in Hfetch. rewrite Hfetch in Hraise |- *.
        destruct (server (ArtichIO.sent s) _) as [|response]; [reflexivity|].
        destruct (json response); [|reflexivity].
        destruct (status_code response =? 200); [discriminate|reflexivity].
      * now rewrite Hfetch.
Qed.

Lemma remote_projects_fetched_once_witness :
  let s := ArtichIO.mkSession (ArtichIO.__init__ Samples.cfg) [] in
  let req :=
    mkRequest GET "https://api.crick.io/projects/"
      [("content-type", "application/json");
       ("Authorization", "Token s3cr3t")] None None in
  let first :=
    ArtichIO._get_remote_projects (Samples.server_up []) Samples.py_str s in
  first
  = (Ok (ProjectList Samples.projects),
     ArtichIO.mkSession
       (ArtichIO.mkSync Samples.cfg (Some (ProjectList Samples.projects)))
       [req])
  /\ ArtichIO._get_remote_projects Samples.server_down Samples.py_str first.2
     = (Ok (ProjectList Samples.projects), first.2).
Proof.
  intros s req first.
  destruct (remote_projects_fetched_once (Samples.server_up []) Samples.py_str s)
    as (_ & Hfetch & Hmemo & _).
  destruct (Hfetch eq_refl) as (_ & Hasked).
  destruct (Hasked "https://api.crick.io/projects/"
              [("content-type", "application/json");
               ("Authorization", "Token s3cr3t")] eq_refl)
    as (_ & Hok & _).
  pose proof (Hok (mkResponse 200 (Some (ProjectList Samples.projects)))
                (ProjectList Samples.projects) eq_refl eq_refl eq_refl)
    as Hfirst.
  split; [exact Hfirst|].
  destruct (Hmemo (ProjectList Samples.projects)) as (_ & Hlater).
  - now rewrite Hfirst.
  - now apply Hlater.
Defined.

(** C8 as stated fails: the first call on an instance finds the remote out
    of reach and raises, with nothing memoized; the second call on the same
    instance asks again, so that the instance has fetched the listing
    twice. *)
Example failed_listing_is_requested_again :
  let s := ArtichIO.mkSession (ArtichIO.__init__ Samples.cfg) [] in
  let req :=
    mkRequest GET "https://api.crick.io/projects/"
      [("content-type", "application/json");
       ("Authorization", "Token s3cr3t")] None None in
  let first :=
    ArtichIO._get_remote_projects Samples.server_flaky Samples.py_str s in
  let second :=
    ArtichIO._get_remote_projects Samples.server_flaky Samples.py_str first.2 in
  first.1 = Raise ArtichIO.unreachable
  /\ ArtichIO.sent first.2 = [req]
  /\ ArtichIO._remote_projects (ArtichIO.self first.2) = None
  /\ second.1 = Ok (ProjectList Samples.projects)
  /\ ArtichIO.sent second.2 = [req; req].
Proof. vm_compute. split_and!; reflexivity. Qed.

(** ** Uploading *)

Module PushFacts.

  Import ArtichIO.

Lemma resolve_none (ps : list RemoteProject) (f : Frame) :
  resolve ps f = None <-> forall p, In p ps -> p_name p <> project f.
Proof.
  unfold resolve. split.
  - intros Hnone p Hin Heq.
    apply (find_none _ _ Hnone) in Hin. simpl in Hin.
    apply String.eqb_neq in Hin. contradiction.
  - intros Hall.
    destruct (List.find _ ps) as [p|] eqn:Hfind; [|reflexivity].
    apply find_some in Hfind. destruct Hfind as [Hin Heq].
    apply String.eqb_eq in Heq. now apply Hall in Hin.
Qed.

Lemma first_unresolved_some (ps : list RemoteProject) (frames : list Frame) :
  Exists (fun f => resolve ps f = None) frames ->
  exists bad,
    first_unresolved ps frames = Some bad
    /\ In bad frames /\ resolve ps bad = None.
Proof.
  unfold first_unresolved. induction 1 as [f rest Hnone|f rest _ IH].
  - exists f. simpl. rewrite Hnone.
    rewrite bool_decide_eq_false_2 by (intros [? ?]; discriminate).
    simpl. now split_and!; [|left|].
  - simpl. destruct (resolve ps f) as [p|] eqn:Hres.
    + rewrite bool_decide_eq_true_2 by eauto. simpl.
      destruct IH as (bad & Hfind & Hin & Hnone).
      exists bad. now split_and!; [|right|].
    + rewrite bool_decide_eq_false_2 by (intros [? ?]; discriminate).
      simpl. exists f. now split_and!; [|left|].
Qed.

Lemma first_unresolved_none (ps : list RemoteProject) (frames : list Frame) :
  Forall (fun f => is_Some (resolve ps f)) frames ->
  first_unresolved ps frames = None.
Proof.
  unfold first_unresolved. induction 1 as [|f rest Hres _ IH]; [reflexivity|].
  simpl. now rewrite bool_decide_eq_true_2 by exact Hres.
Qed.

Lemma records_all (arrow_str : Timestamp -> string)
    (ps : list RemoteProject) (frames : list Frame) :
  Forall (fun f => is_Some (resolve ps f)) frames ->
  Forall2
    (fun f r =>
       u_id r = id f
       /\ u_start r = arrow_str (start f)
       /\ u_stop r = arrow_str (stop f)
       /\ u_tags r = tags f
       /\ exists p, resolve ps f = Some p /\ u_project r = p_url p)
    frames (records arrow_str ps frames).
Proof.
  unfold records. induction 1 as [|f rest [p Hres] _ IH]; [constructor|].
  cbn [omap list_omap]. unfold upload_record at 1. rewrite Hres. simpl.
  constructor; [|exact IH]. simpl. split_and!; try reflexivity.
  now exists p.
Qed.

Section WithRemote.

  Variable server : Server.
  Variable py_str : Payload -> string.
  Variable arrow_str : Timestamp -> string.

Lemma push_loop_cached (ps : list RemoteProject) (frames : list Frame) :
  forall (to_upload : list UploadRecord) (s : Session),
    _remote_projects (self s) = Some (ProjectList ps) ->
    push_loop server py_str arrow_str frames to_upload s
    = match first_unresolved ps frames with
      | Some bad => (Raise (missing_project bad), s)
      | None => (Ok (to_upload ++ records arrow_str ps frames), s)
      end.
Proof.
  induction frames as [|f rest IH]; intros to_upload s Hcached.
  - simpl. unfold ret. now rewrite app_nil_r.
  - cbn [push_loop]. unfold bind at 1.
    rewrite (ArtichIOFacts.get_remote_projects_cached server py_str s _ Hcached).
    unfold bind at 1, lift. cbn [project_objects].
    unfold first_unresolved, records. cbn [List.find omap list_omap].
    unfold upload_record at 1. fold (resolve ps f).
    destruct (resolve ps f) as [p|] eqn:Hres.
    + rewrite bool_decide_eq_true_2 by eauto. cbn [negb].
      rewrite (IH _ s Hcached). unfold first_unresolved, records.
      destruct (List.find _ rest); [reflexivity|].
      now rewrite <- app_assoc.
    + rewrite bool_decide_eq_false_2 by (intros [? ?]; discriminate).
      reflexivity.
Qed.

(** The first iteration resolves the listing; the loop then runs on it. *)
Lemma push_loop_resolved (ps : list RemoteProject) (f : Frame)
    (rest : list Frame) (to_upload : list UploadRecord) (s s1 : Session) :
  _get_remote_projects server py_str s = (Ok (ProjectList ps), s1) ->
  push_loop server py_str arrow_str (f :: rest) to_upload s
  = match first_unresolved ps (f :: rest) with
    | Some bad => (Raise (missing_project bad), s1)
    | None => (Ok (to_upload ++ records arrow_str ps (f :: rest)), s1)
    end.
Proof.
  intros Hcall.
  destruct (ArtichIOFacts.get_remote_projects_ok server py_str s s1 _ Hcall)
    as (Hmemo & _).
  rewrite <- (push_loop_cached ps (f :: rest) to_upload s1 Hmemo).
  cbn [push_loop]. unfold bind at 1 3. rewrite Hcall.
  now rewrite (ArtichIOFacts.get_remote_projects_cached server py_str s1 _ Hmemo).
Qed.

(** [push] once the request information is known. *)
Lemma push_unfold (frames : list Frame) (s : Session)
    (dest : string) (headers : list (string * string)) :
  _get_request_info (config (self s)) "frames/bulk" = Ok (dest, headers) ->
  push server py_str arrow_str frames s
  = match push_loop server py_str arrow_str frames [] s with
    | (Raise e, s') => (Raise e, s')
    | (Ok to_upload, s') =>
        let req := mkRequest POST dest headers None (Some to_upload) in
        let s'' := {| self := self s'; sent := sent s' ++ [req] |} in
        match server (sent s') req with
        | ConnectionError => (Raise unreachable, s'')
        | Responded response =>
            if status_code response =? 201 then (Ok to_upload, s'')
            else
              match json response with
              | Some body => (Raise (remote_error py_str body), s'')
              | None =>
                  (Raise (mkExc ValueError "No JSON object could be decoded"), s'')
              end
        end
    end.
Proof.
  intros Hinfo. unfold push, bind at 1, gets. unfold bind at 1, lift.
  rewrite Hinfo. unfold bind at 1.
  destruct (push_loop server py_str arrow_str frames [] s)
    as [[to_upload|e] s']; [|reflexivity].
  unfold bind at 1, requests_post, send. cbn zeta.
  destruct (server (sent s') (mkRequest POST dest headers None (Some to_upload)))
    as [|response]; [reflexivity|].
  destruct (status_code response =? 201); [reflexivity|].
  unfold bind, response_json, ret, raise.
  now destruct (json response).
Qed.

End WithRemote.

End PushFacts.

(** C4: when some frame of the batch names a project that the remote
    listing does not have, [push] raises the project-does-not-exist error for
    the first such frame, and no POST has gone out: the only request the call
    may have made is the GET that fetched the listing. *)
Theorem push_validates_before_upload
    (server : Server) (py_str : Payload -> string)
    (arrow_str : Timestamp -> string)
    (s s1 : ArtichIO.Session) (ps : list RemoteProject)
    (frames : list Frame) (dest : string) (headers : list (string * string)) :
  ArtichIO._get_request_info (ArtichIO.config (ArtichIO.self s)) "frames/bulk"
  = Ok (dest, headers) ->
  ArtichIO._get_remote_projects server py_str s = (Ok (ProjectList ps), s1) ->
  Exists (fun f => forall p, In p ps -> p_name p <> project f) frames ->
  exists bad : Frame,
    In bad frames
    /\ (forall p, In p ps -> p_name p <> project bad)
    /\ first_unresolved ps frames = Some bad
    /\ ArtichIO.push server py_str arrow_str frames s
       = (Raise (ArtichIO.missing_project bad), s1)
    /\ exc_type (ArtichIO.missing_project bad) = WatsonError
    /\ (forall req, In req (ArtichIO.sent s1) -> method req = POST ->
        In req (ArtichIO.sent s)).
Proof.
  intros Hinfo Hlisting Hsome.
  assert (Exists (fun f => resolve ps f = None) frames) as Hex.
  { apply Exists_exists in Hsome. destruct Hsome as (f & Hf & Hno).
    apply Exists_exists. exists f. split; [exact Hf|].
    now apply PushFacts.resolve_none. }
  destruct (PushFacts.first_unresolved_some ps frames Hex)
    as (bad & Hfirst & Hin & Hnone).
  exists bad. split; [exact Hin|].
  split; [now apply PushFacts.resolve_none|].
  split; [exact Hfirst|].
  split.
  { rewrite (PushFacts.push_unfold server py_str arrow_str frames s dest headers Hinfo).
    destruct frames as [|f rest]; [discriminate|].
    rewrite (PushFacts.push_loop_resolved server py_str arrow_str ps f rest [] s s1 Hlisting).
    now rewrite Hfirst. }
  split; [reflexivity|].
  intros req Hreq Hpost.
  destruct (ArtichIOFacts.get_remote_projects_ok server py_str s s1 _ Hlisting)
    as (_ & _ & Hhit & Hmiss).
  destruct (ArtichIO._remote_projects (ArtichIO.self s)) as [cached|].
  - rewrite <- (Hhit (ltac:(eauto))). exact Hreq.
  - destruct (Hmiss eq_refl) as (d & h & _ & Hsent).
    rewrite Hsent in Hreq. apply in_app_or in Hreq.
    destruct Hreq as [Hold|[<-|[]]]; [exact Hold|discriminate].
Qed.

Lemma push_validates_before_upload_witness :
  let s := ArtichIO.mkSession (ArtichIO.__init__ Samples.cfg) [] in
  let outcome :=
    ArtichIO.push (Samples.server_up []) Samples.py_str Samples.arrow_str
      [Samples.local2; Samples.orphan; Samples.local1] s in
  outcome.1 = Raise (ArtichIO.missing_project Samples.orphan)
  /\ List.map method (ArtichIO.sent outcome.2) = [GET].
Proof.
  intros s outcome.
  destruct (push_validates_before_upload (Samples.server_up []) Samples.py_str
              Samples.arrow_str s
              (ArtichIO._get_remote_projects (Samples.server_up [])
                 Samples.py_str s).2
              Samples.projects
              [Samples.local2; Samples.orphan; Samples.local1]
              "https://api.crick.io/frames/bulk/"
              [("content-type", "application/json");
               ("Authorization", "Token s3cr3t")])
    as (bad & _ & _ & Hfirst & Hpush & _).
  - vm_compute. reflexivity.
  - vm_compute. reflexivity.
  - apply Exists_cons_tl, Exists_cons_hd.
    intros p [<-|[<-|[]]]; discriminate.
  - injection Hfirst as <-. unfold outcome. rewrite Hpush.
    split; [reflexivity|]. vm_compute. reflexivity.
Defined.

(** C10: when every frame of the batch resolves and the bulk upload is
    answered with a 201, [push] returns one record per frame, in the order of
    the batch, each made of the frame's id, its stringified start and stop,
    the URL of its remote project and its tags; the body of the 201 is not
    looked at. *)
Theorem push_returns_one_record_per_frame
    (server : Server) (py_str : Payload -> string)
    (arrow_str : Timestamp -> string)
    (s s1 : ArtichIO.Session) (ps : list RemoteProject)
    (frames : list Frame) (dest : string) (headers : list (string * string))
    (response : Response) :
  let uploaded := records arrow_str ps frames in
  let req := mkRequest POST dest headers None (Some uploaded) in
  ArtichIO._get_request_info (ArtichIO.config (ArtichIO.self s)) "frames/bulk"
  = Ok (dest, headers) ->
  match frames with
  | [] => s1 = s
  | _ :: _ =>
      ArtichIO._get_remote_projects server py_str s = (Ok (ProjectList ps), s1)
  end ->
  Forall (fun f => is_Some (resolve ps f)) frames ->
  server (ArtichIO.sent s1) req = Responded response ->
  status_code response = 201 ->
  ArtichIO.push server py_str arrow_str frames s
  = (Ok uploaded,
     {| ArtichIO.self := ArtichIO.self s1;
        ArtichIO.sent := ArtichIO.sent s1 ++ [req] |})
  /\ Forall2
       (fun f r =>
          u_id r = id f
          /\ u_start r = arrow_str (start f)
          /\ u_stop r = arrow_str (stop f)
          /\ u_tags r = tags f
          /\ exists p, resolve ps f = Some p /\ u_project r = p_url p)
       frames uploaded.
Proof.
  intros uploaded req Hinfo Hlisting Hall Hreply Hstatus.
  split; [|now apply PushFacts.records_all].
  rewrite (PushFacts.push_unfold server py_str arrow_str frames s dest headers Hinfo).
  assert (ArtichIO.push_loop server py_str arrow_str frames [] s
          = (Ok uploaded, s1)) as ->.
  { destruct frames as [|f rest].
    - subst s1. reflexivity.
    - rewrite (PushFacts.push_loop_resolved server py_str arrow_str ps f rest [] s s1 Hlisting).
      now rewrite (PushFacts.first_unresolved_none ps (f :: rest) Hall). }
  cbn zeta. fold req. rewrite Hreply, Hstatus. reflexivity.
Qed.

Lemma push_returns_one_record_per_frame_witness :
  let s := ArtichIO.mkSession (ArtichIO.__init__ Samples.cfg) [] in
  (ArtichIO.push (Samples.server_up []) Samples.py_str Samples.arrow_str
     [Samples.local1; Samples.local2] s).1
  = Ok [ mkUpload "f1" "10" "20" "https://api.crick.io/projects/1/" ["code"];
         mkUpload "f2" "30" "40" "https://api.crick.io/projects/2/" [] ].
Proof.
  intros s.
  destruct (push_returns_one_record_per_frame (Samples.server_up [])
              Samples.py_str Samples.arrow_str s
              (ArtichIO._get_remote_projects (Samples.server_up [])
                 Samples.py_str s).2
              Samples.projects [Samples.local1; Samples.local2]
              "https://api.crick.io/frames/bulk/"
              [("content-type", "application/json");
               ("Authorization", "Token s3cr3t")]
              (mkResponse 201 (Some (Document "created"))))
    as [Hpush _].
  - vm_compute. reflexivity.
  - vm_compute. reflexivity.
  - repeat constructor; vm_compute; eauto.
  - vm_compute. reflexivity.
  - reflexivity.
  - rewrite Hpush. vm_compute. reflexivity.
Defined.

(** ** Errors of the backend *)

Module ErrorFacts.

  Import ArtichIO.

Section WithRemote.

  Variable server : Server.
  Variable py_str : Payload -> string.
  Variable arrow_str : Timestamp -> string.
  Variable utcnow : Timestamp.

(** The frames request of [pull], when the remote does not answer it with a
    200. *)
Lemma pull_request_fails (last_sync : Timestamp) (s : Session)
    (dest : string) (headers : list (string * string)) :
  _get_request_info (config (self s)) "frames" = Ok (dest, headers) ->
  let req := mkRequest GET dest headers (Some last_sync) None in
  let s' := {| self := self s; sent := sent s ++ [req] |} in
  (server (sent s) req = ConnectionError ->
   pull server py_str utcnow last_sync s = (([], Some unreachable), s'))
  /\ (forall response body,
        server (sent s) req = Responded response ->
        status_code response <> 200 ->
        json response = Some body ->
        pull server py_str utcnow last_sync s
        = (([], Some (remote_error py_str body)), s')).
Proof.
  intros Hinfo req s'. unfold pull. rewrite Hinfo.
  unfold requests_get, send. fold req. split.
  - now intros ->.
  - intros response body -> Hstatus Hbody.
    apply Z.eqb_neq in Hstatus. rewrite Hstatus.
    unfold response_json. rewrite Hbody. reflexivity.
Qed.

Lemma pull_without_request_info (last_sync : Timestamp) (s : Session)
    (e : Exception) :
  _get_request_info (config (self s)) "frames" = Raise e ->
  pull server py_str utcnow last_sync s = (([], Some e), s).
Proof. intros Hinfo. unfold pull. now rewrite Hinfo. Qed.

(** The bulk upload of [push], when the remote does not answer it with a
    201. *)
Lemma push_request_fails (frames : list Frame) (s s1 : Session)
    (to_upload : list UploadRecord)
    (dest : string) (headers : list (string * string)) :
  _get_request_info (config (self s)) "frames/bulk" = Ok (dest, headers) ->
  push_loop server py_str arrow_str frames [] s = (Ok to_upload, s1) ->
  let req := mkRequest POST dest headers None (Some to_upload) in
  let s' := {| self := self s1; sent := sent s1 ++ [req] |} in
  (server (sent s1) req = ConnectionError ->
   push server py_str arrow_str frames s = (Raise unreachable, s'))
  /\ (forall response body,
        server (sent s1) req = Responded response ->
        status_code response <> 201 ->
        json response = Some body ->
        push server py_str arrow_str frames s
        = (Raise (remote_error py_str body), s')).
Proof.
  intros Hinfo Hloop req s'.
  rewrite (PushFacts.push_unfold server py_str arrow_str frames s dest headers Hinfo).
  rewrite Hloop. cbn zeta. fold req. split.
  - now intros ->.
  - intros response body -> Hstatus Hbody.
    apply Z.eqb_neq in Hstatus. now rewrite Hstatus, Hbody.
Qed.

(** The listing request, when the remote does not answer it with a 200. *)
Lemma projects_request_fails (s : Session)
    (dest : string) (headers : list (string * string)) :
  _remote_projects (self s) = None ->
  _get_request_info (config (self s)) "projects" = Ok (dest, headers) ->
  let req := mkRequest GET dest headers None None in
  let s' := {| self := self s; sent := sent s ++ [req] |} in
  (server (sent s) req = ConnectionError ->
   _get_remote_projects server py_str s = (Raise unreachable, s'))
  /\ (forall response body,
        server (sent s) req = Responded response ->
        status_code response <> 200 ->
        json response = Some body ->
        _get_remote_projects server py_str s
        = (Raise (remote_error py_str body), s')).
Proof.
  intros Hnone Hinfo req s'.
  pose proof (ArtichIOFacts.get_remote_projects_fetch server py_str s Hnone)
    as Hfetch.
  rewrite Hinfo in Hfetch. cbn zeta in Hfetch. fold req in Hfetch.
  rewrite Hfetch. split.
  - now intros ->.
  - intros response body -> Hstatus Hbody.
    apply Z.eqb_neq in Hstatus. now rewrite Hstatus, Hbody.
Qed.

(** What the listing request raises is what [pull] and [push] end with. *)
Lemma listing_error_surfaces (s s' : Session) (e : Exception)
    (frame : WireFrame) (incoming : list WireFrame) (yielded : list Frame)
    (f : Frame) (rest : list Frame) (to_upload : list UploadRecord) :
  _get_remote_projects server py_str s = (Raise e, s') ->
  pull_loop server py_str utcnow (frame :: incoming) yielded s
  = ((yielded, Some e), s')
  /\ push_loop server py_str arrow_str (f :: rest) to_upload s = (Raise e, s').
Proof.
  intros Hcall. split.
  - cbn [pull_loop]. now rewrite Hcall.
  - cbn [push_loop]. unfold bind at 1. now rewrite Hcall.
Qed.

End WithRemote.

End ErrorFacts.

(** C6, as the code has it: a connection failure surfaces as the
    [WatsonError] "Unable to reach the server.", and an unexpected status
    whose body decodes surfaces as a [WatsonError] whose message ends with
    that body.  This holds for the frames request of [pull], the bulk upload
    of [push] and the listing request both make.  The two errors have the
    same class and differ by their message; [ConfigurationError] is another
    class, a subclass of [WatsonError]. *)
Theorem sync_errors_are_watson_errors
    (server : Server) (py_str : Payload -> string)
    (arrow_str : Timestamp -> string) (utcnow : Timestamp)
    (s : ArtichIO.Session) :
  let cfg := ArtichIO.config (ArtichIO.self s) in
  let after (s0 : ArtichIO.Session) (req : Request) :=
    {| ArtichIO.self := ArtichIO.self s0;
       ArtichIO.sent := ArtichIO.sent s0 ++ [req] |} in
  (forall last_sync dest headers,
      ArtichIO._get_request_info cfg "frames" = Ok (dest, headers) ->
      let req := mkRequest GET dest headers (Some last_sync) None in
      (server (ArtichIO.sent s) req = ConnectionError ->
       ArtichIO.pull server py_str utcnow last_sync s
       = (([], Some ArtichIO.unreachable), after s req))
      /\ (forall response body,
            server (ArtichIO.sent s) req = Responded response ->
            status_code response <> 200 ->
            json response = Some body ->
            ArtichIO.pull server py_str utcnow last_sync s
            = (([], Some (ArtichIO.remote_error py_str body)), after s req)))
  /\ (forall frames to_upload s1 dest headers,
        ArtichIO._get_request_info cfg "frames/bulk" = Ok (dest, headers) ->
        ArtichIO.push_loop server py_str arrow_str frames [] s = (Ok to_upload, s1) ->
        let req := mkRequest POST dest headers None (Some to_upload) in
        (server (ArtichIO.sent s1) req = ConnectionError ->
         ArtichIO.push server py_str arrow_str frames s
         = (Raise ArtichIO.unreachable, after s1 req))
        /\ (forall response body,
              server (ArtichIO.sent s1) req = Responded response ->
              status_code response <> 201 ->
              json response = Some body ->
              ArtichIO.push server py_str arrow_str frames s
              = (Raise (ArtichIO.remote_error py_str body), after s1 req)))
  /\ (forall dest headers,
        ArtichIO._remote_projects (ArtichIO.self s) = None ->
        ArtichIO._get_request_info cfg "projects" = Ok (dest, headers) ->
        let req := mkRequest GET dest headers None None in
        (server (ArtichIO.sent s) req = ConnectionError ->
         ArtichIO._get_remote_projects server py_str s
         = (Raise ArtichIO.unreachable, after s req))
        /\ (forall response body,
              server (ArtichIO.sent s) req = Responded response ->
              status_code response <> 200 ->
              json response = Some body ->
              ArtichIO._get_remote_projects server py_str s
              = (Raise (ArtichIO.remote_error py_str body), after s req)))
  /\ (forall e s' frame incoming yielded f rest to_upload,
        ArtichIO._get_remote_projects server py_str s = (Raise e, s') ->
        ArtichIO.pull_loop server py_str utcnow (frame :: incoming) yielded s
        = ((yielded, Some e), s')
        /\ ArtichIO.push_loop server py_str arrow_str (f :: rest) to_upload s
           = (Raise e, s'))
  /\ ArtichIO.unreachable = mkExc WatsonError "Unable to reach the server."
  /\ (forall body,
        ArtichIO.remote_error py_str body
        = mkExc WatsonError
            ("An error occured with the remote server: " +:+ py_str body))
  /\ (forall body,
        exc_type ArtichIO.unreachable
        = exc_type (ArtichIO.remote_error py_str body)
        /\ exc_msg ArtichIO.unreachable
           <> exc_msg (ArtichIO.remote_error py_str body))
  /\ exc_type ArtichIO.configuration_error = ConfigurationError
  /\ ConfigurationError <> WatsonError
  /\ issubclass ConfigurationError WatsonError = true
  /\ issubclass WatsonError ConfigurationError = false.
Proof.
  intros cfg after. split_and!.
  - intros last_sync dest headers Hinfo.
    exact (ErrorFacts.pull_request_fails server py_str utcnow last_sync s
             dest headers Hinfo).
  - intros frames to_upload s1 dest headers Hinfo Hloop.
    exact (ErrorFacts.push_request_fails server py_str arrow_str frames s s1
             to_upload dest headers Hinfo Hloop).
  - intros dest headers Hnone Hinfo.
    exact (ErrorFacts.projects_request_fails server py_str s dest headers
             Hnone Hinfo).
  - intros e s' frame incoming yielded f rest to_upload Hcall.
    exact (ErrorFacts.listing_error_surfaces server py_str arrow_str utcnow
             s s' e frame incoming yielded f rest to_upload Hcall).
  - reflexivity.
  - reflexivity.
  - intros body. split; [reflexivity|]. simpl. discriminate.
  - reflexivity.
  - discriminate.
  - reflexivity.
  - reflexivity.
Qed.

Lemma sync_errors_are_watson_errors_witness :
  let s := ArtichIO.mkSession (ArtichIO.__init__ Samples.cfg) [] in
  (ArtichIO.pull Samples.server_down Samples.py_str Samples.utcnow 100 s).1
  = ([], Some ArtichIO.unreachable)
  /\ (ArtichIO.pull Samples.server_broken Samples.py_str Samples.utcnow 100 s).1
     = ([], Some (ArtichIO.remote_error Samples.py_str (Document "internal error"))).
Proof.
  intros s. split.
  - destruct (sync_errors_are_watson_errors Samples.server_down Samples.py_str
                Samples.arrow_str Samples.utcnow s) as (Hpull & _).
    destruct (Hpull 100 "https://api.crick.io/frames/"
                [("content-type", "application/json");
                 ("Authorization", "Token s3cr3t")] eq_refl) as [Hdown _].
    now rewrite (Hdown eq_refl).
  - destruct (sync_errors_are_watson_errors Samples.server_broken Samples.py_str
                Samples.arrow_str Samples.utcnow s) as (Hpull & _).
    destruct (Hpull 100 "https://api.crick.io/frames/"
                [("content-type", "application/json");
                 ("Authorization", "Token s3cr3t")] eq_refl) as [_ Hstatus].
    rewrite (Hstatus (mkResponse 500 (Some (Document "internal error")))
               (Document "internal error") eq_refl); [reflexivity| |reflexivity].
    simpl. lia.
Defined.

(** C6 as stated fails: an unreachable remote and a remote that answers 500
    make [pull] end with exceptions of one and the same class. *)
Lemma unreachable_and_status_errors_share_class :
  let s := ArtichIO.mkSession (ArtichIO.__init__ Samples.cfg) [] in
  let down :=
    (ArtichIO.pull Samples.server_down Samples.py_str Samples.utcnow 100 s).1.2 in
  let broken :=
    (ArtichIO.pull Samples.server_broken Samples.py_str Samples.utcnow 100 s).1.2 in
  down = Some (mkExc WatsonError "Unable to reach the server.")
  /\ broken
     = Some (mkExc WatsonError
               "An error occured with the remote server: internal error")
  /\ exc_type <$> down = exc_type <$> broken.
Proof. vm_compute. split_and!; reflexivity. Qed.

(** ** What a raising sync leaves behind *)

(** C5, as the code has it: [push] never changes the frame store or the
    cursor.  [pull] never changes the cursor and the configuration; its store
    afterwards is the store with the frames applied that the backend yielded
    before it stopped, so a [pull] whose backend could not be loaded, or
    yielded nothing before raising, leaves the store as it was.  The HTTP
    backend yields nothing when the configuration is incomplete, when the
    frames request cannot connect and when it is answered with another status
    than 200. *)
Theorem raising_sync_leaves_state
    (entry_points : list (string * Result Watson.SyncBackend))
    (world : Watson.World) (last_pull : Timestamp) :
  let w := Watson.this world in
  Watson.this (Watson.push entry_points last_pull world).2 = w
  /\ (forall e,
        Watson._load_backend entry_points w = Raise e ->
        Watson.pull entry_points world = (Raise e, world))
  /\ (forall backend yielded ending wire',
        Watson._load_backend entry_points w = Ok backend ->
        Watson.backend_pull backend (Watson.config w) (Watson.last_sync w)
          (Watson.wire world)
        = ((yielded, ending), wire') ->
        Watson.this (Watson.pull entry_points world).2
        = {| Watson.frames :=
               (Watson.pull_loop (Watson.last_sync w) yielded (Watson.frames w) []).1;
             Watson.last_sync := Watson.last_sync w;
             Watson.config := Watson.config w |}
        /\ (yielded = [] ->
            Watson.this (Watson.pull entry_points world).2 = w))
  /\ (forall server py_str arrow_str utcnow cfg last_sync wire,
        let backend := Watson.ArtichIOSync server py_str arrow_str utcnow in
        (forall e,
            ArtichIO._get_request_info cfg "frames" = Raise e ->
            Watson.backend_pull backend cfg last_sync wire = (([], Some e), wire))
        /\ (forall dest headers,
              ArtichIO._get_request_info cfg "frames" = Ok (dest, headers) ->
              let req := mkRequest GET dest headers (Some last_sync) None in
              (server wire req = ConnectionError ->
               Watson.backend_pull backend cfg last_sync wire
               = (([], Some ArtichIO.unreachable), wire ++ [req]))
              /\ (forall response,
                    server wire req = Responded response ->
                    status_code response <> 200 ->
                    exists e,
                      Watson.backend_pull backend cfg last_sync wire
                      = (([], Some e), wire ++ [req])))).
Proof.
  intros w. split_and!.
  - unfold Watson.push. fold w.
    destruct (Watson._load_backend entry_points w) as [backend|e];
      [|reflexivity].
    now destruct (Watson.backend_push backend _ _ _).
  - intros e Hload. unfold Watson.pull. fold w. now rewrite Hload.
  - intros backend yielded ending wire' Hload Hpull.
    assert (Watson.this (Watson.pull entry_points world).2
            = {| Watson.frames :=
                   (Watson.pull_loop (Watson.last_sync w) yielded
                      (Watson.frames w) []).1;
                 Watson.last_sync := Watson.last_sync w;
                 Watson.config := Watson.config w |}) as Hstate.
    { unfold Watson.pull. fold w. rewrite Hload, Hpull.
      now destruct (Watson.pull_loop _ yielded _ _). }
    split; [exact Hstate|].
    intros ->. rewrite Hstate. simpl. now destruct w.
  - intros server py_str arrow_str utcnow cfg last_sync wire backend.
    set (s := ArtichIO.mkSession (ArtichIO.__init__ cfg) wire).
    split.
    + intros e Hinfo. unfold backend, Watson.ArtichIOSync. simpl. fold s.
      now rewrite (ErrorFacts.pull_without_request_info server py_str utcnow
                     last_sync s e Hinfo).
    + intros dest headers Hinfo req.
      destruct (ErrorFacts.pull_request_fails server py_str utcnow last_sync s
                  dest headers Hinfo) as [Hdown Hstatus].
      fold req in Hdown, Hstatus. split.
      * intros Hreply. unfold backend, Watson.ArtichIOSync. simpl. fold s.
        now rewrite (Hdown Hreply).
      * intros response Hreply Hcode.
        unfold backend, Watson.ArtichIOSync. simpl. fold s.
        destruct (json response) as [body|] eqn:Hbody.
        -- exists (ArtichIO.remote_error py_str body).
           now rewrite (Hstatus response body Hreply Hcode Hbody).
        -- exists (mkExc ValueError "No JSON object could be decoded").
           unfold ArtichIO.pull. simpl. rewrite Hinfo.
           unfold ArtichIO.requests_get, ArtichIO.send. simpl. fold req.
           rewrite Hreply. apply Z.eqb_neq in Hcode. rewrite Hcode.
           unfold ArtichIO.response_json. now rewrite Hbody.
Qed.

Lemma raising_sync_leaves_state_witness :
  let outcome :=
    Watson.pull (Samples.entry_points Samples.server_down) Samples.world in
  outcome.1 = Raise ArtichIO.unreachable
  /\ Watson.this outcome.2 = Watson.this Samples.world.
Proof.
  intros outcome. split; [vm_compute; reflexivity|].
  destruct (raising_sync_leaves_state (Samples.entry_points Samples.server_down)
              Samples.world 200) as (_ & _ & Hpull & _).
  destruct (Hpull (Samples.plugin Samples.server_down) []
              (Some ArtichIO.unreachable)
              [mkRequest GET "https://api.crick.io/frames/"
                 [("content-type", "application/json");
                  ("Authorization", "Token s3cr3t")] (Some 100) None])
    as [_ Hsame].
  - vm_compute. reflexivity.
  - vm_compute. reflexivity.
  - exact (Hsame eq_refl).
Defined.

(** C5 as stated fails: the remote lists two frames, the second of which
    names a project that is not in the listing.  [pull] raises, and the first
    frame has already replaced the local one. *)
Lemma pull_raises_after_partial_write :
  let remote := Samples.server_up [Samples.remote2; Samples.remote7] in
  let outcome := Watson.pull (Samples.entry_points remote) Samples.world in
  (exists e, outcome.1 = Raise e)
  /\ FramesOps.getitem "f2" (Watson.frames (Watson.this Samples.world))
     = Some Samples.local2
  /\ FramesOps.getitem "f2" (Watson.frames (Watson.this outcome.2))
     = Some (mkFrame 30 45 "voyager" "f2" [] 300)
  /\ Watson.frames (Watson.this outcome.2)
     <> Watson.frames (Watson.this Samples.world).
Proof.
  intros remote outcome.
  assert (FramesOps.getitem "f2" (Watson.frames (Watson.this outcome.2))
          = Some (mkFrame 30 45 "voyager" "f2" [] 300)) as Hafter.
  { vm_compute. reflexivity. }
  split_and!.
  - eexists. vm_compute. reflexivity.
  - vm_compute. reflexivity.
  - exact Hafter.
  - intros Heq. rewrite Heq in Hafter. vm_compute in Hafter. discriminate.
Qed.


(** * Further properties of the backend *)

Module BackendFacts.

  Import ArtichIO.

Lemma follows_refl (s : Session) : follows s s [].
Proof. unfold follows. now rewrite app_nil_r. Qed.

Section WithRemote.

  Variable server : Server.
  Variable py_str : Payload -> string.
  Variable arrow_str : Timestamp -> string.
  Variable utcnow : Timestamp.

(** The listing request: nothing is sent when a listing is memoized or the
    request information is missing, one GET otherwise. *)
Lemma get_remote_projects_follows (s : Session) :
  let outcome := _get_remote_projects server py_str s in
  exists new,
    follows s outcome.2 new
    /\ (new = []
        \/ exists dest headers,
             _remote_projects (self s) = None
             /\ _get_request_info (config (self s)) "projects" = Ok (dest, headers)
             /\ new = [mkRequest GET dest headers None None])
    /\ (forall listing, outcome.1 = Ok listing ->
                        _remote_projects (self outcome.2) = Some listing).
Proof.
  intros outcome.
  destruct (_remote_projects (self s)) as [cached|] eqn:Hcache.
  - exists []. unfold outcome.
    rewrite (ArtichIOFacts.get_remote_projects_cached server py_str s _ Hcache).
    simpl. split_and!; [apply follows_refl|now left|].
    now intros listing [= <-].
  - pose proof (ArtichIOFacts.get_remote_projects_fetch server py_str s Hcache)
      as Hfetch.
    destruct (_get_request_info (config (self s)) "projects")
      as [[dest headers]|e] eqn:Hinfo.
    + cbn zeta in Hfetch. exists [mkRequest GET dest headers None None].
      unfold outcome. rewrite Hfetch.
      destruct (server (sent s) (mkRequest GET dest headers None None))
        as [|response].
      * simpl. split_and!; [|right; now exists dest, headers|discriminate].
        split_and!; [reflexivity|congruence|reflexivity].
      * destruct (json response) as [body|].
        -- destruct (status_code response =? 200); simpl.
           ++ split_and!; [|right; now exists dest, headers|now intros l [= <-]].
              split_and!; [reflexivity|congruence|reflexivity].
           ++ split_and!; [|right; now exists dest, headers|discriminate].
              split_and!; [reflexivity|congruence|reflexivity].
        -- simpl. split_and!; [|right; now exists dest, headers|discriminate].
           split_and!; [reflexivity|congruence|reflexivity].
    + exists []. unfold outcome. rewrite Hfetch. simpl.
      split_and!; [apply follows_refl|now left|discriminate].
Qed.

(** With a listing memoized the loop of [pull] sends nothing and leaves the
    instance alone. *)
Lemma pull_loop_memoized (listing : Payload) (frames : list WireFrame) :
  forall (yielded : list Frame) (s : Session),
    _remote_projects (self s) = Some listing ->
    (pull_loop server py_str utcnow frames yielded s).2 = s.
Proof.
  induction frames as [|frame rest IH]; intros yielded s Hcache;
    [reflexivity|].
  cbn [pull_loop].
  rewrite (ArtichIOFacts.get_remote_projects_cached server py_str s _ Hcache).
  destruct (project_objects _ listing) as [ps|e]; [|reflexivity].
  destruct (List.find _ ps); [|reflexivity].
  now apply IH.
Qed.

(** With a listing memoized the loop of [push] sends nothing and leaves the
    instance alone. *)
Lemma push_loop_memoized (listing : Payload) (frames : list Frame) :
  forall (to_upload : list UploadRecord) (s : Session),
    _remote_projects (self s) = Some listing ->
    (push_loop server py_str arrow_str frames to_upload s).2 = s.
Proof.
  induction frames as [|frame rest IH]; intros to_upload s Hcache;
    [reflexivity|].
  cbn [push_loop]. unfold bind at 1.
  rewrite (ArtichIOFacts.get_remote_projects_cached server py_str s _ Hcache).
  unfold bind at 1, lift.
  destruct (project_objects _ listing) as [ps|e]; [|reflexivity].
  destruct (List.find _ ps); [|reflexivity].
  now apply IH.
Qed.

(** Either loop sends what its first listing request sends, and no more. *)
Lemma pull_loop_state (frame : WireFrame) (rest : list WireFrame)
    (yielded : list Frame) (s : Session) :
  (pull_loop server py_str utcnow (frame :: rest) yielded s).2
  = (_get_remote_projects server py_str s).2.
Proof.
  cbn [pull_loop].
  destruct (get_remote_projects_follows s) as (new & _ & _ & Hmemo).
  destruct (_get_remote_projects server py_str s) as [[listing|e] s'];
    [|reflexivity].
  simpl in Hmemo. specialize (Hmemo listing eq_refl).
  destruct (project_objects _ listing) as [ps|e]; [|reflexivity].
  destruct (List.find _ ps); [|reflexivity].
  simpl. now apply (pull_loop_memoized listing).
Qed.

Lemma push_loop_state (frame : Frame) (rest : list Frame)
    (to_upload : list UploadRecord) (s : Session) :
  (push_loop server py_str arrow_str (frame :: rest) to_upload s).2
  = (_get_remote_projects server py_str s).2.
Proof.
  cbn [push_loop]. unfold bind at 1.
  destruct (get_remote_projects_follows s) as (new & _ & _ & Hmemo).
  destruct (_get_remote_projects server py_str s) as [[listing|e] s'];
    [|reflexivity].
  simpl in Hmemo. specialize (Hmemo listing eq_refl).
  unfold bind at 1, lift.
  destruct (project_objects _ listing) as [ps|e]; [|reflexivity].
  destruct (List.find _ ps); [|reflexivity].
  simpl. now apply (push_loop_memoized listing).
Qed.

Lemma incomplete_no_request_info (cfg : Config) (route : string) :
  incomplete cfg ->
  _get_request_info cfg route = Raise configuration_error.
Proof.
  unfold incomplete, _get_request_info.
  intros [Hu|[Hu|[Ht|Ht]]]; rewrite Hu || rewrite Ht; try reflexivity.
  - now destruct (backend_token cfg).
  - now destruct (backend_url cfg).
  - destruct (backend_url cfg) as [url|]; [|reflexivity].
    simpl. now rewrite andb_false_r.
Qed.

Definition invalid_project : Exception :=
  mkExc TypeError "string indices must be integers".

(** The loop of [pull] on a memoized project listing. *)
Lemma pull_loop_listed (ps : list RemoteProject) (frames : list WireFrame) :
  forall (yielded : list Frame) (s : Session),
    _remote_projects (self s) = Some (ProjectList ps) ->
    pull_loop server py_str utcnow frames yielded s
    = ((yielded ++ resolved_prefix utcnow ps frames,
        if List.forallb (fun w => bool_decide (is_Some (by_url ps w))) frames
        then None else Some invalid_project), s).
Proof.
  induction frames as [|frame rest IH]; intros yielded s Hcache.
  - simpl. now rewrite app_nil_r.
  - cbn [pull_loop].
    rewrite (ArtichIOFacts.get_remote_projects_cached server py_str s _ Hcache).
    cbn [project_objects resolved_prefix List.forallb].
    fold (by_url ps frame).
    destruct (by_url ps frame) as [p|] eqn:Hurl.
    + rewrite (IH _ s Hcache), <- app_assoc.
      now rewrite bool_decide_eq_true_2 by eauto.
    + rewrite bool_decide_eq_false_2 by (intros [? ?]; discriminate).
      simpl. now rewrite app_nil_r.
Qed.

(** The first iteration obtains the listing; the loop then runs on it. *)
Lemma pull_loop_resolved (ps : list RemoteProject) (frame : WireFrame)
    (rest : list WireFrame) (yielded : list Frame) (s s1 : Session) :
  _get_remote_projects server py_str s = (Ok (ProjectList ps), s1) ->
  pull_loop server py_str utcnow (frame :: rest) yielded s
  = pull_loop server py_str utcnow (frame :: rest) yielded s1.
Proof.
  intros Hcall.
  destruct (ArtichIOFacts.get_remote_projects_ok server py_str s s1 _ Hcall)
    as (Hmemo & _).
  cbn [pull_loop]. rewrite Hcall.
  now rewrite (ArtichIOFacts.get_remote_projects_cached server py_str s1 _ Hmemo).
Qed.

(** [pull] once the frames request has been answered with a 200 and an
    array of frames. *)
Lemma pull_answered (last_sync : Timestamp) (s : Session)
    (dest : string) (headers : list (string * string))
    (response : Response) (frames : list WireFrame) :
  _get_request_info (config (self s)) "frames" = Ok (dest, headers) ->
  let req := mkRequest GET dest headers (Some last_sync) None in
  server (sent s) req = Responded response ->
  status_code response = 200 ->
  json response = Some (FrameList frames) ->
  pull server py_str utcnow last_sync s
  = pull_loop server py_str utcnow frames []
      {| self := self s; sent := sent s ++ [req] |}.
Proof.
  intros Hinfo req Hreply Hstatus Hbody. unfold pull. rewrite Hinfo.
  unfold requests_get, send. fold req. rewrite Hreply, Hstatus, Hbody.
  reflexivity.
Qed.

Lemma resolved_prefix_all (ps : list RemoteProject) (frames : list WireFrame) :
  Forall (fun w => is_Some (by_url ps w)) frames ->
  List.forallb (fun w => bool_decide (is_Some (by_url ps w))) frames = true
  /\ Forall2
       (fun w f =>
          id f = w_id w
          /\ start f = w_start w
          /\ stop f = w_stop w
          /\ tags f = w_tags w
          /\ updated_at f = default utcnow (w_updated_at w)
          /\ exists p, by_url ps w = Some p /\ project f = p_name p)
       frames (resolved_prefix utcnow ps frames).
Proof.
  induction 1 as [|w rest [p Hp] _ [IHb IH]]; [split; [reflexivity|constructor]|].
  cbn [List.forallb resolved_prefix]. rewrite Hp.
  rewrite bool_decide_eq_true_2 by eauto. split; [exact IHb|].
  constructor; [|exact IH]. simpl. split_and!; try reflexivity.
  now exists p.
Qed.

Lemma resolved_prefix_stops (ps : list RemoteProject)
    (pre post : list WireFrame) (bad : WireFrame) :
  Forall (fun w => is_Some (by_url ps w)) pre ->
  by_url ps bad = None ->
  resolved_prefix utcnow ps (pre ++ bad :: post) = resolved_prefix utcnow ps pre
  /\ List.forallb (fun w => bool_decide (is_Some (by_url ps w)))
       (pre ++ bad :: post) = false.
Proof.
  intros Hpre Hbad. induction Hpre as [|w rest [p Hp] _ [IHp IHb]].
  - simpl. rewrite Hbad.
    now rewrite bool_decide_eq_false_2 by (intros [? ?]; discriminate).
  - cbn [app resolved_prefix List.forallb]. rewrite Hp, IHp, IHb.
    now rewrite andb_false_r.
Qed.

End WithRemote.

End BackendFacts.

(** X1: with the URL or the token missing or empty, [pull], [push] and a
    listing request that has nothing memoized all end with the
    [ConfigurationError], and none of them sends a request or touches the
    instance. *)
Theorem incomplete_configuration_sends_nothing
    (server : Server) (py_str : Payload -> string)
    (arrow_str : Timestamp -> string) (utcnow : Timestamp)
    (s : ArtichIO.Session) (last_sync : Timestamp) (frames : list Frame) :
  incomplete (ArtichIO.config (ArtichIO.self s)) ->
  ArtichIO.pull server py_str utcnow last_sync s
  = (([], Some ArtichIO.configuration_error), s)
  /\ ArtichIO.push server py_str arrow_str frames s
     = (Raise ArtichIO.configuration_error, s)
  /\ (ArtichIO._remote_projects (ArtichIO.self s) = None ->
      ArtichIO._get_remote_projects server py_str s
      = (Raise ArtichIO.configuration_error, s))
  /\ exc_type ArtichIO.configuration_error = ConfigurationError.
Proof.
  intros Hcfg. split_and!.
  - unfold ArtichIO.pull.
    now rewrite (BackendFacts.incomplete_no_request_info _ "frames" Hcfg).
  - unfold ArtichIO.push, bind at 1, gets. unfold bind at 1, lift.
    now rewrite (BackendFacts.incomplete_no_request_info _ "frames/bulk" Hcfg).
  - intros Hnone.
    pose proof (ArtichIOFacts.get_remote_projects_fetch server py_str s Hnone)
      as Hfetch.
    now rewrite (BackendFacts.incomplete_no_request_info _ "projects" Hcfg)
      in Hfetch.
  - reflexivity.
Qed.

Lemma incomplete_configuration_sends_nothing_witness :
  let s :=
    ArtichIO.mkSession
      (ArtichIO.__init__ (mkConfig (Some "https://api.crick.io/") (Some "") None))
      [] in
  ArtichIO.push (Samples.server_up []) Samples.py_str Samples.arrow_str
    [Samples.local1] s
  = (Raise ArtichIO.configuration_error, s).
Proof.
  intros s.
  apply (incomplete_configuration_sends_nothing (Samples.server_up [])
           Samples.py_str Samples.arrow_str Samples.utcnow s 0 [Samples.local1]).
  right. right. right. reflexivity.
Defined.

(** X2: when the frames request is answered with a 200 and an array of
    frames whose projects are all in the listing, [pull] yields one frame per
    remote frame, in the order of the array, each with the remote's id, start,
    stop and tags, the name of the first listed project with its URL, and the
    remote's [updated_at] or, failing that, the current instant; the listing
    is asked for once, after the frames, and not at all for an empty array. *)
Theorem pull_yields_one_frame_per_remote_frame
    (server : Server) (py_str : Payload -> string) (utcnow : Timestamp)
    (last_sync : Timestamp) (s s1 : ArtichIO.Session)
    (ps : list RemoteProject) (frames : list WireFrame)
    (dest : string) (headers : list (string * string)) (response : Response) :
  let req := mkRequest GET dest headers (Some last_sync) None in
  let s' := {| ArtichIO.self := ArtichIO.self s;
               ArtichIO.sent := ArtichIO.sent s ++ [req] |} in
  ArtichIO._get_request_info (ArtichIO.config (ArtichIO.self s)) "frames"
  = Ok (dest, headers) ->
  server (ArtichIO.sent s) req = Responded response ->
  status_code response = 200 ->
  json response = Some (FrameList frames) ->
  match frames with
  | [] => s1 = s'
  | _ :: _ =>
      ArtichIO._get_remote_projects server py_str s' = (Ok (ProjectList ps), s1)
  end ->
  Forall (fun w => is_Some (by_url ps w)) frames ->
  ArtichIO.pull server py_str utcnow last_sync s
  = ((resolved_prefix utcnow ps frames, None), s1)
  /\ Forall2
       (fun w f =>
          id f = w_id w
          /\ start f = w_start w
          /\ stop f = w_stop w
          /\ tags f = w_tags w
          /\ updated_at f = default utcnow (w_updated_at w)
          /\ exists p, by_url ps w = Some p /\ project f = p_name p)
       frames (resolved_prefix utcnow ps frames).
Proof.
  intros req s' Hinfo Hreply Hstatus Hbody Hlisting Hall.
  destruct (BackendFacts.resolved_prefix_all utcnow ps frames Hall)
    as [Hb Hshape].
  split; [|exact Hshape].
  rewrite (BackendFacts.pull_answered server py_str utcnow last_sync s dest
             headers response frames Hinfo Hreply Hstatus Hbody).
  fold req. fold s'. destruct frames as [|frame rest].
  - now subst s1.
  - rewrite (BackendFacts.pull_loop_resolved server py_str utcnow ps frame rest
               [] s' s1 Hlisting).
    destruct (ArtichIOFacts.get_remote_projects_ok server py_str s' s1 _ Hlisting)
      as (Hmemo & _).
    rewrite (BackendFacts.pull_loop_listed server py_str utcnow ps
               (frame :: rest) [] s1 Hmemo).
    now rewrite Hb.
Qed.

Lemma pull_yields_one_frame_per_remote_frame_witness :
  let s := ArtichIO.mkSession (ArtichIO.__init__ Samples.cfg) [] in
  let remote := Samples.server_up [Samples.remote1; Samples.remote6] in
  let outcome := ArtichIO.pull remote Samples.py_str Samples.utcnow 100 s in
  outcome.1
  = ([mkFrame 10 25 "apollo" "f1" ["code"] 100;
      mkFrame 96 99 "apollo" "f6" [] 80], None)
  /\ List.map dest (ArtichIO.sent outcome.2)
     = ["https://api.crick.io/frames/"; "https://api.crick.io/projects/"].
Proof.
  intros s remote outcome.
  set (req := mkRequest GET "https://api.crick.io/frames/"
                [("content-type", "application/json");
                 ("Authorization", "Token s3cr3t")] (Some 100) None).
  set (s' := ArtichIO.mkSession (ArtichIO.__init__ Samples.cfg) [req]).
  destruct (pull_yields_one_frame_per_remote_frame remote Samples.py_str
              Samples.utcnow 100 s
              (ArtichIO._get_remote_projects remote Samples.py_str s').2
              Samples.projects [Samples.remote1; Samples.remote6]
              "https://api.crick.io/frames/"
              [("content-type", "application/json");
               ("Authorization", "Token s3cr3t")]
              (mkResponse 200
                 (Some (FrameList [Samples.remote1; Samples.remote6]))))
    as [Hpull _].
  - vm_compute. reflexivity.
  - vm_compute. reflexivity.
  - reflexivity.
  - reflexivity.
  - vm_compute. reflexivity.
  - repeat constructor; vm_compute; eauto.
  - unfold outcome. rewrite Hpull. split; vm_compute; reflexivity.
Defined.

(** X3: when a frame of the array names a project URL that the listing does
    not have, [pull] yields the frames before it and ends with the
    [TypeError] of subscripting that URL with ['id'], not with a
    [WatsonError]; the frames after it are never looked at. *)
Theorem pull_stops_at_unlisted_project
    (server : Server) (py_str : Payload -> string) (utcnow : Timestamp)
    (last_sync : Timestamp) (s s1 : ArtichIO.Session)
    (ps : list RemoteProject) (pre post : list WireFrame) (bad : WireFrame)
    (dest : string) (headers : list (string * string)) (response : Response) :
  let req := mkRequest GET dest headers (Some last_sync) None in
  let s' := {| ArtichIO.self := ArtichIO.self s;
               ArtichIO.sent := ArtichIO.sent s ++ [req] |} in
  ArtichIO._get_request_info (ArtichIO.config (ArtichIO.self s)) "frames"
  = Ok (dest, headers) ->
  server (ArtichIO.sent s) req = Responded response ->
  status_code response = 200 ->
  json response = Some (FrameList (pre ++ bad :: post)) ->
  ArtichIO._get_remote_projects server py_str s' = (Ok (ProjectList ps), s1) ->
  Forall (fun w => is_Some (by_url ps w)) pre ->
  (forall p, In p ps -> p_url p <> w_project bad) ->
  ArtichIO.pull server py_str utcnow last_sync s
  = ((resolved_prefix utcnow ps pre,
      Some (mkExc TypeError "string indices must be integers")), s1)
  /\ length (resolved_prefix utcnow ps pre) = length pre
  /\ issubclass TypeError WatsonError = false.
Proof.
  intros req s' Hinfo Hreply Hstatus Hbody Hlisting Hpre Hbad.
  assert (by_url ps bad = None) as Hnone.
  { unfold by_url. destruct (List.find _ ps) as [p|] eqn:Hfind; [|reflexivity].
    apply find_some in Hfind. destruct Hfind as [Hin Heq].
    apply String.eqb_eq in Heq. now apply Hbad in Hin. }
  destruct (BackendFacts.resolved_prefix_stops utcnow ps pre post bad Hpre Hnone)
    as [Hprefix Hb].
  split_and!.
  - rewrite (BackendFacts.pull_answered server py_str utcnow last_sync s dest
               headers response _ Hinfo Hreply Hstatus Hbody).
    fold req. fold s'.
    destruct (ArtichIOFacts.get_remote_projects_ok server py_str s' s1 _ Hlisting)
      as (Hmemo & _).
    assert (ArtichIO.pull_loop server py_str utcnow (pre ++ bad :: post) [] s'
            = ArtichIO.pull_loop server py_str utcnow (pre ++ bad :: post) [] s1)
      as ->.
    { destruct pre as [|w pre'];
        apply (BackendFacts.pull_loop_resolved server py_str utcnow ps _ _ [] s' s1
                 Hlisting). }
    rewrite (BackendFacts.pull_loop_listed server py_str utcnow ps _ [] s1 Hmemo).
    now rewrite Hprefix, Hb.
  - destruct (BackendFacts.resolved_prefix_all utcnow ps pre Hpre) as [_ Hshape].
    symmetry. exact (Forall2_length _ _ _ Hshape).
  - reflexivity.
Qed.

Lemma pull_stops_at_unlisted_project_witness :
  let s := ArtichIO.mkSession (ArtichIO.__init__ Samples.cfg) [] in
  let remote :=
    Samples.server_up [Samples.remote2; Samples.remote7; Samples.remote1] in
  (ArtichIO.pull remote Samples.py_str Samples.utcnow 100 s).1
  = ([mkFrame 30 45 "voyager" "f2" [] 300],
     Some (mkExc TypeError "string indices must be integers")).
Proof.
  intros s remote.
  set (req := mkRequest GET "https://api.crick.io/frames/"
                [("content-type", "application/json");
                 ("Authorization", "Token s3cr3t")] (Some 100) None).
  set (s' := ArtichIO.mkSession (ArtichIO.__init__ Samples.cfg) [req]).
  destruct (pull_stops_at_unlisted_project remote Samples.py_str
              Samples.utcnow 100 s
              (ArtichIO._get_remote_projects remote Samples.py_str s').2
              Samples.projects [Samples.remote2] [Samples.remote1]
              Samples.remote7
              "https://api.crick.io/frames/"
              [("content-type", "application/json");
               ("Authorization", "Token s3cr3t")]
              (mkResponse 200
                 (Some (FrameList
                          [Samples.remote2; Samples.remote7; Samples.remote1]))))
    as (Hpull & _).
  - vm_compute. reflexivity.
  - vm_compute. reflexivity.
  - reflexivity.
  - reflexivity.
  - vm_compute. reflexivity.
  - repeat constructor; vm_compute; eauto.
  - intros p [<-|[<-|[]]]; discriminate.
  - rewrite Hpull. vm_compute. reflexivity.
Defined.

(** ** What the backend sends *)

Module LogFacts.

  Import ArtichIO.

Section WithRemote.

  Variable server : Server.
  Variable py_str : Payload -> string.
  Variable arrow_str : Timestamp -> string.
  Variable utcnow : Timestamp.

(** One request has gone out, then [new]. *)
Lemma follows_after_request (s s2 : Session) (req : Request)
    (new : list Request) :
  follows {| self := self s; sent := sent s ++ [req] |} s2 new ->
  follows s s2 (req :: new).
Proof.
  intros (Hcfg & Hkeep & Hsent). simpl in *. split_and!.
  - exact Hcfg.
  - exact Hkeep.
  - rewrite Hsent, <- app_assoc. reflexivity.
Qed.

Lemma follows_request (s : Session) (req : Request) :
  follows s {| self := self s; sent := sent s ++ [req] |} [req].
Proof. now split_and!. Qed.

(** What the listing request adds to the log. *)
Lemma listing_request_log (s : Session) :
  exists new,
    follows s (_get_remote_projects server py_str s).2 new
    /\ (length new <= 1)%nat
    /\ Forall (fun r => method r = GET) new.
Proof.
  destruct (BackendFacts.get_remote_projects_follows server py_str s)
    as (new & Hf & Hnew & _).
  exists new. split; [exact Hf|].
  destruct Hnew as [->|(d & h & _ & _ & ->)]; simpl.
  - split; [lia|constructor].
  - split; [lia|]. now repeat constructor.
Qed.

Lemma pull_loop_log (frames : list WireFrame) (yielded : list Frame)
    (s : Session) :
  exists new,
    follows s (pull_loop server py_str utcnow frames yielded s).2 new
    /\ (length new <= 1)%nat
    /\ Forall (fun r => method r = GET) new.
Proof.
  destruct frames as [|frame rest].
  - exists []. simpl. split; [apply BackendFacts.follows_refl|].
    split; [lia|constructor].
  - rewrite BackendFacts.pull_loop_state. apply listing_request_log.
Qed.

Lemma push_loop_log (frames : list Frame) (to_upload : list UploadRecord)
    (s : Session) :
  exists new,
    follows s (push_loop server py_str arrow_str frames to_upload s).2 new
    /\ (length new <= 1)%nat
    /\ Forall (fun r => method r = GET) new.
Proof.
  destruct frames as [|frame rest].
  - exists []. simpl. split; [apply BackendFacts.follows_refl|].
    split; [lia|constructor].
  - rewrite BackendFacts.push_loop_state. apply listing_request_log.
Qed.

Lemma first_unresolved_none_all (ps : list RemoteProject) (frames : list Frame) :
  first_unresolved ps frames = None ->
  Forall (fun f => is_Some (resolve ps f)) frames.
Proof.
  unfold first_unresolved. induction frames as [|f rest IH]; [constructor|].
  simpl. destruct (resolve ps f) as [p|] eqn:Hres.
  - rewrite bool_decide_eq_true_2 by eauto. simpl. intros Hrest.
    constructor; [eauto|now apply IH].
  - rewrite bool_decide_eq_false_2 by (intros [? ?]; discriminate).
    discriminate.
Qed.

(** The loop of [push] on a memoized listing that can be searched. *)
Lemma push_loop_searched (listing : Payload) (ps : list RemoteProject)
    (frames : list Frame) :
  forall (to_upload : list UploadRecord) (s : Session),
    _remote_projects (self s) = Some listing ->
    project_objects "name" listing = Ok ps ->
    push_loop server py_str arrow_str frames to_upload s
    = match first_unresolved ps frames with
      | Some bad => (Raise (missing_project bad), s)
      | None => (Ok (to_upload ++ records arrow_str ps frames), s)
      end.
Proof.
  induction frames as [|f rest IH]; intros to_upload s Hcached Hps.
  - simpl. unfold ret. now rewrite app_nil_r.
  - cbn [push_loop]. unfold bind at 1.
    rewrite (ArtichIOFacts.get_remote_projects_cached server py_str s _ Hcached).
    unfold bind at 1, lift. rewrite Hps.
    unfold first_unresolved, records. cbn [List.find omap list_omap].
    unfold upload_record at 1. fold (resolve ps f).
    destruct (resolve ps f) as [p|] eqn:Hres.
    + rewrite bool_decide_eq_true_2 by eauto. cbn [negb].
      rewrite (IH _ s Hcached Hps). unfold first_unresolved, records.
      destruct (List.find _ rest); [reflexivity|].
      now rewrite <- app_assoc.
    + rewrite bool_decide_eq_false_2 by (intros [? ?]; discriminate).
      reflexivity.
Qed.

(** The loop of [push] returns only when every frame has resolved against
    the listing that the instance has obtained, and then with the records of
    the batch. *)
Lemma push_loop_returns (f : Frame) (rest : list Frame) (s s1 : Session)
    (to_upload : list UploadRecord) :
  push_loop server py_str arrow_str (f :: rest) [] s = (Ok to_upload, s1) ->
  exists listing ps,
    _get_remote_projects server py_str s = (Ok listing, s1)
    /\ project_objects "name" listing = Ok ps
    /\ to_upload = records arrow_str ps (f :: rest)
    /\ Forall (fun g => is_Some (resolve ps g)) (f :: rest).
Proof.
  intros Hloop.
  pose proof (BackendFacts.push_loop_state server py_str arrow_str f rest [] s)
    as Hstate.
  rewrite Hloop in Hstate. simpl in Hstate.
  destruct (_get_remote_projects server py_str s) as [[listing|e] s'] eqn:Hcall.
  2:{ cbn [push_loop] in Hloop. unfold bind at 1 in Hloop.
      rewrite Hcall in Hloop. discriminate. }
  simpl in Hstate. subst s'.
  destruct (ArtichIOFacts.get_remote_projects_ok server py_str s s1 _ Hcall)
    as (Hmemo & _).
  assert (push_loop server py_str arrow_str (f :: rest) [] s
          = push_loop server py_str arrow_str (f :: rest) [] s1) as Hrestart.
  { cbn [push_loop]. unfold bind at 1 3. rewrite Hcall.
    now rewrite (ArtichIOFacts.get_remote_projects_cached server py_str s1 _
                   Hmemo). }
  rewrite Hrestart in Hloop.
  destruct (project_objects "name" listing) as [ps|e] eqn:Hps.
  - rewrite (push_loop_searched listing ps (f :: rest) [] s1 Hmemo Hps) in Hloop.
    destruct (first_unresolved ps (f :: rest)) eqn:Hfirst; [discriminate|].
    injection Hloop as <-. exists listing, ps.
    split_and!; [reflexivity|exact Hps|reflexivity|].
    now apply first_unresolved_none_all.
  - cbn [push_loop] in Hloop. unfold bind at 1 in Hloop.
    rewrite (ArtichIOFacts.get_remote_projects_cached server py_str s1 _ Hmemo)
      in Hloop.
    unfold bind at 1, lift in Hloop. rewrite Hps in Hloop. discriminate.
Qed.

End WithRemote.

End LogFacts.

(** X4: a [pull] or a [push] only ever appends to the log of requests, keeps
    the configuration of the instance and keeps a memoized listing.  [pull]
    sends at most two requests, both GETs, however many frames the remote
    lists; [push] sends at most one GET followed by at most one POST, however
    many frames are in the batch. *)
Theorem backend_sends_at_most_two_requests
    (server : Server) (py_str : Payload -> string)
    (arrow_str : Timestamp -> string) (utcnow : Timestamp)
    (s : ArtichIO.Session) (last_sync : Timestamp) (frames : list Frame) :
  (exists new,
      follows s (ArtichIO.pull server py_str utcnow last_sync s).2 new
      /\ (length new <= 2)%nat
      /\ Forall (fun r => method r = GET) new)
  /\ (exists gets posts,
        follows s (ArtichIO.push server py_str arrow_str frames s).2
          (gets ++ posts)
        /\ (length gets <= 1)%nat
        /\ (length posts <= 1)%nat
        /\ Forall (fun r => method r = GET) gets
        /\ Forall (fun r => method r = POST) posts).
Proof.
  split.
  - unfold ArtichIO.pull.
    destruct (ArtichIO._get_request_info _ "frames") as [[dest headers]|e].
    2:{ exists []. simpl. split; [apply BackendFacts.follows_refl|].
        split; [lia|constructor]. }
    unfold ArtichIO.requests_get, ArtichIO.send.
    set (req := mkRequest GET dest headers (Some last_sync) None).
    assert (exists new,
               follows s
                 {| ArtichIO.self := ArtichIO.self s;
                    ArtichIO.sent := ArtichIO.sent s ++ [req] |} new
               /\ (length new <= 2)%nat
               /\ Forall (fun r => method r = GET) new) as Hone.
    { exists [req]. split; [apply LogFacts.follows_request|].
      split; [simpl; lia|now repeat constructor]. }
    destruct (server (ArtichIO.sent s) req) as [|response]; [exact Hone|].
    destruct (status_code response =? 200).
    + destruct (json response) as [body|]; [|exact Hone].
      destruct (ArtichIO.frame_elements body) as [wire|e|e]; [| |exact Hone].
      * destruct (LogFacts.pull_loop_log server py_str utcnow wire []
                    {| ArtichIO.self := ArtichIO.self s;
                       ArtichIO.sent := ArtichIO.sent s ++ [req] |})
          as (new & Hf & Hlen & Hget).
        exists (req :: new). split; [now apply LogFacts.follows_after_request|].
        split; [simpl; lia|now constructor].
      * destruct (LogFacts.listing_request_log server py_str
                    {| ArtichIO.self := ArtichIO.self s;
                       ArtichIO.sent := ArtichIO.sent s ++ [req] |})
          as (new & Hf & Hlen & Hget).
        exists (req :: new).
        split; [|split; [simpl; lia|now constructor]].
        apply LogFacts.follows_after_request.
        destruct (ArtichIO._get_remote_projects server py_str _)
          as [[listing|e'] s2]; [|exact Hf].
        now destruct (ArtichIO.project_objects "url" listing).
    + unfold ArtichIO.response_json, ret, raise.
      now destruct (json response).
  - destruct (ArtichIO._get_request_info (ArtichIO.config (ArtichIO.self s))
                "frames/bulk") as [[dest headers]|e] eqn:Hinfo.
    2:{ exists [], []. unfold ArtichIO.push, bind at 1, gets.
        unfold bind at 1, lift. rewrite Hinfo. simpl.
        split; [apply BackendFacts.follows_refl|].
        split_and!; try lia; constructor. }
    rewrite (PushFacts.push_unfold server py_str arrow_str frames s dest headers
               Hinfo).
    destruct (LogFacts.push_loop_log server py_str arrow_str frames [] s)
      as (new & Hf & Hlen & Hget).
    destruct (ArtichIO.push_loop server py_str arrow_str frames [] s)
      as [[to_upload|e] s1].
    + set (req := mkRequest POST dest headers None (Some to_upload)).
      exists new, [req].
      assert (follows s
                {| ArtichIO.self := ArtichIO.self s1;
                   ArtichIO.sent := ArtichIO.sent s1 ++ [req] |}
                (new ++ [req])) as Hpost.
      { destruct Hf as (Hcfg & Hkeep & Hsent). simpl in *. split_and!.
        - exact Hcfg.
        - exact Hkeep.
        - simpl. rewrite Hsent, <- app_assoc. reflexivity. }
      cbn zeta. fold req.
      assert (Forall (fun r => method r = POST) [req]) as Hp
        by now repeat constructor.
      destruct (server (ArtichIO.sent s1) req) as [|response].
      * split_and!; [exact Hpost|exact Hlen|simpl; lia|exact Hget|exact Hp].
      * destruct (status_code response =? 201);
          [|destruct (json response)];
          (split_and!; [exact Hpost|exact Hlen|simpl; lia|exact Hget|exact Hp]).
    + exists new, []. rewrite app_nil_r. simpl.
      split_and!; [exact Hf|exact Hlen|lia|exact Hget|constructor].
Qed.

(** X5: a [push] of no frame asks for no listing and still uploads: with the
    request information at hand it sends exactly one request, the POST of the
    empty array, and returns the empty list when that is answered with a
    201. *)
Theorem push_of_nothing_still_posts
    (server : Server) (py_str : Payload -> string)
    (arrow_str : Timestamp -> string) (s : ArtichIO.Session)
    (dest : string) (headers : list (string * string)) :
  let req := mkRequest POST dest headers None (Some []) in
  let s' := {| ArtichIO.self := ArtichIO.self s;
               ArtichIO.sent := ArtichIO.sent s ++ [req] |} in
  ArtichIO._get_request_info (ArtichIO.config (ArtichIO.self s)) "frames/bulk"
  = Ok (dest, headers) ->
  (ArtichIO.push server py_str arrow_str [] s).2 = s'
  /\ (forall response,
        server (ArtichIO.sent s) req = Responded response ->
        status_code response = 201 ->
        ArtichIO.push server py_str arrow_str [] s = (Ok [], s'))
  /\ (server (ArtichIO.sent s) req = ConnectionError ->
      ArtichIO.push server py_str arrow_str [] s
      = (Raise ArtichIO.unreachable, s')).
Proof.
  intros req s' Hinfo.
  rewrite (PushFacts.push_unfold server py_str arrow_str [] s dest headers Hinfo).
  cbn [ArtichIO.push_loop]. unfold ret. cbn zeta. fold req. fold s'.
  split_and!.
  - destruct (server (ArtichIO.sent s) req) as [|response]; [reflexivity|].
    destruct (status_code response =? 201); [reflexivity|].
    now destruct (json response).
  - intros response -> ->. reflexivity.
  - now intros ->.
Qed.

Lemma push_of_nothing_still_posts_witness :
  let s := ArtichIO.mkSession (ArtichIO.__init__ Samples.cfg) [] in
  ArtichIO.push (Samples.server_up []) Samples.py_str Samples.arrow_str [] s
  = (Ok [],
     ArtichIO.mkSession (ArtichIO.__init__ Samples.cfg)
       [mkRequest POST "https://api.crick.io/frames/bulk/"
          [("content-type", "application/json");
           ("Authorization", "Token s3cr3t")] None (Some [])]).
Proof.
  intros s.
  destruct (push_of_nothing_still_posts (Samples.server_up []) Samples.py_str
              Samples.arrow_str s "https://api.crick.io/frames/bulk/"
              [("content-type", "application/json");
               ("Authorization", "Token s3cr3t")] eq_refl)
    as (_ & Hok & _).
  exact (Hok (mkResponse 201 (Some (Document "created"))) eq_refl eq_refl).
Defined.

(** X6: whatever the remote answers, a POST that [push] adds to the log is
    the last request of that [push], after nothing but GETs, and goes to the
    bulk route with the headers of the instance.  With a batch of no frame it
    carries the empty array and no request precedes it.  Otherwise it was
    sent after every frame of the batch had resolved against the listing that
    [_get_remote_projects] gives the instance, fetched by the request that
    precedes the POST or memoized: it carries the records of the batch built
    from that listing, one per frame and in order. *)
Theorem bulk_upload_follows_validation
    (server : Server) (py_str : Payload -> string)
    (arrow_str : Timestamp -> string) (s : ArtichIO.Session)
    (frames : list Frame) (new : list Request) (req : Request) :
  ArtichIO.sent (ArtichIO.push server py_str arrow_str frames s).2
  = ArtichIO.sent s ++ new ->
  In req new ->
  method req = POST ->
  exists dest headers gets,
    ArtichIO._get_request_info (ArtichIO.config (ArtichIO.self s)) "frames/bulk"
    = Ok (dest, headers)
    /\ new = gets ++ [req]
    /\ Forall (fun r => method r = GET) gets
    /\ ((frames = [] /\ gets = []
         /\ req = mkRequest POST dest headers None (Some []))
        \/ exists listing ps,
             frames <> []
             /\ (ArtichIO._get_remote_projects server py_str s).1 = Ok listing
             /\ ArtichIO.sent (ArtichIO._get_remote_projects server py_str s).2
                = ArtichIO.sent s ++ gets
             /\ ArtichIO.project_objects "name" listing = Ok ps
             /\ Forall (fun f => is_Some (resolve ps f)) frames
             /\ req = mkRequest POST dest headers None
                        (Some (records arrow_str ps frames))
             /\ length (records arrow_str ps frames) = length frames).
Proof.
  intros Hsent Hin Hpost.
  destruct (ArtichIO._get_request_info (ArtichIO.config (ArtichIO.self s))
              "frames/bulk") as [[dest headers]|e] eqn:Hinfo.
  2:{ unfold ArtichIO.push, bind at 1, gets in Hsent.
      unfold bind at 1, lift in Hsent. rewrite Hinfo in Hsent. simpl in Hsent.
      rewrite <- (app_nil_r (ArtichIO.sent s)) in Hsent at 1.
      apply app_inv_head in Hsent. subst new. destruct Hin. }
  rewrite (PushFacts.push_unfold server py_str arrow_str frames s dest headers
             Hinfo) in Hsent.
  destruct (LogFacts.push_loop_log server py_str arrow_str frames [] s)
    as (gets & (_ & _ & Hlog) & _ & Hget).
  destruct (ArtichIO.push_loop server py_str arrow_str frames [] s)
    as [[to_upload|e] s1] eqn:Hloop.
  - assert (ArtichIO.sent s ++ new
            = ArtichIO.sent s
              ++ gets ++ [mkRequest POST dest headers None (Some to_upload)])
      as Heq.
    { rewrite <- Hsent. cbn zeta.
      destruct (server (ArtichIO.sent s1) _) as [|response];
        [|destruct (status_code response =? 201);
          [|destruct (json response)]];
        simpl; simpl in Hlog; rewrite Hlog; now rewrite <- app_assoc. }
    apply app_inv_head in Heq. subst new.
    apply in_app_or in Hin. destruct Hin as [Hin|[<-|[]]].
    + apply (proj1 (List.Forall_forall _ _) Hget) in Hin. congruence.
    + exists dest, headers, gets.
      split_and!; [reflexivity|reflexivity|exact Hget|].
      destruct frames as [|f rest].
      * left. cbn [ArtichIO.push_loop] in Hloop. unfold ret in Hloop.
        injection Hloop as <- <-. simpl in Hlog.
        rewrite <- (app_nil_r (ArtichIO.sent s)) in Hlog at 1.
        apply app_inv_head in Hlog. subst gets. now split_and!.
      * right.
        destruct (LogFacts.push_loop_returns server py_str arrow_str f rest s
                    s1 to_upload Hloop)
          as (listing & ps & Hcall & Hps & -> & Hall).
        exists listing, ps. rewrite Hcall. simpl in Hlog |- *.
        split_and!; [discriminate|reflexivity|exact Hlog|exact Hps|exact Hall
                    |reflexivity|].
        symmetry.
        exact (Forall2_length _ _ _
                 (PushFacts.records_all arrow_str ps (f :: rest) Hall)).
  - simpl in Hsent, Hlog. rewrite Hlog in Hsent.
    apply app_inv_head in Hsent. subst new.
    apply (proj1 (List.Forall_forall _ _) Hget) in Hin. congruence.
Qed.

Lemma bulk_upload_follows_validation_witness :
  let s := ArtichIO.mkSession (ArtichIO.__init__ Samples.cfg) [] in
  let batch := [Samples.local1; Samples.local2] in
  let post :=
    mkRequest POST "https://api.crick.io/frames/bulk/"
      [("content-type", "application/json");
       ("Authorization", "Token s3cr3t")] None
      (Some (records Samples.arrow_str Samples.projects batch)) in
  exists gets,
    ArtichIO.sent
      (ArtichIO.push (Samples.server_up []) Samples.py_str Samples.arrow_str
         batch s).2
    = gets ++ [post]
    /\ Forall (fun r => method r = GET) gets
    /\ Forall (fun f => is_Some (resolve Samples.projects f)) batch.
Proof.
  intros s batch post.
  destruct (bulk_upload_follows_validation (Samples.server_up [])
              Samples.py_str Samples.arrow_str s batch
              (ArtichIO.sent
                 (ArtichIO.push (Samples.server_up []) Samples.py_str
                    Samples.arrow_str batch s).2)
              post)
    as (dest & headers & gets & _ & Hnew & Hget & Hcase).
  - reflexivity.
  - vm_compute. right. left. reflexivity.
  - reflexivity.
  - exists gets. split; [exact Hnew|]. split; [exact Hget|].
    destruct Hcase as [(Hnone & _)|(listing & ps & _ & Hcall & _ & Hps & Hall & _)].
    + discriminate Hnone.
    + vm_compute in Hcall. injection Hcall as <-.
      cbn [ArtichIO.project_objects] in Hps. injection Hps as <-. exact Hall.
Defined.


(** * Further properties of the engine *)

Module EngineFacts.

  Import Watson.

Lemma latest_none (key : string) (frames : list Frame) :
  latest key frames = None <-> forall f, In f frames -> id f <> key.
Proof.
  induction frames as [|f rest IH]; simpl.
  - split; [intros _ f []|reflexivity].
  - destruct (latest key rest) as [g|].
    + split; [discriminate|]. intros Hall.
      assert (Some g = None) as Habs; [|discriminate].
      apply IH. intros h Hh. apply Hall. now right.
    + destruct (String.eqb (id f) key) eqn:Heq.
      * split; [discriminate|]. intros Hall.
        apply String.eqb_eq in Heq. now destruct (Hall f (or_introl eq_refl)).
      * apply String.eqb_neq in Heq. split; [|reflexivity].
        intros _ h [<-|Hh]; [exact Heq|].
        now apply (proj1 IH eq_refl).
Qed.

Lemma latest_some (key : string) (frames : list Frame) (g : Frame) :
  latest key frames = Some g -> In g frames /\ id g = key.
Proof.
  induction frames as [|f rest IH]; simpl; [discriminate|].
  destruct (latest key rest) as [h|].
  - intros [= <-]. destruct (IH eq_refl) as [Hin Hid]. split; [now right|exact Hid].
  - destruct (String.eqb (id f) key) eqn:Heq; [|discriminate].
    intros [= <-]. apply String.eqb_eq in Heq. split; [now left|exact Heq].
Qed.

Lemma latest_app (key : string) (l1 l2 : list Frame) :
  latest key (l1 ++ l2)
  = match latest key l2 with
    | Some g => Some g
    | None => latest key l1
    end.
Proof.
  induction l1 as [|f rest IH]; simpl.
  - now destruct (latest key l2).
  - rewrite IH. now destruct (latest key l2).
Qed.

(** One step of the loop, on the result of the rest. *)
Lemma pull_loop_cons (c : Timestamp) (f : Frame) (rest : list Frame)
    (store : Frames) :
  pull_loop c (f :: rest) store []
  = if applies c store f then
      ((pull_loop c rest (FramesOps.setitem (id f) f store) []).1,
       f :: (pull_loop c rest (FramesOps.setitem (id f) f store) []).2)
    else pull_loop c rest store [].
Proof.
  cbn [pull_loop]. destruct (applies c store f); [|reflexivity].
  now rewrite PullFacts.pull_loop_acc.
Qed.

(** The store after the loop: under each id the last frame applied with that
    id, and what was there before under every other id. *)
Lemma pull_loop_lookup (c : Timestamp) (incoming : list Frame) :
  forall (store : Frames) (key : string),
    FramesOps.getitem key (pull_loop c incoming store []).1
    = match latest key (pull_loop c incoming store []).2 with
      | Some g => Some g
      | None => FramesOps.getitem key store
      end.
Proof.
  induction incoming as [|f rest IH]; intros store key; [reflexivity|].
  rewrite pull_loop_cons. destruct (applies c store f); [|apply IH].
  cbn [fst snd latest]. rewrite IH.
  destruct (latest key _) as [g|]; [reflexivity|].
  unfold FramesOps.getitem, FramesOps.setitem. simpl.
  destruct (String.eqb (id f) key) eqn:Heq.
  - apply String.eqb_eq in Heq. subst key. apply lookup_insert_eq.
  - apply String.eqb_neq in Heq. now apply lookup_insert_ne.
Qed.

Lemma pull_loop_keeps (c : Timestamp) (incoming : list Frame)
    (store : Frames) (key : string) :
  is_Some (FramesOps.getitem key store) ->
  is_Some (FramesOps.getitem key (pull_loop c incoming store []).1).
Proof.
  intros Hsome. rewrite pull_loop_lookup.
  destruct (latest key _); [eauto|exact Hsome].
Qed.

(** Every frame the loop has seen has its id in the store afterwards. *)
Lemma pull_loop_present (c : Timestamp) (incoming : list Frame) :
  forall (store : Frames) (f : Frame),
    In f incoming ->
    is_Some (FramesOps.getitem (id f) (pull_loop c incoming store []).1).
Proof.
  induction incoming as [|g rest IH]; intros store f Hin; [destruct Hin|].
  rewrite pull_loop_cons. destruct Hin as [->|Hin].
  - destruct (applies c store f) eqn:Happ.
    + cbn [fst]. apply pull_loop_keeps.
      unfold FramesOps.getitem, FramesOps.setitem. simpl.
      rewrite lookup_insert_eq. eauto.
    + apply pull_loop_keeps.
      unfold applies in Happ. apply orb_false_iff in Happ.
      destruct Happ as [Hin _]. apply negb_false_iff in Hin.
      unfold FramesOps.contains in Hin.
      now apply bool_decide_eq_true in Hin.
  - destruct (applies c store g); [cbn [fst]|]; now apply IH.
Qed.

(** On a store that has the ids of all the incoming frames, the loop applies
    exactly the frames newer than the cursor. *)
Lemma pull_loop_on_known (c : Timestamp) (incoming : list Frame) :
  forall store : Frames,
    (forall f, In f incoming -> is_Some (FramesOps.getitem (id f) store)) ->
    (pull_loop c incoming store []).2 = List.filter (newer c) incoming.
Proof.
  induction incoming as [|f rest IH]; intros store Hknown; [reflexivity|].
  rewrite pull_loop_cons. cbn [List.filter].
  assert (applies c store f = newer c f) as ->.
  { unfold applies, FramesOps.contains.
    rewrite bool_decide_eq_true_2 by (apply Hknown; now left). reflexivity. }
  destruct (newer c f).
  - cbn [snd]. f_equal. apply IH. intros g Hg.
    unfold FramesOps.getitem, FramesOps.setitem. simpl.
    destruct (decide (id f = id g)) as [->|Hne].
    + rewrite lookup_insert_eq. eauto.
    + rewrite lookup_insert_ne by exact Hne. apply Hknown. now right.
  - apply IH. intros g Hg. apply Hknown. now right.
Qed.

(** A frame applied under an id that the store already had is newer than the
    cursor. *)
Lemma pull_loop_applied_newer (c : Timestamp) (incoming : list Frame) :
  forall (store : Frames) (h : Frame),
    is_Some (FramesOps.getitem (id h) store) ->
    In h (pull_loop c incoming store []).2 ->
    In h (List.filter (newer c) incoming).
Proof.
  induction incoming as [|f rest IH]; intros store h Hsome Hin;
    [destruct Hin|].
  rewrite pull_loop_cons in Hin. cbn [List.filter].
  destruct (applies c store f) eqn:Happ.
  - cbn [snd] in Hin.
    assert (is_Some (FramesOps.getitem (id h)
                       (FramesOps.setitem (id f) f store))) as Hsome'.
    { unfold FramesOps.getitem, FramesOps.setitem. simpl.
      destruct (decide (id f = id h)) as [->|Hne].
      - rewrite lookup_insert_eq. eauto.
      - now rewrite lookup_insert_ne. }
    destruct Hin as [<-|Hin].
    + assert (newer c f = true) as ->; [|now left].
      apply PullFacts.applies_iff in Happ. destruct Happ as [Hnone|Hlt].
      * destruct Hsome as [o Ho]. congruence.
      * now apply Z.ltb_lt.
    + specialize (IH _ h Hsome' Hin).
      destruct (newer c f); [now right|exact IH].
  - specialize (IH _ h Hsome Hin).
    destruct (newer c f); [now right|exact IH].
Qed.

Lemma newer_applied (c : Timestamp) (incoming : list Frame) :
  forall (store : Frames) (h : Frame),
    In h (List.filter (newer c) incoming) ->
    In h (pull_loop c incoming store []).2.
Proof.
  induction incoming as [|f rest IH]; intros store h Hin; [destruct Hin|].
  rewrite pull_loop_cons. cbn [List.filter] in Hin.
  destruct (newer c f) eqn:Hnew.
  - assert (applies c store f = true) as ->.
    { unfold applies. fold (newer c f). rewrite Hnew. apply orb_true_r. }
    cbn [snd]. destruct Hin as [<-|Hin]; [now left|right; now apply IH].
  - destruct (applies c store f); [cbn [snd]; right|]; now apply IH.
Qed.

(** Under an id that has a frame newer than the cursor among the incoming
    ones, the last frame applied is the last of those. *)
Lemma latest_applied_newer (c : Timestamp) (incoming : list Frame) :
  forall (store : Frames) (key : string) (g : Frame),
    latest key (List.filter (newer c) incoming) = Some g ->
    latest key (pull_loop c incoming store []).2 = Some g.
Proof.
  induction incoming as [|f rest IH]; intros store key g Hlatest;
    [discriminate|].
  rewrite pull_loop_cons. cbn [List.filter] in Hlatest.
  destruct (newer c f) eqn:Hnew.
  - assert (applies c store f = true) as ->.
    { unfold applies. fold (newer c f). rewrite Hnew. apply orb_true_r. }
    cbn [snd latest]. cbn [latest] in Hlatest.
    destruct (latest key (List.filter (newer c) rest)) as [g'|] eqn:Hrest.
    + injection Hlatest as <-. now rewrite (IH _ key g' Hrest).
    + destruct (String.eqb (id f) key) eqn:Heq; [|discriminate].
      injection Hlatest as <-. apply String.eqb_eq in Heq.
      assert (latest key
                (pull_loop c rest (FramesOps.setitem (id f) f store) []).2
              = None) as ->; [|reflexivity].
      apply latest_none. intros h Hh Hid.
      assert (In h (List.filter (newer c) rest)) as Hin.
      { apply (pull_loop_applied_newer c rest
                 (FramesOps.setitem (id f) f store) h); [|exact Hh].
        unfold FramesOps.getitem, FramesOps.setitem. simpl.
        rewrite Hid, <- Heq, lookup_insert_eq. eauto. }
      now apply (proj1 (latest_none key _) Hrest h Hin).
  - destruct (applies c store f).
    + cbn [snd latest]. now rewrite (IH _ key g Hlatest).
    + now apply IH.
Qed.

Lemma pull_loop_changed (c : Timestamp) (incoming : list Frame) :
  forall store : Frames,
    changed (pull_loop c incoming store []).1
    = match (pull_loop c incoming store []).2 with
      | [] => changed store
      | _ :: _ => true
      end.
Proof.
  induction incoming as [|f rest IH]; intros store; [reflexivity|].
  rewrite pull_loop_cons. destruct (applies c store f); [|apply IH].
  cbn [fst snd]. rewrite IH.
  now destruct (pull_loop c rest _ []).2.
Qed.

Lemma Frames_eq (a b : Frames) :
  (forall key, FramesOps.getitem key a = FramesOps.getitem key b) ->
  changed a = changed b ->
  a = b.
Proof.
  destruct a as [ra ca], b as [rb cb]. unfold FramesOps.getitem. simpl.
  intros Hrows ->. f_equal. now apply map_eq.
Qed.

(** Running the loop again over the same frames changes nothing. *)
Lemma pull_loop_again (c : Timestamp) (incoming : list Frame) (store : Frames) :
  let first := pull_loop c incoming store [] in
  pull_loop c incoming first.1 [] = (first.1, List.filter (newer c) incoming).
Proof.
  intros first.
  assert ((pull_loop c incoming first.1 []).2 = List.filter (newer c) incoming)
    as Hsecond.
  { apply pull_loop_on_known. intros f Hf. now apply pull_loop_present. }
  rewrite (surjective_pairing (pull_loop c incoming first.1 [])).
  rewrite Hsecond. f_equal.
  apply Frames_eq.
  - intros key. rewrite pull_loop_lookup, Hsecond.
    destruct (latest key (List.filter (newer c) incoming)) as [g|] eqn:Hl;
      [|reflexivity].
    unfold first. rewrite pull_loop_lookup.
    now rewrite (latest_applied_newer c incoming store key g Hl).
  - rewrite pull_loop_changed, Hsecond.
    destruct (List.filter (newer c) incoming) as [|h rest] eqn:Hf;
      [reflexivity|].
    unfold first. rewrite pull_loop_changed.
    assert (In h (pull_loop c incoming store []).2) as Hin.
    { apply newer_applied. rewrite Hf. now left. }
    now destruct (pull_loop c incoming store []).2.
Qed.

(** [pull()] in terms of its loop. *)
Lemma pull_run (entry_points : list (string * Result SyncBackend))
    (world : World) (backend : SyncBackend) (yielded : list Frame)
    (ending : option Exception) (wire' : list Request) :
  _load_backend entry_points (this world) = Ok backend ->
  backend_pull backend (config (this world)) (last_sync (this world))
    (wire world)
  = ((yielded, ending), wire') ->
  pull entry_points world
  = (match ending with
     | None =>
         Ok (pull_loop (last_sync (this world)) yielded
               (frames (this world)) []).2
     | Some e => Raise e
     end,
     {| this :=
          {| frames :=
               (pull_loop (last_sync (this world)) yielded
                  (frames (this world)) []).1;
             last_sync := last_sync (this world);
             config := config (this world) |};
        wire := wire' |}).
Proof.
  intros Hload Hpull. unfold pull. rewrite Hload, Hpull.
  now destruct (pull_loop _ yielded _ []).
Qed.

Lemma find_first {A : Type} (test : A -> bool) (pre post : list A) (x : A) :
  (forall y, In y pre -> test y = false) ->
  test x = true ->
  List.find test (pre ++ x :: post) = Some x.
Proof.
  intros Hpre Hx. induction pre as [|y pre IH]; simpl.
  - now rewrite Hx.
  - rewrite (Hpre y (or_introl eq_refl)). apply IH.
    intros z Hz. apply Hpre. now right.
Qed.

Lemma find_nowhere {A : Type} (test : A -> bool) (l : list A) :
  (forall y, In y l -> test y = false) ->
  List.find test l = None.
Proof.
  intros Hall. induction l as [|y l IH]; [reflexivity|]. simpl.
  rewrite (Hall y (or_introl eq_refl)). apply IH.
  intros z Hz. apply Hall. now right.
Qed.

Lemma load_backend_by_config (entry_points : list (string * Result SyncBackend))
    (w w' : Watson) :
  config w' = config w ->
  _load_backend entry_points w' = _load_backend entry_points w.
Proof. intros Hcfg. unfold _load_backend. now rewrite Hcfg. Qed.

Lemma push_batch_in (w : Watson) (last_pull : Timestamp) (f : Frame) :
  In f (push_batch w last_pull)
  <-> (exists key, FramesOps.getitem key (frames w) = Some f)
      /\ last_sync w < updated_at f < last_pull.
Proof.
  unfold push_batch, FramesOps.iter, FramesOps.getitem.
  rewrite filter_In, andb_true_iff, !Z.ltb_lt, <- list_elem_of_In.
  rewrite list_elem_of_fmap. split.
  - intros [[[key g] [-> Hin]] [Hhi Hlo]].
    apply elem_of_map_to_list in Hin. simpl in *. split; [eauto|lia].
  - intros [[key Hkey] [Hlo Hhi]]. split; [|lia].
    exists (key, f). split; [reflexivity|].
    now apply elem_of_map_to_list.
Qed.

Lemma filter_nothing {A : Type} (keep : A -> bool) (l : list A) :
  (forall x, In x l -> keep x = false) ->
  List.filter keep l = [].
Proof.
  intros Hall. induction l as [|x l IH]; [reflexivity|]. simpl.
  rewrite (Hall x (or_introl eq_refl)). apply IH.
  intros y Hy. apply Hall. now right.
Qed.

Lemma filter_everything {A : Type} (keep : A -> bool) (l : list A) :
  (forall x, In x l -> keep x = true) ->
  List.filter keep l = l.
Proof.
  intros Hall. induction l as [|x l IH]; [reflexivity|]. simpl.
  rewrite (Hall x (or_introl eq_refl)). f_equal. apply IH.
  intros y Hy. apply Hall. now right.
Qed.

Lemma iter_in (store : Frames) (f : Frame) :
  In f (FramesOps.iter store)
  <-> exists key, FramesOps.getitem key store = Some f.
Proof.
  unfold FramesOps.iter, FramesOps.getitem.
  rewrite <- list_elem_of_In, list_elem_of_fmap. split.
  - intros [[key g] [-> Hin]]. apply elem_of_map_to_list in Hin. eauto.
  - intros [key Hkey]. exists (key, f). split; [reflexivity|].
    now apply elem_of_map_to_list.
Qed.

Lemma iter_in_key (store : Frames) (key : string) (f : Frame) :
  FramesOps.getitem key store = Some f ->
  In (key, f) (map_to_list (rows store)).
Proof.
  intros Hget. apply list_elem_of_In. now apply elem_of_map_to_list.
Qed.

End EngineFacts.

(** X7: on a [Watson] object whose configuration has been read,
    [_load_backend] looks for the configured backend name, or for
    ["artichio"] when none is configured, and settles on the first entry point
    of that name: its class when it loads, a [WatsonError] that carries the
    message of the failure when it does not, whatever entry points of the same
    name come after it.  An empty name and a name without entry point are
    [WatsonError]s too. *)
Theorem load_backend_picks_first_plugin
    (entry_points : list (string * Result Watson.SyncBackend))
    (w : Watson.Watson) :
  let name := default "artichio" (backend_name (Watson.config w)) in
  (name = EmptyString ->
   Watson._load_backend entry_points w
   = Raise (mkExc WatsonError "Sync backend name must not be empty."))
  /\ (name <> EmptyString ->
      forall pre post loaded,
        entry_points = pre ++ (name, loaded) :: post ->
        (forall q, In q pre -> q.1 <> name) ->
        Watson._load_backend entry_points w
        = match loaded with
          | Ok cls => Ok cls
          | Raise exc =>
              Raise (mkExc WatsonError
                       ("Sync backend '" +:+ name +:+ "' failed to load: "
                        +:+ exc_msg exc))
          end)
  /\ (name <> EmptyString ->
      (forall q, In q entry_points -> q.1 <> name) ->
      Watson._load_backend entry_points w
      = Raise (mkExc WatsonError
                 ("Sync backend '" +:+ name +:+ "' is not installed."))).
Proof.
  intros name. unfold Watson._load_backend.
  change (match backend_name (Watson.config w) with
          | Some configured => configured
          | None => "artichio"
          end) with name.
  split_and!.
  - now intros ->.
  - intros Hname pre post loaded -> Hpre.
    destruct name as [|c rest] eqn:Hn; [now destruct Hname|]. cbn [truthy negb].
    rewrite (EngineFacts.find_first _ pre post (String c rest, loaded)).
    + now destruct loaded.
    + intros q Hq. apply String.eqb_neq. now apply Hpre.
    + apply String.eqb_refl.
  - intros Hname Hnone.
    destruct name as [|c rest] eqn:Hn; [now destruct Hname|]. cbn [truthy negb].
    rewrite EngineFacts.find_nowhere; [reflexivity|].
    intros q Hq. apply String.eqb_neq. now apply Hnone.
Qed.

Lemma load_backend_picks_first_plugin_witness :
  Watson._load_backend
    [("other", Ok (Samples.plugin Samples.server_down));
     ("artichio", Raise (mkExc ValueError "broken"));
     ("artichio", Ok (Samples.plugin Samples.server_down))]
    (Watson.this Samples.world)
  = Raise (mkExc WatsonError "Sync backend 'artichio' failed to load: broken").
Proof.
  destruct (load_backend_picks_first_plugin
              [("other", Ok (Samples.plugin Samples.server_down));
               ("artichio", Raise (mkExc ValueError "broken"));
               ("artichio", Ok (Samples.plugin Samples.server_down))]
              (Watson.this Samples.world)) as (_ & Hfirst & _).
  apply (Hfirst ltac:(discriminate)
           [("other", Ok (Samples.plugin Samples.server_down))]
           [("artichio", Ok (Samples.plugin Samples.server_down))]
           (Raise (mkExc ValueError "broken")) eq_refl).
  intros q [<-|[]]. discriminate.
Defined.

(** X8: after [pull()], returned or raised, the store holds under each id the
    last frame that was applied with that id and, under every other id, what
    it held before; no id is lost, and every frame the backend yielded has its
    id in the store. *)
Theorem pull_stores_last_applied
    (entry_points : list (string * Result Watson.SyncBackend))
    (world : Watson.World) (backend : Watson.SyncBackend)
    (yielded : list Frame) (ending : option Exception)
    (wire' : list Request) :
  let w := Watson.this world in
  let store := Watson.frames w in
  let store' := Watson.frames (Watson.this (Watson.pull entry_points world).2) in
  let applied := (Watson.pull_loop (Watson.last_sync w) yielded store []).2 in
  Watson._load_backend entry_points w = Ok backend ->
  Watson.backend_pull backend (Watson.config w) (Watson.last_sync w)
    (Watson.wire world)
  = ((yielded, ending), wire') ->
  (forall key,
      FramesOps.getitem key store'
      = match latest key applied with
        | Some g => Some g
        | None => FramesOps.getitem key store
        end)
  /\ (forall key,
        is_Some (FramesOps.getitem key store) ->
        is_Some (FramesOps.getitem key store'))
  /\ (forall f, In f yielded -> is_Some (FramesOps.getitem (id f) store')).
Proof.
  intros w store store' applied Hload Hpull.
  assert (store' = (Watson.pull_loop (Watson.last_sync w) yielded store []).1)
    as ->.
  { unfold store'.
    now rewrite (EngineFacts.pull_run entry_points world backend yielded ending
                   wire' Hload Hpull). }
  split_and!.
  - intros key. apply EngineFacts.pull_loop_lookup.
  - intros key. apply EngineFacts.pull_loop_keeps.
  - intros f. apply EngineFacts.pull_loop_present.
Qed.

Lemma pull_stores_last_applied_witness :
  let remote :=
    Samples.server_up [Samples.remote1; Samples.remote2; Samples.remote6] in
  let store' :=
    Watson.frames
      (Watson.this (Watson.pull (Samples.entry_points remote) Samples.world).2) in
  FramesOps.getitem "f2" store' = Some (mkFrame 30 45 "voyager" "f2" [] 300)
  /\ FramesOps.getitem "f1" store' = Some Samples.local1
  /\ is_Some (FramesOps.getitem "f6" store').
Proof.
  intros remote store'.
  destruct (pull_stores_last_applied (Samples.entry_points remote)
              Samples.world (Samples.plugin remote)
              [mkFrame 10 25 "apollo" "f1" ["code"] 100;
               mkFrame 30 45 "voyager" "f2" [] 300;
               mkFrame 96 99 "apollo" "f6" [] 80]
              None
              (Watson.pull (Samples.entry_points remote) Samples.world).2.(Watson.wire))
    as (Hlookup & _ & Hpresent).
  - vm_compute. reflexivity.
  - vm_compute. reflexivity.
  - split_and!.
    + unfold store'. rewrite Hlookup. vm_compute. reflexivity.
    + unfold store'. rewrite Hlookup. vm_compute. reflexivity.
    + apply (Hpresent (mkFrame 96 99 "apollo" "f6" [] 80)).
      right. right. left. reflexivity.
Defined.

(** X9: [pull()] keeps the store filed by id: if every frame was under its
    own id before the call, every frame is afterwards, whether the call
    returns or raises. *)
Theorem pull_keeps_frames_filed_by_id
    (entry_points : list (string * Result Watson.SyncBackend))
    (world : Watson.World) :
  filed_by_id (Watson.frames (Watson.this world)) ->
  filed_by_id
    (Watson.frames (Watson.this (Watson.pull entry_points world).2)).
Proof.
  intros Hfiled.
  destruct (Watson._load_backend entry_points (Watson.this world))
    as [backend|e] eqn:Hload.
  - destruct (Watson.backend_pull backend (Watson.config (Watson.this world))
                (Watson.last_sync (Watson.this world)) (Watson.wire world))
      as [[yielded ending] wire'] eqn:Hpull.
    rewrite (EngineFacts.pull_run entry_points world backend yielded ending
               wire' Hload Hpull).
    simpl. intros key f. rewrite EngineFacts.pull_loop_lookup.
    destruct (latest key _) as [g|] eqn:Hlatest.
    + intros [= <-]. now destruct (EngineFacts.latest_some key _ g Hlatest).
    + apply Hfiled.
  - unfold Watson.pull. now rewrite Hload.
Qed.

Lemma pull_keeps_frames_filed_by_id_witness :
  let remote := Samples.server_up [Samples.remote2; Samples.remote6] in
  filed_by_id
    (Watson.frames
       (Watson.this (Watson.pull (Samples.entry_points remote) Samples.world).2)).
Proof.
  intros remote. apply pull_keeps_frames_filed_by_id.
  intros key f Hget. apply EngineFacts.iter_in_key in Hget.
  vm_compute in Hget.
  repeat (destruct Hget as [[= <- <-]|Hget]; [reflexivity|]).
  destruct Hget.
Defined.

(** X10: a second [pull()] against a remote that yields the same frames
    leaves the store exactly as the first one left it, and returns the yielded
    frames whose [updated_at] is greater than the cursor, all of them and only
    them: the cursor has not moved, so they are applied again. *)
Theorem second_pull_changes_nothing
    (entry_points : list (string * Result Watson.SyncBackend))
    (world : Watson.World) (backend : Watson.SyncBackend)
    (yielded : list Frame) (ending1 ending2 : option Exception)
    (wire1 wire2 : list Request) :
  let w := Watson.this world in
  let c := Watson.last_sync w in
  let world1 := (Watson.pull entry_points world).2 in
  Watson._load_backend entry_points w = Ok backend ->
  Watson.backend_pull backend (Watson.config w) c (Watson.wire world)
  = ((yielded, ending1), wire1) ->
  Watson.backend_pull backend (Watson.config w) c wire1
  = ((yielded, ending2), wire2) ->
  Watson.pull entry_points world1
  = (match ending2 with
     | None => Ok (List.filter (newer c) yielded)
     | Some e => Raise e
     end,
     {| Watson.this := Watson.this world1; Watson.wire := wire2 |}).
Proof.
  intros w c world1 Hload Hpull1 Hpull2.
  assert (world1
          = {| Watson.this :=
                 {| Watson.frames :=
                      (Watson.pull_loop c yielded (Watson.frames w) []).1;
                    Watson.last_sync := c;
                    Watson.config := Watson.config w |};
               Watson.wire := wire1 |}) as Hworld1.
  { unfold world1.
    now rewrite (EngineFacts.pull_run entry_points world backend yielded
                   ending1 wire1 Hload Hpull1). }
  rewrite Hworld1.
  rewrite (EngineFacts.pull_run entry_points _ backend yielded ending2 wire2).
  - cbn [Watson.this Watson.frames Watson.last_sync Watson.config].
    now rewrite (EngineFacts.pull_loop_again c yielded (Watson.frames w)).
  - rewrite <- Hload. now apply EngineFacts.load_backend_by_config.
  - exact Hpull2.
Qed.

Lemma second_pull_changes_nothing_witness :
  let remote :=
    Samples.server_up [Samples.remote1; Samples.remote2; Samples.remote6] in
  let world1 := (Watson.pull (Samples.entry_points remote) Samples.world).2 in
  let again := Watson.pull (Samples.entry_points remote) world1 in
  again.1 = Ok [mkFrame 30 45 "voyager" "f2" [] 300]
  /\ Watson.this again.2 = Watson.this world1.
Proof.
  intros remote world1 again.
  assert (again
          = (Ok (List.filter (newer 100)
                   [mkFrame 10 25 "apollo" "f1" ["code"] 100;
                    mkFrame 30 45 "voyager" "f2" [] 300;
                    mkFrame 96 99 "apollo" "f6" [] 80]),
             {| Watson.this := Watson.this world1;
                Watson.wire := Watson.wire again.2 |})) as Hagain.
  { apply (second_pull_changes_nothing (Samples.entry_points remote)
             Samples.world (Samples.plugin remote)
             [mkFrame 10 25 "apollo" "f1" ["code"] 100;
              mkFrame 30 45 "voyager" "f2" [] 300;
              mkFrame 96 99 "apollo" "f6" [] 80]
             None None (Watson.wire world1) (Watson.wire again.2));
      vm_compute; reflexivity. }
  rewrite Hagain. split; reflexivity.
Defined.

(** X11: the list [pull()] returns is made of yielded frames in the order
    they were yielded; it has every yielded frame that is newer than the
    cursor, and each of its frames is newer than the cursor or bears an id
    that the store did not have before the call. *)
Theorem pull_returns_in_order
    (entry_points : list (string * Result Watson.SyncBackend))
    (world : Watson.World) (backend : Watson.SyncBackend)
    (yielded : list Frame) (wire' : list Request) :
  let w := Watson.this world in
  let c := Watson.last_sync w in
  Watson._load_backend entry_points w = Ok backend ->
  Watson.backend_pull backend (Watson.config w) c (Watson.wire world)
  = ((yielded, None), wire') ->
  exists returned,
    (Watson.pull entry_points world).1 = Ok returned
    /\ sublist returned yielded
    /\ (forall f, In f yielded -> c < updated_at f -> In f returned)
    /\ (forall f,
          In f returned ->
          c < updated_at f
          \/ FramesOps.getitem (id f) (Watson.frames w) = None).
Proof.
  intros w c Hload Hpull.
  exists (Watson.pull_loop c yielded (Watson.frames w) []).2.
  split_and!.
  - now rewrite (EngineFacts.pull_run entry_points world backend yielded None
                   wire' Hload Hpull).
  - apply PullFacts.pull_loop_sublist.
  - intros f Hin Hlt. apply EngineFacts.newer_applied.
    apply filter_In. split; [exact Hin|]. now apply Z.ltb_lt.
  - intros f Hin.
    destruct (FramesOps.getitem (id f) (Watson.frames w)) as [o|] eqn:Hget;
      [left|now right].
    assert (In f (List.filter (newer c) yielded)) as Hnew.
    { apply (EngineFacts.pull_loop_applied_newer c yielded (Watson.frames w) f);
        [rewrite Hget; eauto|exact Hin]. }
    apply filter_In in Hnew. now apply Z.ltb_lt.
Qed.

Lemma pull_returns_in_order_witness :
  let remote :=
    Samples.server_up [Samples.remote6; Samples.remote1; Samples.remote2] in
  exists returned,
    (Watson.pull (Samples.entry_points remote) Samples.world).1 = Ok returned
    /\ In (mkFrame 30 45 "voyager" "f2" [] 300) returned.
Proof.
  intros remote.
  destruct (pull_returns_in_order (Samples.entry_points remote) Samples.world
              (Samples.plugin remote)
              [mkFrame 96 99 "apollo" "f6" [] 80;
               mkFrame 10 25 "apollo" "f1" ["code"] 100;
               mkFrame 30 45 "voyager" "f2" [] 300]
              (Watson.pull (Samples.entry_points remote) Samples.world).2.(Watson.wire))
    as (returned & Hok & _ & Hnewer & _).
  - vm_compute. reflexivity.
  - vm_compute. reflexivity.
  - exists returned. split; [exact Hok|].
    apply Hnewer; [right; right; left; reflexivity|reflexivity].
Defined.

(** X12: through the HTTP backend, a [pull()] whose frames request is
    answered with a 200 and no frame returns the empty list, leaves the
    [Watson] object as it was and has sent that one request only: the project
    listing is not asked for. *)
Theorem pull_of_empty_remote
    (entry_points : list (string * Result Watson.SyncBackend))
    (server : Server) (py_str : Payload -> string)
    (arrow_str : Timestamp -> string) (utcnow : Timestamp)
    (world : Watson.World) (dest : string) (headers : list (string * string))
    (response : Response) (body : Payload) :
  let w := Watson.this world in
  let req := mkRequest GET dest headers (Some (Watson.last_sync w)) None in
  Watson._load_backend entry_points w
  = Ok (Watson.ArtichIOSync server py_str arrow_str utcnow) ->
  ArtichIO._get_request_info (Watson.config w) "frames" = Ok (dest, headers) ->
  server (Watson.wire world) req = Responded response ->
  status_code response = 200 ->
  json response = Some body ->
  ArtichIO.frame_objects body = Ok [] ->
  Watson.pull entry_points world
  = (Ok [], {| Watson.this := w; Watson.wire := Watson.wire world ++ [req] |}).
Proof.
  intros w req Hload Hinfo Hreply Hstatus Hbody Hframes.
  rewrite (EngineFacts.pull_run entry_points world _ [] None
             (Watson.wire world ++ [req]) Hload).
  - simpl. fold w. now destruct w.
  - unfold Watson.ArtichIOSync, Watson.backend_pull, ArtichIO.pull.
    cbn [ArtichIO.self ArtichIO.config ArtichIO.__init__ ArtichIO.sent].
    fold w. rewrite Hinfo.
    unfold ArtichIO.requests_get, ArtichIO.send.
    cbn [ArtichIO.self ArtichIO.sent]. fold req.
    rewrite Hreply, Hstatus, Hbody. cbn [Z.eqb Pos.eqb].
    unfold ArtichIO.frame_objects in Hframes.
    destruct (ArtichIO.frame_elements body) as [wire|e|e]; try discriminate.
    injection Hframes as ->. reflexivity.
Qed.

Lemma pull_of_empty_remote_witness :
  Watson.pull (Samples.entry_points (Samples.server_up [])) Samples.world
  = (Ok [],
     {| Watson.this := Watson.this Samples.world;
        Watson.wire :=
          [mkRequest GET "https://api.crick.io/frames/"
             [("content-type", "application/json");
              ("Authorization", "Token s3cr3t")] (Some 100) None] |}).
Proof.
  apply (pull_of_empty_remote (Samples.entry_points (Samples.server_up []))
           (Samples.server_up []) Samples.py_str Samples.arrow_str
           Samples.utcnow Samples.world "https://api.crick.io/frames/"
           [("content-type", "application/json");
            ("Authorization", "Token s3cr3t")]
           (mkResponse 200 (Some (FrameList []))) (FrameList []));
    reflexivity.
Defined.

(** X13: when no local frame lies strictly between the cursor and
    [last_pull], [push(last_pull)] through the HTTP backend still contacts the
    remote: it sends exactly one request, the POST of an empty array, and
    returns the empty list when that is answered with a 201. *)
Theorem push_of_empty_window
    (entry_points : list (string * Result Watson.SyncBackend))
    (server : Server) (py_str : Payload -> string)
    (arrow_str : Timestamp -> string) (utcnow : Timestamp)
    (world : Watson.World) (last_pull : Timestamp)
    (dest : string) (headers : list (string * string)) :
  let w := Watson.this world in
  let req := mkRequest POST dest headers None (Some []) in
  let world' :=
    {| Watson.this := w; Watson.wire := Watson.wire world ++ [req] |} in
  Watson._load_backend entry_points w
  = Ok (Watson.ArtichIOSync server py_str arrow_str utcnow) ->
  ArtichIO._get_request_info (Watson.config w) "frames/bulk"
  = Ok (dest, headers) ->
  (forall key f,
      FramesOps.getitem key (Watson.frames w) = Some f ->
      ~ (Watson.last_sync w < updated_at f < last_pull)) ->
  Watson.push_batch w last_pull = []
  /\ (Watson.push entry_points last_pull world).2 = world'
  /\ (forall response,
        server (Watson.wire world) req = Responded response ->
        status_code response = 201 ->
        Watson.push entry_points last_pull world = (Ok [], world')).
Proof.
  intros w req world' Hload Hinfo Hwindow.
  assert (Watson.push_batch w last_pull = []) as Hbatch.
  { destruct (Watson.push_batch w last_pull) as [|f rest] eqn:Hb;
      [reflexivity|].
    assert (In f (Watson.push_batch w last_pull)) as Hin
      by (rewrite Hb; now left).
    apply EngineFacts.push_batch_in in Hin.
    destruct Hin as [[key Hkey] Hbetween].
    now destruct (Hwindow key f Hkey). }
  split; [exact Hbatch|].
  set (s := ArtichIO.mkSession (ArtichIO.__init__ (Watson.config w))
              (Watson.wire world)).
  assert (forall outcome,
             ArtichIO.push server py_str arrow_str [] s = outcome ->
             Watson.push entry_points last_pull world
             = (outcome.1,
                {| Watson.this := w;
                   Watson.wire := ArtichIO.sent outcome.2 |})) as Hpush.
  { intros outcome <-. unfold Watson.push. fold w. rewrite Hload, Hbatch.
    unfold Watson.ArtichIOSync, Watson.backend_push. fold s.
    now destruct (ArtichIO.push server py_str arrow_str [] s). }
  pose proof (PushFacts.push_unfold server py_str arrow_str [] s dest headers
                Hinfo) as Hunfold.
  cbn [ArtichIO.push_loop] in Hunfold. unfold ret in Hunfold.
  cbn zeta in Hunfold. cbn [ArtichIO.self ArtichIO.sent s] in Hunfold.
  fold req in Hunfold.
  split.
  - rewrite (Hpush _ eq_refl), Hunfold. unfold world'.
    destruct (server (Watson.wire world) req) as [|response]; [reflexivity|].
    destruct (status_code response =? 201); [reflexivity|].
    now destruct (json response).
  - intros response Hreply Hstatus.
    rewrite (Hpush _ eq_refl), Hunfold, Hreply, Hstatus. reflexivity.
Qed.

Lemma push_of_empty_window_witness :
  Watson.push (Samples.entry_points (Samples.server_up [])) 100 Samples.world
  = (Ok [],
     {| Watson.this := Watson.this Samples.world;
        Watson.wire :=
          [mkRequest POST "https://api.crick.io/frames/bulk/"
             [("content-type", "application/json");
              ("Authorization", "Token s3cr3t")] None (Some [])] |}).
Proof.
  destruct (push_of_empty_window (Samples.entry_points (Samples.server_up []))
              (Samples.server_up []) Samples.py_str Samples.arrow_str
              Samples.utcnow Samples.world 100
              "https://api.crick.io/frames/bulk/"
              [("content-type", "application/json");
               ("Authorization", "Token s3cr3t")])
    as (_ & _ & Hok).
  - reflexivity.
  - reflexivity.
  - intros key f _. simpl. lia.
  - exact (Hok (mkResponse 201 (Some (Document "created"))) eq_refl eq_refl).
Defined.

(** X14: compared with itself, a store filed by id reports nothing: no frame
    conflicts and none is to be merged. *)
Theorem merge_report_of_own_frames (w : Watson.Watson) :
  filed_by_id (Watson.frames w) ->
  Watson.merge_report w (Watson.frames w) = ([], []).
Proof.
  intros Hfiled. unfold Watson.merge_report. rewrite merge_loop_filter.
  assert (forall g,
             In g (FramesOps.iter (Watson.frames w)) ->
             FramesOps.getitem (id g) (Watson.frames w) = Some g) as Hown.
  { intros g Hin. apply EngineFacts.iter_in in Hin.
    destruct Hin as [key Hkey]. now rewrite (Hfiled key g Hkey). }
  rewrite !EngineFacts.filter_nothing; [reflexivity| |].
  - intros g Hin. unfold is_mergeable. now rewrite (Hown g Hin).
  - intros g Hin. unfold is_conflicting. rewrite (Hown g Hin).
    now rewrite bool_decide_eq_true_2.
Qed.

Lemma merge_report_of_own_frames_witness :
  Watson.merge_report (Watson.this Samples.world) Samples.store = ([], []).
Proof.
  apply (merge_report_of_own_frames (Watson.this Samples.world)).
  intros key f Hget. apply EngineFacts.iter_in_key in Hget.
  vm_compute in Hget.
  repeat (destruct Hget as [[= <- <-]|Hget]; [reflexivity|]).
  destruct Hget.
Defined.

(** X15: when the local store has none of the ids of the conflict set, no
    frame conflicts and the whole conflict set is to be merged, in its order;
    this is so in particular for an empty local store. *)
Theorem merge_report_of_unknown_frames
    (w : Watson.Watson) (conflict_file_frames : Frames) :
  (forall g,
      In g (FramesOps.iter conflict_file_frames) ->
      FramesOps.getitem (id g) (Watson.frames w) = None) ->
  Watson.merge_report w conflict_file_frames
  = ([], FramesOps.iter conflict_file_frames).
Proof.
  intros Hnew. unfold Watson.merge_report. rewrite merge_loop_filter.
  rewrite EngineFacts.filter_nothing, EngineFacts.filter_everything;
    [reflexivity| |].
  - intros g Hin. unfold is_mergeable. now rewrite (Hnew g Hin).
  - intros g Hin. unfold is_conflicting. now rewrite (Hnew g Hin).
Qed.

Lemma merge_report_of_unknown_frames_witness :
  Watson.merge_report (Watson.mkWatson (mkFrames ∅ false) 0 Samples.cfg)
    Samples.store
  = ([], FramesOps.iter Samples.store).
Proof.
  apply (merge_report_of_unknown_frames
           (Watson.mkWatson (mkFrames ∅ false) 0 Samples.cfg) Samples.store).
  intros g _. reflexivity.
Defined.


(** * Properties of the frame in progress *)

Module TrackingFacts.

  Import Tracking.

(** The setter assigns nothing when the start it is given has no date. *)
Lemma set_current_outcome (disk : Disk) (value : option RawState)
    (now : Timestamp) (t : Instance) :
  set_current disk value now t
  = match start_error disk value with
    | Some e => (Raise e, t)
    | None => (Ok tt, with_current (as_started value now) t)
    end.
Proof.
  unfold set_current, start_error, as_started, modify.
  destruct value as [[[project|] [date|] tags]|]; try reflexivity.
  cbn [r_project r_start r_tags]. unfold bind, lift, _parse_date.
  now destruct (date_error disk date).
Qed.

Lemma set_current_as_started (disk : Disk) (value : option RawState)
    (now : Timestamp) (t : Instance) :
  start_error disk value = None ->
  set_current disk value now t
  = (Ok tt, with_current (as_started value now) t).
Proof. intros Hstart. now rewrite set_current_outcome, Hstart. Qed.

(** Once [_current] is set, reading it changes nothing. *)
Lemma current_loaded (disk : Disk) (now : Timestamp) (t : Instance)
    (cur old : option Started) :
  _current t = Some cur ->
  _old_state t = Some old ->
  current disk now t = (Ok cur, t).
Proof.
  intros Hcur Hold. unfold current, bind, gets, ret, modify.
  rewrite Hcur. simpl. rewrite Hold. simpl. now rewrite Hcur.
Qed.

Lemma with_current_loaded (cur : option Started) (t : Instance) :
  _current (with_current cur t) = Some cur
  /\ is_Some (_old_state (with_current cur t)).
Proof.
  unfold with_current. simpl. split; [reflexivity|].
  destruct (_old_state t); eauto.
Qed.

Lemma current_after_set (disk : Disk) (now : Timestamp)
    (cur : option Started) (t : Instance) :
  current disk now (with_current cur t) = (Ok cur, with_current cur t).
Proof.
  destruct (with_current_loaded cur t) as [Hcur [old Hold]].
  exact (current_loaded disk now _ cur old Hcur Hold).
Qed.

(** The first read loads the state file. *)
Lemma current_first (disk : Disk) (now : Timestamp) (t : Instance) :
  _current t = None ->
  current disk now t
  = match _load_json_file (state_file t) (state_read disk) empty_dict with
    | Ok raw =>
        match start_error disk (Some raw) with
        | Some e => (Raise e, t)
        | None =>
            (Ok (as_started (Some raw) now),
             with_current (as_started (Some raw) now) t)
        end
    | Raise e => (Raise e, t)
    end.
Proof.
  intros Hnone. unfold current, bind at 1, gets. rewrite Hnone.
  unfold bind at 1. unfold bind at 1, lift.
  destruct (_load_json_file (state_file t) (state_read disk) empty_dict)
    as [raw|e]; [|reflexivity].
  rewrite set_current_outcome.
  destruct (start_error disk (Some raw)) as [e|]; [reflexivity|].
  destruct (with_current_loaded (as_started (Some raw) now) t)
    as [Hcur [old Hold]].
  unfold bind, modify, gets, ret. rewrite Hold, Hcur. reflexivity.
Qed.

(** Whatever [current] returns is what [_current] holds afterwards, and a
    second read returns it again. *)
Lemma current_returns (disk : Disk) (now : Timestamp) (t t1 : Instance)
    (cur : option Started) :
  current disk now t = (Ok cur, t1) ->
  _current t1 = Some cur
  /\ is_Some (_old_state t1)
  /\ forall disk' now', current disk' now' t1 = (Ok cur, t1).
Proof.
  intros Hcall.
  assert (_current t1 = Some cur /\ is_Some (_old_state t1)) as [Hcur Hold].
  { destruct (_current t) as [cur0|] eqn:Hc.
    - unfold current, bind, gets, ret, modify in Hcall. rewrite Hc in Hcall.
      simpl in Hcall. destruct (_old_state t) as [old|] eqn:Ho.
      + simpl in Hcall. rewrite Hc in Hcall. injection Hcall as <- <-.
        split; [exact Hc|]. rewrite Ho. eauto.
      + simpl in Hcall. rewrite Hc in Hcall. injection Hcall as <- <-.
        simpl. split; [first [reflexivity|exact Hc]|]. eauto.
    - rewrite (current_first disk now t Hc) in Hcall.
      destruct (_load_json_file _ _ _) as [raw|e]; [|discriminate].
      destruct (start_error disk (Some raw)); [discriminate|].
      injection Hcall as <- <-. apply with_current_loaded. }
  split; [exact Hcur|]. split; [exact Hold|].
  intros disk' now'. destruct Hold as [old Hold].
  exact (current_loaded disk' now' t1 cur old Hcur Hold).
Qed.

Lemma is_started_current (disk : Disk) (now : Timestamp) (t t1 : Instance)
    (started : bool) :
  is_started disk now t = (Ok started, t1) ->
  exists cur,
    current disk now t = (Ok cur, t1)
    /\ started = match cur with Some _ => true | None => false end.
Proof.
  unfold is_started, bind, ret.
  destruct (current disk now t) as [[cur|e] t'] eqn:Hcur; [|discriminate].
  intros [= <- <-]. now exists cur.
Qed.

(** A [start] that returns has found nothing in progress. *)
Lemma start_returns (disk : Disk) (now : Timestamp) (project : string)
    (tags : option (list string)) (t t2 : Instance) (cur : option Started) :
  start disk now project tags t = (Ok cur, t2) ->
  exists t1,
    truthy project = true
    /\ current disk now t = (Ok None, t1)
    /\ cur = Some (mkStarted project now (default [] tags))
    /\ t2 = with_current (Some (mkStarted project now (default [] tags))) t1.
Proof.
  unfold start. destruct (truthy project) eqn:Hp; [|discriminate].
  cbn [negb]. unfold bind at 1.
  destruct (current disk now t) as [[[running|]|e] t1] eqn:Hcur;
    try discriminate.
  unfold bind at 1. rewrite set_current_as_started by reflexivity.
  cbn [as_started r_project r_start r_tags default].
  rewrite current_after_set. intros [= <- <-].
  exists t1. now split_and!.
Qed.

End TrackingFacts.

(** X16: with a project name that is not empty and nothing in progress,
    [start] returns the new frame in progress, made of the project, the
    current instant and the tags (no tags when none are given), and from then
    on the object is started, whatever the state file holds. *)
Theorem start_begins_a_frame
    (disk : Tracking.Disk) (now : Timestamp) (project : string)
    (tags : option (list string)) (t t1 : Tracking.Instance) :
  let running := Tracking.mkStarted project now (default [] tags) in
  let t2 := Tracking.with_current (Some running) t1 in
  truthy project = true ->
  Tracking.is_started disk now t = (Ok false, t1) ->
  Tracking.start disk now project tags t = (Ok (Some running), t2)
  /\ (forall disk' now', Tracking.is_started disk' now' t2 = (Ok true, t2))
  /\ (forall disk' now',
        Tracking.current disk' now' t2 = (Ok (Some running), t2)).
Proof.
  intros running t2 Hp Hidle.
  destruct (TrackingFacts.is_started_current disk now t t1 false Hidle)
    as (cur & Hcur & Hfalse).
  destruct cur as [r|]; [discriminate|].
  assert (forall disk' now',
             Tracking.current disk' now' t2 = (Ok (Some running), t2))
    as Hread by (intros; apply TrackingFacts.current_after_set).
  split_and!.
  - unfold Tracking.start. rewrite Hp. cbn [negb]. unfold bind at 1.
    rewrite Hcur. unfold bind at 1.
    rewrite TrackingFacts.set_current_as_started by reflexivity.
    cbn [as_started Tracking.r_project Tracking.r_start Tracking.r_tags default].
    apply Hread.
  - intros disk' now'. unfold Tracking.is_started, bind, ret.
    now rewrite Hread.
  - exact Hread.
Qed.

Lemma start_begins_a_frame_witness :
  (Tracking.start no_files 1700 "apollo" None fresh_instance).1
  = Ok (Some (Tracking.mkStarted "apollo" 1700 [])).
Proof.
  destruct (start_begins_a_frame no_files 1700 "apollo" None fresh_instance
              (Tracking.with_current None fresh_instance)) as (Hstart & _).
  - reflexivity.
  - reflexivity.
  - now rewrite Hstart.
Defined.

(** X17: once a [start] has returned, another [start] raises the
    [WatsonError] that names the project in progress and changes nothing,
    whatever project it is given. *)
Theorem second_start_is_refused
    (disk disk' : Tracking.Disk) (now now' : Timestamp)
    (project other : string) (tags tags' : option (list string))
    (t t2 : Tracking.Instance) (cur : option Tracking.Started) :
  Tracking.start disk now project tags t = (Ok cur, t2) ->
  truthy other = true ->
  Tracking.start disk' now' other tags' t2
  = (Raise (mkExc WatsonError
              ("Project " +:+ project +:+ " is already started.")), t2).
Proof.
  intros Hstart Hother.
  destruct (TrackingFacts.start_returns disk now project tags t t2 cur Hstart)
    as (t1 & _ & _ & -> & ->).
  unfold Tracking.start. rewrite Hother. cbn [negb]. unfold bind at 1.
  now rewrite TrackingFacts.current_after_set.
Qed.

Lemma second_start_is_refused_witness :
  let t2 := (Tracking.start no_files 1700 "apollo" None fresh_instance).2 in
  Tracking.start no_files 1800 "voyager" (Some ["code"]) t2
  = (Raise (mkExc WatsonError "Project apollo is already started."), t2).
Proof.
  intros t2.
  apply (second_start_is_refused no_files no_files 1700 1800 "apollo" "voyager"
           None (Some ["code"]) fresh_instance t2
           (Some (Tracking.mkStarted "apollo" 1700 []))); reflexivity.
Defined.

(** X18: a [cancel] after a [start] returns the frame that [start] returned
    and leaves nothing in progress, so that [start] can begin another. *)
Theorem cancel_returns_the_started_frame
    (disk disk' : Tracking.Disk) (now now' : Timestamp) (project : string)
    (tags : option (list string)) (t t2 : Tracking.Instance)
    (cur : option Tracking.Started) :
  let t3 := Tracking.with_current None t2 in
  Tracking.start disk now project tags t = (Ok cur, t2) ->
  Tracking.cancel disk' now' t2 = (Ok cur, t3)
  /\ (forall disk'' now'',
        Tracking.is_started disk'' now'' t3 = (Ok false, t3))
  /\ (forall disk'' now'' next tags',
        truthy next = true ->
        (Tracking.start disk'' now'' next tags' t3).1
        = Ok (Some (Tracking.mkStarted next now'' (default [] tags')))).
Proof.
  intros t3 Hstart.
  destruct (TrackingFacts.start_returns disk now project tags t t2 cur Hstart)
    as (t1 & _ & _ & -> & Ht2).
  assert (forall disk'' now'',
             Tracking.current disk'' now'' t3 = (Ok None, t3)) as Hidle
    by (intros; apply TrackingFacts.current_after_set).
  split_and!.
  - assert (forall d n,
               Tracking.current d n t2
               = (Ok (Some (Tracking.mkStarted project now (default [] tags))),
                  t2)) as Hread
      by (intros; rewrite Ht2; apply TrackingFacts.current_after_set).
    assert (Tracking.is_started disk' now' t2 = (Ok true, t2)) as Hstarted
      by (unfold Tracking.is_started, bind, ret; now rewrite Hread).
    unfold Tracking.cancel. unfold bind at 1. rewrite Hstarted. cbn [negb].
    unfold bind at 1. rewrite Hread. unfold bind.
    now rewrite TrackingFacts.set_current_as_started by reflexivity.
  - intros disk'' now''. unfold Tracking.is_started, bind, ret.
    now rewrite Hidle.
  - intros disk'' now'' next tags' Hnext.
    unfold Tracking.start. rewrite Hnext. cbn [negb]. unfold bind at 1.
    rewrite Hidle. unfold bind at 1.
    rewrite TrackingFacts.set_current_as_started by reflexivity.
    cbn [as_started Tracking.r_project Tracking.r_start Tracking.r_tags default].
    now rewrite TrackingFacts.current_after_set.
Qed.

Lemma cancel_returns_the_started_frame_witness :
  let t2 :=
    (Tracking.start no_files 1700 "apollo" (Some ["code"]) fresh_instance).2 in
  (Tracking.cancel no_files 1800 t2).1
  = Ok (Some (Tracking.mkStarted "apollo" 1700 ["code"])).
Proof.
  intros t2.
  destruct (cancel_returns_the_started_frame no_files no_files 1700 1800
              "apollo" (Some ["code"]) fresh_instance t2
              (Some (Tracking.mkStarted "apollo" 1700 ["code"])))
    as (Hcancel & _).
  - reflexivity.
  - now rewrite Hcancel.
Defined.

(** X20: the first read of the frame in progress takes it from the state
    file.  A file that cannot be opened, an empty file and a state without
    project all mean that nothing is in progress.  A state with a project is
    the frame in progress, without tags if the file gives none: started at
    the instant of the read if the file gives no start, at the start the file
    gives if [_parse_date] converts it; if it does not, the read raises what
    [_parse_date] raises and leaves the object as it was.  A file that is not
    empty and not JSON is a [WatsonError] that names the file, and leaves the
    object as it was. *)
Theorem state_file_is_read_leniently
    (disk : Tracking.Disk) (now : Timestamp) (t : Tracking.Instance) :
  let file := Tracking.state_read disk in
  Tracking._current t = None ->
  (file = Tracking.CannotOpen
   \/ (exists why, file = Tracking.NotJson 0 why)
   \/ (exists raw, file = Tracking.Loaded raw /\ Tracking.r_project raw = None) ->
   Tracking.is_started disk now t = (Ok false, Tracking.with_current None t))
  /\ (forall raw project,
        file = Tracking.Loaded raw ->
        Tracking.r_project raw = Some project ->
        Tracking.r_start raw = None ->
        let running :=
          Tracking.mkStarted project now (default [] (Tracking.r_tags raw)) in
        Tracking.current disk now t
        = (Ok (Some running), Tracking.with_current (Some running) t))
  /\ (forall raw project date start,
        file = Tracking.Loaded raw ->
        Tracking.r_project raw = Some project ->
        Tracking.r_start raw = Some date ->
        Tracking._parse_date disk date = Ok start ->
        let running :=
          Tracking.mkStarted project start (default [] (Tracking.r_tags raw)) in
        Tracking.current disk now t
        = (Ok (Some running), Tracking.with_current (Some running) t))
  /\ (forall raw project date e,
        file = Tracking.Loaded raw ->
        Tracking.r_project raw = Some project ->
        Tracking.r_start raw = Some date ->
        Tracking._parse_date disk date = Raise e ->
        Tracking.current disk now t = (Raise e, t)
        /\ Tracking.is_started disk now t = (Raise e, t))
  /\ (forall size why,
        file = Tracking.NotJson (S size) why ->
        Tracking.is_started disk now t
        = (Raise (mkExc WatsonError
                    ("Invalid JSON file " +:+ Tracking.state_file t +:+ ": "
                     +:+ why)), t))
  /\ (forall why,
        file = Tracking.Failed why ->
        Tracking.is_started disk now t
        = (Raise (mkExc WatsonError
                    ("Unexpected error while loading JSON file "
                     +:+ Tracking.state_file t +:+ ": " +:+ why)), t)).
Proof.
  intros file Hnone.
  pose proof (TrackingFacts.current_first disk now t Hnone) as Hfirst.
  fold file in Hfirst. split_and!.
  - intros Hfile. unfold Tracking.is_started, bind, ret. rewrite Hfirst.
    destruct Hfile as [->|[[why ->]|(raw & -> & Hp)]]; simpl;
      [reflexivity|reflexivity|].
    unfold as_started. now rewrite Hp.
  - intros raw project Hfile Hp Hs running. rewrite Hfirst, Hfile.
    cbn [Tracking._load_json_file]. unfold start_error, as_started.
    now rewrite Hp, Hs.
  - intros raw project date start Hfile Hp Hs Hdate running.
    rewrite Hfirst, Hfile. cbn [Tracking._load_json_file].
    unfold Tracking._parse_date in Hdate. unfold start_error, as_started.
    rewrite Hp, Hs.
    destruct (Tracking.date_error disk date); [discriminate|].
    injection Hdate as Hstart. unfold running. now rewrite <- Hstart.
  - intros raw project date e Hfile Hp Hs Hdate.
    assert (Tracking.current disk now t = (Raise e, t)) as Hraise.
    { rewrite Hfirst, Hfile. cbn [Tracking._load_json_file].
      unfold Tracking._parse_date in Hdate. unfold start_error.
      rewrite Hp, Hs. destruct (Tracking.date_error disk date);
        [now injection Hdate as ->|discriminate]. }
    split; [exact Hraise|].
    unfold Tracking.is_started, bind. now rewrite Hraise.
  - intros size why Hfile. unfold Tracking.is_started, bind.
    now rewrite Hfirst, Hfile.
  - intros why Hfile. unfold Tracking.is_started, bind.
    now rewrite Hfirst, Hfile.
Qed.

Lemma state_file_is_read_leniently_witness :
  let state (start : Timestamp) :=
    Tracking.mkDisk
      (Tracking.Loaded (Tracking.mkRaw (Some "apollo") (Some start) None))
      Tracking.CannotOpen year_out_of_range in
  Tracking.current (state 1500) 1700 fresh_instance
  = (Ok (Some (Tracking.mkStarted "apollo" 1500 [])),
     Tracking.with_current (Some (Tracking.mkStarted "apollo" 1500 []))
       fresh_instance)
  /\ Tracking.current (state 253402300800) 1700 fresh_instance
     = (Raise (mkExc ValueError "year is out of range"), fresh_instance).
Proof.
  intros state. split.
  - destruct (state_file_is_read_leniently (state 1500) 1700 fresh_instance
                eq_refl) as (_ & _ & Hloaded & _).
    exact (Hloaded (Tracking.mkRaw (Some "apollo") (Some 1500) None) "apollo"
             1500 1500 eq_refl eq_refl eq_refl eq_refl).
  - destruct (state_file_is_read_leniently (state 253402300800) 1700
                fresh_instance eq_refl) as (_ & _ & _ & Hraise & _).
    exact (proj1
             (Hraise (Tracking.mkRaw (Some "apollo") (Some 253402300800) None)
                "apollo" 253402300800
                (mkExc ValueError "year is out of range")
                eq_refl eq_refl eq_refl eq_refl)).
Defined.

(** X21: the first read of [last_sync] takes it from its file: the epoch
    when the file cannot be opened, is empty or holds 0; the timestamp it
    holds otherwise, if [_parse_date] converts it; if it does not, the read
    raises what [_parse_date] raises and leaves the object as it was; and a
    [WatsonError] that names the file when it is not empty and not JSON.  A
    read that has returned is not repeated: later reads return the same
    cursor whatever the file holds by then. *)
Theorem last_sync_defaults_to_the_epoch
    (disk : Tracking.Disk) (t : Tracking.Instance) :
  let file := Tracking.last_sync_read disk in
  Tracking._last_sync t = None ->
  (file = Tracking.CannotOpen
   \/ (exists why, file = Tracking.NotJson 0 why)
   \/ file = Tracking.Loaded 0 ->
   (Tracking.last_sync disk t).1 = Ok (Some 0))
  /\ (forall value date,
        file = Tracking.Loaded value ->
        value <> 0 ->
        Tracking._parse_date disk value = Ok date ->
        (Tracking.last_sync disk t).1 = Ok (Some date))
  /\ (forall value e,
        file = Tracking.Loaded value ->
        value <> 0 ->
        Tracking._parse_date disk value = Raise e ->
        Tracking.last_sync disk t = (Raise e, t))
  /\ (forall size why,
        file = Tracking.NotJson (S size) why ->
        Tracking.last_sync disk t
        = (Raise (mkExc WatsonError
                    ("Invalid JSON file " +:+ Tracking.last_sync_file t
                     +:+ ": " +:+ why)), t))
  /\ (forall value t1,
        Tracking.last_sync disk t = (Ok value, t1) ->
        is_Some value
        /\ forall disk', Tracking.last_sync disk' t1 = (Ok value, t1)).
Proof.
  intros file Hnone.
  assert (Tracking.last_sync disk t
          = match Tracking._load_json_file (Tracking.last_sync_file t) file 0 with
            | Ok value =>
                match (if value =? 0 then Ok 0
                       else Tracking._parse_date disk value) with
                | Ok date =>
                    (Ok (Some date),
                     {| Tracking._current := Tracking._current t;
                        Tracking._old_state := Tracking._old_state t;
                        Tracking._last_sync := Some date;
                        Tracking.state_file := Tracking.state_file t;
                        Tracking.last_sync_file := Tracking.last_sync_file t |})
                | Raise e => (Raise e, t)
                end
            | Raise e => (Raise e, t)
            end) as Hfirst.
  { unfold Tracking.last_sync, bind at 1, gets. rewrite Hnone.
    unfold bind at 1. unfold bind at 1, lift. fold file.
    destruct (Tracking._load_json_file _ file 0) as [value|e]; [|reflexivity].
    unfold Tracking.set_last_sync, bind at 1.
    destruct (value =? 0); [reflexivity|]. unfold lift.
    now destruct (Tracking._parse_date disk value). }
  split_and!.
  - intros [Hfile|[[why Hfile]|Hfile]]; now rewrite Hfirst, Hfile.
  - intros value date Hfile Hvalue Hdate. rewrite Hfirst, Hfile. simpl.
    now rewrite (proj2 (Z.eqb_neq _ _) Hvalue), Hdate.
  - intros value e Hfile Hvalue Hdate. rewrite Hfirst, Hfile. simpl.
    now rewrite (proj2 (Z.eqb_neq _ _) Hvalue), Hdate.
  - intros size why Hfile. now rewrite Hfirst, Hfile.
  - intros value t1 Hcall. rewrite Hfirst in Hcall.
    destruct (Tracking._load_json_file _ file 0) as [v|e]; [|discriminate].
    destruct (if v =? 0 then Ok 0 else Tracking._parse_date disk v)
      as [date|e]; [|discriminate].
    injection Hcall as <- <-. split; [eauto|].
    intros disk'. reflexivity.
Qed.

Lemma last_sync_defaults_to_the_epoch_witness :
  let cursor (value : Timestamp) :=
    Tracking.mkDisk Tracking.CannotOpen (Tracking.Loaded value)
      year_out_of_range in
  (Tracking.last_sync no_files fresh_instance).1 = Ok (Some 0)
  /\ (Tracking.last_sync (cursor 1500) fresh_instance).1 = Ok (Some 1500)
  /\ Tracking.last_sync (cursor 253402300800) fresh_instance
     = (Raise (mkExc ValueError "year is out of range"), fresh_instance).
Proof.
  intros cursor. split_and!.
  - destruct (last_sync_defaults_to_the_epoch no_files fresh_instance eq_refl)
      as (Hmissing & _).
    apply Hmissing. now left.
  - destruct (last_sync_defaults_to_the_epoch (cursor 1500) fresh_instance
                eq_refl) as (_ & Hloaded & _).
    apply (Hloaded 1500 1500); [reflexivity|discriminate|reflexivity].
  - destruct (last_sync_defaults_to_the_epoch (cursor 253402300800)
                fresh_instance eq_refl) as (_ & _ & Hraise & _).
    apply (Hraise 253402300800); [reflexivity|discriminate|reflexivity].
Defined.
